(** * Barcode inventory front end: scan pipeline, inventory table, spreadsheet bridge

    A shallow embedding of the three views of the application
    ([src/pages/Scanner.tsx], the dashboard view and [src/pages/Settings.tsx])
    together with the JavaScript primitives they rely on, followed by the
    properties of the specification that concern them.

    Conventions of the embedding.
    - The text the views hold is text of Basic Latin and Latin-1: a
      JavaScript string is a [string], and a character of type [ascii] is
      read as the code unit with the same number (U+0000 to U+00FF).  The
      filter of the table is also given on strings of UTF-16 code units
      (module [Wide]), where lowering a string is no longer done one code
      unit at a time.
    - A JavaScript number holding a quantity is an integer-valued double,
      kept as the [Z] it equals; what arithmetic and [parseInt] produce is
      rounded as a double is ([Js.numberValue]).
    - React state is a record; a handler is a function on that record.  The
      part of an [async] handler before its [await] and the part after it are
      two functions, and the requests that are awaited sit in the record.
    - A control calls the handler of the render that is on screen, which
      reads the current state.  A function handed to [setTimeout] keeps the
      handlers of the render that created it, hence the state of that
      render.
    - Time is a [nat] of milliseconds; the timers that are set wait in a
      queue, soonest first. *)

From Stdlib Require Import String Ascii List ZArith Lia Bool Arith.
From Stdlib Require Import DecimalString Permutation Sorted.
Import ListNotations.

Open Scope string_scope.
Open Scope bool_scope.
Open Scope nat_scope.

(* ================================================================= *)
(** ** JavaScript primitives *)

Module Js.

Definition code (c : ascii) : nat := nat_of_ascii c.

(** White space and line terminators, as stripped by [String.prototype.trim]
    and skipped by [parseInt]: TAB, LF, VT, FF, CR, SP and NBSP. *)
Definition isWhiteSpace (c : ascii) : bool :=
  let n := code c in
  ((9 <=? n) && (n <=? 13)) || (n =? 32) || (n =? 160).

Definition isEmpty (s : string) : bool :=
  match s with
  | "" => true
  | String _ _ => false
  end.

Fixpoint trimStart (s : string) : string :=
  match s with
  | "" => ""
  | String c s' => if isWhiteSpace c then trimStart s' else s
  end.

Fixpoint trimEnd (s : string) : string :=
  match s with
  | "" => ""
  | String c s' =>
      match trimEnd s' with
      | "" => if isWhiteSpace c then "" else String c ""
      | t => String c t
      end
  end.

(** [s.trim()] *)
Definition trim (s : string) : string := trimEnd (trimStart s).

(** Truthiness of a string: only the empty string is falsy. *)
Definition truthy (s : string) : bool := negb (isEmpty s).

(** [m || d] where [m] is a string or [undefined]. *)
Definition stringOr (m : option string) (d : string) : string :=
  match m with
  | Some x => if truthy x then x else d
  | None => d
  end.

(** [n || d] where [n] is a number; [None] stands for [NaN]. *)
Definition numberOr (n : option Z) (d : Z) : Z :=
  match n with
  | Some k => if (k =? 0)%Z then d else k
  | None => d
  end.

(** [s.toLowerCase()] on a string of code units U+0000 to U+00FF.  On
    these the Unicode lower-case mapping has no rule that looks at the
    neighbours of a character and none that changes the length: A to Z and
    the Latin-1 capitals U+00C0 to U+00DE without the multiplication sign
    U+00D7 move up by 32, every other code unit stays.  (Strings that hold
    other code units are the matter of module [Wide].) *)
Definition lowerChar (c : ascii) : ascii :=
  let n := code c in
  if ((65 <=? n) && (n <=? 90))
     || ((192 <=? n) && (n <=? 222) && negb (n =? 215))
  then ascii_of_nat (n + 32)
  else c.

Fixpoint toLowerCase (s : string) : string :=
  match s with
  | "" => ""
  | String c s' => String (lowerChar c) (toLowerCase s')
  end.

Fixpoint startsWith (s p : string) : bool :=
  match p, s with
  | "", _ => true
  | String _ _, "" => false
  | String b p', String a s' => Ascii.eqb a b && startsWith s' p'
  end.

(** [s.includes(sub)] *)
Fixpoint includes (s sub : string) : bool :=
  startsWith s sub ||
  match s with
  | "" => false
  | String _ s' => includes s' sub
  end.

(** Value of a digit in the given radix, as [parseInt] reads it. *)
Definition digitValue (radix : Z) (c : ascii) : option Z :=
  let n := Z.of_nat (code c) in
  let v :=
    (if (48 <=? n) && (n <=? 57) then Some (n - 48)
     else if (97 <=? n) && (n <=? 122) then Some (n - 87)
     else if (65 <=? n) && (n <=? 90) then Some (n - 55)
     else None)%Z in
  match v with
  | Some d => if (d <? radix)%Z then Some d else None
  | None => None
  end.

(** The longest prefix of digits, folded into its value; [acc] is [None]
    until a first digit was read. *)
Fixpoint parseDigits (radix : Z) (acc : option Z) (s : string) : option Z :=
  match s with
  | "" => acc
  | String c s' =>
      match digitValue radix c with
      | Some d =>
          let a := match acc with Some a => a | None => 0%Z end in
          parseDigits radix (Some (radix * a + d)%Z) s'
      | None => acc
      end
  end.

Definition isX (c : ascii) : bool := Ascii.eqb c "x" || Ascii.eqb c "X".

(** The first two code units are [0x] or [0X]. *)
Definition hexPrefixed (s : string) : bool :=
  match s with
  | String z (String x _) => Ascii.eqb z "0" && isX x
  | _ => false
  end.

(** [s.slice(2)] *)
Definition slice2 (s : string) : string :=
  match s with
  | String _ (String _ r) => r
  | _ => ""
  end.

(** The part of [parseInt] after the sign: a [0x] or [0X] prefix selects
    radix 16 and is removed, and the digits that follow are read up to the
    first other character. *)
Definition parseUnsigned (s : string) : option Z :=
  if hexPrefixed s then parseDigits 16 None (slice2 s)
  else parseDigits 10 None s.

(** The Number value of an integer: the nearest double, the one with the
    even significand when two are as near.  Up to 2^53 every integer is a
    double; above, 53 bits are kept.  (From 2^1024 - 2^970 on the Number
    value is [Infinity], which the model does not have.) *)
Definition numberValue (z : Z) : Z :=
  (let a := Z.abs z in
   if a <? 2 ^ 53 then z
   else
     let e := Z.log2 a - 52 in
     let q := a / 2 ^ e in
     let r := a mod 2 ^ e in
     let half := 2 ^ (e - 1) in
     let q' := if (half <? r) || ((r =? half) && Z.odd q) then q + 1 else q in
     Z.sgn z * (q' * 2 ^ e))%Z.

(** [a + b] on two integer-valued doubles. *)
Definition add (a b : Z) : Z := numberValue (a + b).

(** [parseInt(s)] without a radix argument; [None] is [NaN].  Leading white
    space is skipped and a sign is read first; the result is the Number
    value of the integer read.  (For a text of more than 20 significant
    digits ECMAScript lets an implementation replace the digits after the
    20th by zeros before rounding, and a text whose value reaches 2^1024
    reads as [Infinity]: such texts are outside the model.) *)
Definition parseInt (s : string) : option Z :=
  let s1 := trimStart s in
  let '(sign, s2) :=
    match s1 with
    | String c r =>
        if Ascii.eqb c "-" then ((-1)%Z, r)
        else if Ascii.eqb c "+" then (1%Z, r)
        else (1%Z, s1)
    | "" => (1%Z, s1)
    end in
  match parseUnsigned s2 with
  | Some n => Some (numberValue (sign * n))
  | None => None
  end.

(** [String(n)] for an integer. *)
Definition numberToString (n : Z) : string :=
  NilEmpty.string_of_int (Z.to_int n).

(** The values an [<input type="number">] hands to its [onChange] handler:
    the browser empties the value unless it is a valid floating-point number
    (an optional minus, digits and/or a fraction, an optional exponent). *)
Definition isDigit (c : ascii) : bool :=
  let n := code c in (48 <=? n) && (n <=? 57).

Fixpoint dropDigits (s : string) : string :=
  match s with
  | "" => ""
  | String c s' => if isDigit c then dropDigits s' else s
  end.

Definition startsWithDigit (s : string) : bool :=
  match s with
  | "" => false
  | String c _ => isDigit c
  end.

Definition validExponent (s : string) : bool :=
  match s with
  | "" => true
  | String e r =>
      (Ascii.eqb e "e" || Ascii.eqb e "E") &&
      let r' :=
        match r with
        | String g r2 => if Ascii.eqb g "+" || Ascii.eqb g "-" then r2 else r
        | "" => r
        end in
      startsWithDigit r' && isEmpty (dropDigits r')
  end.

Definition validUnsigned (s1 : string) : bool :=
  let s2 := dropDigits s1 in
  match s2 with
  | String d r =>
      if Ascii.eqb d "." && startsWithDigit r
      then validExponent (dropDigits r)
      else startsWithDigit s1 && validExponent s2
  | "" => startsWithDigit s1
  end.

Definition validFloatingPointNumber (s : string) : bool :=
  match s with
  | String c r => if Ascii.eqb c "-" then validUnsigned r else validUnsigned s
  | "" => false
  end.

Definition isNumberInputValue (v : string) : bool :=
  isEmpty v || validFloatingPointNumber v.

End Js.

(* ================================================================= *)
(** ** Database types ([src/lib/supabase.ts]) *)

Module Supabase.

(** Timestamps are instants, kept as a number of milliseconds; the text form
    that travels over the wire is not modelled. *)
Record InventoryItem := {
  id : string;
  user_id : string;
  barcode : string;
  product : string;
  colour : option string;
  size : option string;
  quantity : Z;
  low_stock_threshold : Z;
  created_at : Z;
  updated_at : Z
}.

Record GoogleSheetsSync := {
  sync_id : string;
  sync_user_id : string;
  sheet_id : option string;
  sheet_name : option string;
  last_sync_at : option Z;
  sync_status : string;
  error_message : option string;
  sync_created_at : Z
}.

(** What a rejected or failed call carries: [error.message] may be absent. *)
Record Failure := { message : option string }.

Inductive MessageType := success | error | info.

(** The banner of a view: [{ type, text }]. *)
Record Message := { type : MessageType; text : string }.

(** The [data] of a successful function call: the result, or the result
    wrapped in a [data] property; [data?.data || data] reads either. *)
Inductive Payload (A : Type) :=
| Direct (a : A)
| Wrapped (a : A).

Arguments Direct {A} a.
Arguments Wrapped {A} a.

Definition unwrap {A : Type} (d : Payload A) : A :=
  match d with
  | Direct a => a
  | Wrapped a => a
  end.

End Supabase.
Import Supabase.

(* ================================================================= *)
(** ** The scan view ([src/pages/Scanner.tsx]) *)

Module Scanner.

Inductive Action := increment | decrement.

Record ProductData := {
  pd_product : string;
  pd_colour : string;
  pd_size : string
}.

(** A call [supabase.functions.invoke(fn, { body })]. *)
Record Request := {
  fn : string;
  action : Action;
  body_barcode : string;
  productData : option ProductData
}.

(** Outcome of an awaited call: [error] set (or the promise rejected), or
    [data] returned. *)
Inductive InvokeResult :=
| InvokeError (e : Failure)
| InvokeData (d : Payload InventoryItem).

(** Which handler is suspended on a call. *)
Inductive Awaiting := AwaitScan | AwaitQuantity.

(** The two functions handed to [setTimeout].  The one of
    [handleInputChange] closes over [value] and over the
    [handleBarcodeSubmit] of the render in which the change happened, hence
    over that render's [isProcessing]. *)
Inductive Callback :=
| SubmitScan (value : string) (seenProcessing : bool)
| ClearMessage.

Record Timer := {
  timerId : nat;
  fireAt : nat;
  callback : Callback
}.

Record State := {
  barcodeInput : string;
  lastScannedItem : option InventoryItem;
  scanMessage : option Message;
  isProcessing : bool;
  (** [scanTimeoutRef.current]: the id of the last debounce timer *)
  scanTimeoutRef : option nat;
  (** the timers that are set and have neither run nor been cleared,
      soonest first *)
  timers : list Timer;
  nextTimerId : nat;
  (** calls awaited and not settled yet, oldest first *)
  inFlight : list (Awaiting * Request);
  (** every call made so far, oldest first *)
  sent : list Request;
  now : nat
}.

Definition setBarcodeInput (v : string) (s : State) : State :=
  {| barcodeInput := v; lastScannedItem := lastScannedItem s;
     scanMessage := scanMessage s; isProcessing := isProcessing s;
     scanTimeoutRef := scanTimeoutRef s; timers := timers s;
     nextTimerId := nextTimerId s;
     inFlight := inFlight s; sent := sent s; now := now s |}.

Definition setLastScannedItem (v : option InventoryItem) (s : State) : State :=
  {| barcodeInput := barcodeInput s; lastScannedItem := v;
     scanMessage := scanMessage s; isProcessing := isProcessing s;
     scanTimeoutRef := scanTimeoutRef s; timers := timers s;
     nextTimerId := nextTimerId s;
     inFlight := inFlight s; sent := sent s; now := now s |}.

Definition setScanMessage (v : option Message) (s : State) : State :=
  {| barcodeInput := barcodeInput s; lastScannedItem := lastScannedItem s;
     scanMessage := v; isProcessing := isProcessing s;
     scanTimeoutRef := scanTimeoutRef s; timers := timers s;
     nextTimerId := nextTimerId s;
     inFlight := inFlight s; sent := sent s; now := now s |}.

Definition setIsProcessing (v : bool) (s : State) : State :=
  {| barcodeInput := barcodeInput s; lastScannedItem := lastScannedItem s;
     scanMessage := scanMessage s; isProcessing := v;
     scanTimeoutRef := scanTimeoutRef s; timers := timers s;
     nextTimerId := nextTimerId s;
     inFlight := inFlight s; sent := sent s; now := now s |}.

Definition setScanTimeoutRef (v : option nat) (s : State) : State :=
  {| barcodeInput := barcodeInput s; lastScannedItem := lastScannedItem s;
     scanMessage := scanMessage s; isProcessing := isProcessing s;
     scanTimeoutRef := v; timers := timers s;
     nextTimerId := nextTimerId s;
     inFlight := inFlight s; sent := sent s; now := now s |}.

Definition setTimers (v : list Timer) (s : State) : State :=
  {| barcodeInput := barcodeInput s; lastScannedItem := lastScannedItem s;
     scanMessage := scanMessage s; isProcessing := isProcessing s;
     scanTimeoutRef := scanTimeoutRef s; timers := v;
     nextTimerId := nextTimerId s;
     inFlight := inFlight s; sent := sent s; now := now s |}.

Definition setNextTimerId (v : nat) (s : State) : State :=
  {| barcodeInput := barcodeInput s; lastScannedItem := lastScannedItem s;
     scanMessage := scanMessage s; isProcessing := isProcessing s;
     scanTimeoutRef := scanTimeoutRef s; timers := timers s;
     nextTimerId := v;
     inFlight := inFlight s; sent := sent s; now := now s |}.

Definition setInFlight (v : list (Awaiting * Request)) (s : State) : State :=
  {| barcodeInput := barcodeInput s; lastScannedItem := lastScannedItem s;
     scanMessage := scanMessage s; isProcessing := isProcessing s;
     scanTimeoutRef := scanTimeoutRef s; timers := timers s;
     nextTimerId := nextTimerId s;
     inFlight := v; sent := sent s; now := now s |}.

Definition setSent (v : list Request) (s : State) : State :=
  {| barcodeInput := barcodeInput s; lastScannedItem := lastScannedItem s;
     scanMessage := scanMessage s; isProcessing := isProcessing s;
     scanTimeoutRef := scanTimeoutRef s; timers := timers s;
     nextTimerId := nextTimerId s;
     inFlight := inFlight s; sent := v; now := now s |}.

Definition setNow (v : nat) (s : State) : State :=
  {| barcodeInput := barcodeInput s; lastScannedItem := lastScannedItem s;
     scanMessage := scanMessage s; isProcessing := isProcessing s;
     scanTimeoutRef := scanTimeoutRef s; timers := timers s;
     nextTimerId := nextTimerId s;
     inFlight := inFlight s; sent := sent s; now := v |}.

(** The state of a freshly mounted view; timer ids start at 1. *)
Definition initial : State :=
  {| barcodeInput := ""; lastScannedItem := None; scanMessage := None;
     isProcessing := false; scanTimeoutRef := None; timers := [];
     nextTimerId := 1; inFlight := []; sent := []; now := 0 |}.

(** *** Timers *)

(** A timer joins the queue behind those that are due no later. *)
Fixpoint enqueue (t : Timer) (q : list Timer) : list Timer :=
  match q with
  | [] => [t]
  | x :: q' => if fireAt x <=? fireAt t then x :: enqueue t q' else t :: q
  end.

(** [setTimeout(cb, delay)]: the id of the new timer, and the state. *)
Definition setTimeout (cb : Callback) (delay : nat) (s : State) : nat * State :=
  let id := nextTimerId s in
  let t := {| timerId := id; fireAt := now s + delay; callback := cb |} in
  (id, setNextTimerId (S id) (setTimers (enqueue t (timers s)) s)).

(** [clearTimeout(id)]; clearing a timer that has run is harmless. *)
Definition clearTimeout (id : nat) (s : State) : State :=
  setTimers (filter (fun t => negb (timerId t =? id)) (timers s)) s.

(** [if (scanTimeoutRef.current) clearTimeout(scanTimeoutRef.current)] *)
Definition clearScanTimeout (s : State) : State :=
  match scanTimeoutRef s with
  | Some id => clearTimeout id s
  | None => s
  end.

(** *** Handlers *)

(** [supabase.functions.invoke] followed by [await]: the call is recorded
    and the handler [k] is suspended on it. *)
Definition invoke (k : Awaiting) (r : Request) (s : State) : State :=
  setSent (sent s ++ [r])%list (setInFlight (inFlight s ++ [(k, r)])%list s).

(** The body of the scan call (lines 38 to 48). *)
Definition scanRequest (barcode : string) : Request :=
  {| fn := "sync-inventory";
     action := increment;
     body_barcode := Js.trim barcode;
     productData :=
       Some {| pd_product := "Product-" ++ Js.trim barcode;
               pd_colour := "";
               pd_size := "" |} |}.

(** [handleBarcodeSubmit], up to its [await].  [seenProcessing] is the
    [isProcessing] of the render whose closure is running. *)
Definition handleBarcodeSubmit (seenProcessing : bool) (barcode : string)
    (s : State) : State :=
  if negb (Js.truthy (Js.trim barcode)) || seenProcessing then s
  else
    invoke AwaitScan (scanRequest barcode)
      (setScanMessage None (setIsProcessing true s)).

(** [handleBarcodeSubmit], from the [await] on: the [try] block after the
    call, the [catch] and the [finally]. *)
Definition resumeBarcodeSubmit (r : InvokeResult) (s : State) : State :=
  let s1 :=
    match r with
    | InvokeError e =>
        setScanMessage
          (Some {| type := error;
                   text := Js.stringOr (message e) "Failed to process barcode" |})
          s
    | InvokeData d =>
        let item := unwrap d in
        snd (setTimeout ClearMessage 3000
               (setScanMessage
                  (Some {| type := success;
                           text := "Scanned: " ++ product item ++ " (Quantity: "
                                   ++ Js.numberToString (quantity item) ++ ")" |})
                  (setLastScannedItem (Some item) s)))
    end in
  setBarcodeInput "" (setIsProcessing false s1).

(** [handleInputChange]: the buffer follows the input, the pending timer is
    cleared and a new one is set 100 ms ahead. *)
Definition handleInputChange (value : string) (s : State) : State :=
  let s1 := clearScanTimeout (setBarcodeInput value s) in
  let '(id, s2) := setTimeout (SubmitScan value (isProcessing s)) 100 s1 in
  setScanTimeoutRef (Some id) s2.

(** [handleManualSubmit] *)
Definition handleManualSubmit (s : State) : State :=
  handleBarcodeSubmit (isProcessing s) (barcodeInput s) (clearScanTimeout s).

Definition quantityRequest (a : Action) (item : InventoryItem) : Request :=
  {| fn := "sync-inventory"; action := a; body_barcode := barcode item;
     productData := None |}.

(** [handleQuantityChange], up to its [await]. *)
Definition handleQuantityChange (a : Action) (s : State) : State :=
  match lastScannedItem s with
  | None => s
  | Some item =>
      if isProcessing s then s
      else invoke AwaitQuantity (quantityRequest a item) (setIsProcessing true s)
  end.

(** [handleQuantityChange], from the [await] on. *)
Definition resumeQuantityChange (r : InvokeResult) (s : State) : State :=
  let s1 :=
    match r with
    | InvokeError e =>
        setScanMessage
          (Some {| type := error;
                   text := Js.stringOr (message e) "Failed to update quantity" |})
          s
    | InvokeData d =>
        let item := unwrap d in
        snd (setTimeout ClearMessage 2000
               (setScanMessage
                  (Some {| type := success;
                           text := "Updated quantity to "
                                   ++ Js.numberToString (quantity item) |})
                  (setLastScannedItem (Some item) s)))
    end in
  setIsProcessing false s1.

Definition resume (k : Awaiting) : InvokeResult -> State -> State :=
  match k with
  | AwaitScan => resumeBarcodeSubmit
  | AwaitQuantity => resumeQuantityChange
  end.

Fixpoint removeNth {A : Type} (i : nat) (l : list A) : list A :=
  match l, i with
  | [], _ => []
  | _ :: l', 0 => l'
  | x :: l', S j => x :: removeNth j l'
  end.

(** The [i]-th awaited call settles with [r]; its handler resumes. *)
Definition settle (i : nat) (r : InvokeResult) (s : State) : State :=
  match nth_error (inFlight s) i with
  | None => s
  | Some (k, _) => resume k r (setInFlight (removeNth i (inFlight s)) s)
  end.

(** A timer runs its function. *)
Definition runCallback (cb : Callback) (s : State) : State :=
  match cb with
  | SubmitScan value seenProcessing =>
      if Js.truthy (Js.trim value)
      then handleBarcodeSubmit seenProcessing value s
      else s
  | ClearMessage => setScanMessage None s
  end.

Definition isDue (target : nat) (t : Timer) : bool := fireAt t <=? target.

Definition runTimers (due : list Timer) (s : State) : State :=
  fold_left (fun st t => runCallback (callback t) st) due s.

(** [dt] milliseconds pass: the timers whose delay has elapsed leave the
    queue and run, soonest first.  (No function run by a timer of this view
    sets or clears a timer.) *)
Definition advance (dt : nat) (s : State) : State :=
  let target := now s + dt in
  let due := filter (isDue target) (timers s) in
  let later := filter (fun t => negb (isDue target t)) (timers s) in
  setNow target (runTimers due (setTimers later s)).

(** *** What is rendered *)

(** [disabled] of the input, of the submit button and of the two quantity
    buttons; the quantity buttons exist only under [lastScannedItem &&]. *)
Definition inputDisabled (s : State) : bool := isProcessing s.

Definition submitDisabled (s : State) : bool :=
  isProcessing s || negb (Js.truthy (Js.trim (barcodeInput s))).

Definition decrementDisabled (s : State) : bool :=
  match lastScannedItem s with
  | Some item => isProcessing s || (quantity item <=? 0)%Z
  | None => true
  end.

Definition incrementDisabled (s : State) : bool :=
  match lastScannedItem s with
  | Some _ => isProcessing s
  | None => true
  end.

(** The "Low Stock Alert" box (lines 260 to 268). *)
Definition lowStockAlert (s : State) : bool :=
  match lastScannedItem s with
  | Some item => (quantity item <=? low_stock_threshold item)%Z
  | None => false
  end.

(** *** What can happen to the view *)

Inductive Event :=
| Key (c : ascii)                     (* a character reaches the input *)
| Change (value : string)             (* the input's text is replaced *)
| Submit                              (* the form is submitted *)
| Press (a : Action)                  (* a quantity button is pressed *)
| Settle (i : nat) (r : InvokeResult) (* an awaited call settles *)
| Wait (dt : nat).                    (* time passes *)

(** A disabled control raises no event; an enabled one calls the handler of
    the current render. *)
Definition step (e : Event) (s : State) : State :=
  match e with
  | Key c =>
      if inputDisabled s then s
      else handleInputChange (barcodeInput s ++ String c "") s
  | Change value => if inputDisabled s then s else handleInputChange value s
  | Submit => if submitDisabled s then s else handleManualSubmit s
  | Press decrement =>
      if decrementDisabled s then s else handleQuantityChange decrement s
  | Press increment =>
      if incrementDisabled s then s else handleQuantityChange increment s
  | Settle i r => settle i r s
  | Wait dt => advance dt s
  end.

Fixpoint run (es : list Event) (s : State) : State :=
  match es with
  | [] => s
  | e :: es' => run es' (step e s)
  end.

End Scanner.

(* ================================================================= *)
(** ** The inventory table view (the dashboard page) *)

Module Dashboard.

(** The fields of the [update] call of [handleUpdate]. *)
Record ItemUpdate := {
  upd_product : string;
  upd_colour : option string;
  upd_size : option string;
  upd_quantity : Z;
  upd_low_stock_threshold : Z;
  upd_updated_at : Z
}.

(** The calls on the [inventory_items] table. *)
Inductive Request :=
| SelectItems (user : string)   (* select all of the user, newest update first *)
| UpdateItem (item_id : string) (fields : ItemUpdate)
| DeleteItem (item_id : string).

Inductive Awaiting := AwaitLoad | AwaitUpdate | AwaitDelete.

(** Outcome of an awaited table call: [error] set, or [data] (which is
    [null] for calls that select nothing). *)
Inductive QueryResult :=
| QueryError (e : Failure)
| QueryData (data : option (list InventoryItem)).

Record State := {
  user : string;
  inventory : list InventoryItem;
  filteredInventory : list InventoryItem;
  loading : bool;
  searchQuery : string;
  editingItem : option InventoryItem;
  (** texts passed to [alert] so far *)
  alerts : list string;
  inFlight : list (Awaiting * Request);
  sent : list Request
}.

Definition setInventoryField (v : list InventoryItem) (s : State) : State :=
  {| user := user s; inventory := v; filteredInventory := filteredInventory s;
     loading := loading s; searchQuery := searchQuery s;
     editingItem := editingItem s; alerts := alerts s;
     inFlight := inFlight s; sent := sent s |}.

Definition setFilteredInventory (v : list InventoryItem) (s : State) : State :=
  {| user := user s; inventory := inventory s; filteredInventory := v;
     loading := loading s; searchQuery := searchQuery s;
     editingItem := editingItem s; alerts := alerts s;
     inFlight := inFlight s; sent := sent s |}.

Definition setLoading (v : bool) (s : State) : State :=
  {| user := user s; inventory := inventory s;
     filteredInventory := filteredInventory s;
     loading := v; searchQuery := searchQuery s;
     editingItem := editingItem s; alerts := alerts s;
     inFlight := inFlight s; sent := sent s |}.

Definition setSearchQueryField (v : string) (s : State) : State :=
  {| user := user s; inventory := inventory s;
     filteredInventory := filteredInventory s;
     loading := loading s; searchQuery := v;
     editingItem := editingItem s; alerts := alerts s;
     inFlight := inFlight s; sent := sent s |}.

Definition setEditingItem (v : option InventoryItem) (s : State) : State :=
  {| user := user s; inventory := inventory s;
     filteredInventory := filteredInventory s;
     loading := loading s; searchQuery := searchQuery s;
     editingItem := v; alerts := alerts s;
     inFlight := inFlight s; sent := sent s |}.

Definition alert (t : string) (s : State) : State :=
  {| user := user s; inventory := inventory s;
     filteredInventory := filteredInventory s;
     loading := loading s; searchQuery := searchQuery s;
     editingItem := editingItem s; alerts := (alerts s ++ [t])%list;
     inFlight := inFlight s; sent := sent s |}.

Definition setInFlight (v : list (Awaiting * Request)) (s : State) : State :=
  {| user := user s; inventory := inventory s;
     filteredInventory := filteredInventory s;
     loading := loading s; searchQuery := searchQuery s;
     editingItem := editingItem s; alerts := alerts s;
     inFlight := v; sent := sent s |}.

Definition setSent (v : list Request) (s : State) : State :=
  {| user := user s; inventory := inventory s;
     filteredInventory := filteredInventory s;
     loading := loading s; searchQuery := searchQuery s;
     editingItem := editingItem s; alerts := alerts s;
     inFlight := inFlight s; sent := v |}.

Definition invoke (k : Awaiting) (r : Request) (s : State) : State :=
  setSent (sent s ++ [r])%list (setInFlight (inFlight s ++ [(k, r)])%list s).

(** [field?.toLowerCase().includes(q.toLowerCase())] on a nullable field:
    the chain stops at [null] and the disjunct is falsy. *)
Definition optIncludes (field : option string) (q : string) : bool :=
  match field with
  | Some f => Js.includes (Js.toLowerCase f) (Js.toLowerCase q)
  | None => false
  end.

(** The predicate of the filter effect (lines 55 to 60). *)
Definition matchesQuery (searchQuery : string) (item : InventoryItem) : bool :=
  Js.includes (Js.toLowerCase (barcode item)) (Js.toLowerCase searchQuery)
  || Js.includes (Js.toLowerCase (product item)) (Js.toLowerCase searchQuery)
  || optIncludes (colour item) searchQuery
  || optIncludes (size item) searchQuery.

(** The effect on [[searchQuery, inventory]]. *)
Definition filterEffect (s : State) : State :=
  setFilteredInventory (filter (matchesQuery (searchQuery s)) (inventory s)) s.

(** A state update of [searchQuery] or [inventory] is followed by the
    render that runs the effect depending on them.  These two functions give
    the state once that effect has run; the render committed in between,
    which still holds the rows of before, is not a state of the model. *)
Definition setSearchQuery (q : string) (s : State) : State :=
  filterEffect (setSearchQueryField q s).

Definition setInventory (items : list InventoryItem) (s : State) : State :=
  filterEffect (setInventoryField items s).

(** [loadInventory] up to its [await], and from it on. *)
Definition loadInventory (s : State) : State :=
  invoke AwaitLoad (SelectItems (user s)) s.

Definition resumeLoadInventory (r : QueryResult) (s : State) : State :=
  let s1 :=
    match r with
    | QueryError _ => s
    | QueryData (Some items) => setInventory items s
    | QueryData None => setInventory [] s
    end in
  setLoading false s1.

(** [handleDelete]; [confirmed] is the answer to [confirm]. *)
Definition handleDelete (confirmed : bool) (item_id : string) (s : State)
    : State :=
  if negb confirmed then s else invoke AwaitDelete (DeleteItem item_id) s.

Definition resumeDelete (r : QueryResult) (s : State) : State :=
  match r with
  | QueryError _ => alert "Failed to delete item" s
  | QueryData _ => loadInventory s
  end.

(** [handleUpdate]; [date] is the instant read by [new Date()]. *)
Definition handleUpdate (date : Z) (item : InventoryItem) (s : State) : State :=
  invoke AwaitUpdate
    (UpdateItem (id item)
       {| upd_product := product item;
          upd_colour := colour item;
          upd_size := size item;
          upd_quantity := quantity item;
          upd_low_stock_threshold := low_stock_threshold item;
          upd_updated_at := date |})
    s.

Definition resumeUpdate (r : QueryResult) (s : State) : State :=
  match r with
  | QueryError _ => alert "Failed to update item" s
  | QueryData _ => loadInventory (setEditingItem None s)
  end.

(** [{ ...editingItem, quantity: q }] and its siblings. *)
Definition withQuantity (q : Z) (e : InventoryItem) : InventoryItem :=
  {| id := id e; user_id := user_id e; barcode := barcode e;
     product := product e; colour := colour e; size := size e;
     quantity := q; low_stock_threshold := low_stock_threshold e;
     created_at := created_at e; updated_at := updated_at e |}.

Definition withProduct (p : string) (e : InventoryItem) : InventoryItem :=
  {| id := id e; user_id := user_id e; barcode := barcode e;
     product := p; colour := colour e; size := size e;
     quantity := quantity e; low_stock_threshold := low_stock_threshold e;
     created_at := created_at e; updated_at := updated_at e |}.

Definition withColour (c : string) (e : InventoryItem) : InventoryItem :=
  {| id := id e; user_id := user_id e; barcode := barcode e;
     product := product e; colour := Some c; size := size e;
     quantity := quantity e; low_stock_threshold := low_stock_threshold e;
     created_at := created_at e; updated_at := updated_at e |}.

Definition withSize (z : string) (e : InventoryItem) : InventoryItem :=
  {| id := id e; user_id := user_id e; barcode := barcode e;
     product := product e; colour := colour e; size := Some z;
     quantity := quantity e; low_stock_threshold := low_stock_threshold e;
     created_at := created_at e; updated_at := updated_at e |}.

(** [onChange] of the quantity field of the edit form (line 296):
    [parseInt(e.target.value) || 0]. *)
Definition coerceQuantity (value : string) : Z :=
  Js.numberOr (Js.parseInt value) 0.

Definition onQuantityChange (value : string) (s : State) : State :=
  match editingItem s with
  | Some e => setEditingItem (Some (withQuantity (coerceQuantity value) e)) s
  | None => s
  end.

(** The "Save" button of the row under edit. *)
Definition save (date : Z) (s : State) : State :=
  match editingItem s with
  | Some e => handleUpdate date e s
  | None => s
  end.

(** *** The table body *)

Inductive Cell :=
| Text (t : string)
| TextInput (value : string)
| NumberInput (value : Z)
| Badge (label : string)
| Buttons (labels : list string)
| Blank.

(** The status cell of a row that is not under edit (lines 324 to 333). *)
Definition statusCell (item : InventoryItem) : Cell :=
  if (quantity item <=? low_stock_threshold item)%Z
  then Badge "Low Stock"
  else Badge "In Stock".

(** One [<tr>]: the edit form when [editingItem?.id === item.id], the seven
    display cells otherwise. *)
Definition renderRow (editing : option InventoryItem) (item : InventoryItem)
    : list Cell :=
  let display :=
    [ Text (barcode item); Text (product item);
      Text (Js.stringOr (colour item) "-"); Text (Js.stringOr (size item) "-");
      Text (Js.numberToString (quantity item));
      statusCell item;
      Buttons ["Edit"; "Delete"] ] in
  match editing with
  | Some e =>
      if String.eqb (id e) (id item)
      then [ Text (barcode item); TextInput (product e);
             TextInput (Js.stringOr (colour e) "");
             TextInput (Js.stringOr (size e) "");
             NumberInput (quantity e);
             Buttons ["Save"; "Cancel"];
             Blank ]
      else display
  | None => display
  end.

Definition renderRows (s : State) : list (list Cell) :=
  map (renderRow (editingItem s)) (filteredInventory s).

(** Is a low-stock badge, is an in-stock badge, among the cells of a row? *)
Definition isBadge (label : string) (c : Cell) : bool :=
  match c with
  | Badge l => String.eqb l label
  | _ => false
  end.

Definition showsLowStock (row : list Cell) : bool :=
  existsb (isBadge "Low Stock") row.

Definition showsInStock (row : list Cell) : bool :=
  existsb (isBadge "In Stock") row.

(** *** The rest of the view *)

(** The three figures above the table (lines 130 to 132). *)
Definition totalItems (s : State) : nat := length (inventory s).

Definition totalQuantity (s : State) : Z :=
  fold_left (fun sum item => Js.add sum (quantity item)) (inventory s) 0%Z.

Definition lowStockItems (s : State) : nat :=
  length
    (filter (fun item => (quantity item <=? low_stock_threshold item)%Z)
       (inventory s)).



(** [editingItem?.id === item.id] *)
Definition isEditing (s : State) (item : InventoryItem) : bool :=
  match editingItem s with
  | Some e => String.eqb (id e) (id item)
  | None => false
  end.

(** The text fields of the edit form (lines 272, 280 and 288). *)
Definition onProductChange (value : string) (s : State) : State :=
  match editingItem s with
  | Some e => setEditingItem (Some (withProduct value e)) s
  | None => s
  end.

Definition onColourChange (value : string) (s : State) : State :=
  match editingItem s with
  | Some e => setEditingItem (Some (withColour value e)) s
  | None => s
  end.

Definition onSizeChange (value : string) (s : State) : State :=
  match editingItem s with
  | Some e => setEditingItem (Some (withSize value e)) s
  | None => s
  end.

Definition resume (k : Awaiting) : QueryResult -> State -> State :=
  match k with
  | AwaitLoad => resumeLoadInventory
  | AwaitUpdate => resumeUpdate
  | AwaitDelete => resumeDelete
  end.

Fixpoint removeNth {A : Type} (i : nat) (l : list A) : list A :=
  match l, i with
  | [], _ => []
  | _ :: l', 0 => l'
  | x :: l', S j => x :: removeNth j l'
  end.

(** The [i]-th awaited call settles with [r]; its handler resumes. *)
Definition settle (i : nat) (r : QueryResult) (s : State) : State :=
  match nth_error (inFlight s) i with
  | None => s
  | Some (k, _) => resume k r (setInFlight (removeNth i (inFlight s)) s)
  end.

(** The state of the first render, and the effect that runs on mount for a
    signed-in user: the inventory is loaded (and the change feed is
    subscribed to, each notification loading it again). *)
Definition initial (u : string) : State :=
  {| user := u; inventory := []; filteredInventory := []; loading := true;
     searchQuery := ""; editingItem := None; alerts := [];
     inFlight := []; sent := [] |}.

Definition mount (u : string) : State := loadInventory (initial u).

(** A change in the edit form. *)
Inductive Edit :=
| EditProduct (value : string)
| EditColour (value : string)
| EditSize (value : string)
| EditQuantity (value : string).

Definition applyEdit (c : Edit) (s : State) : State :=
  match c with
  | EditProduct v => onProductChange v s
  | EditColour v => onColourChange v s
  | EditSize v => onSizeChange v s
  | EditQuantity v => onQuantityChange v s
  end.

Inductive Event :=
| Search (q : string)                     (* the search box changes *)
| Notify                                  (* the change feed fires *)
| ClickEdit (n : nat)                     (* the edit button of the n-th row *)
| ClickDelete (n : nat) (confirmed : bool)(* its delete button, and the answer *)
| Type_ (c : Edit)                        (* a field of the edit form changes *)
| ClickSave (date : Z)
| ClickCancel
| Settle (i : nat) (r : QueryResult).     (* an awaited call settles *)

(** The edit form is on screen: some row shown is the one under edit. *)
Definition formShown (s : State) : bool :=
  existsb (isEditing s) (filteredInventory s).

(** Until the first load is over only the spinner is rendered (line 134),
    so no control exists; the buttons of a row exist while the row is not
    under edit, the form while it is. *)
Definition step (e : Event) (s : State) : State :=
  match e with
  | Settle i r => settle i r s
  | Notify => loadInventory s
  | _ =>
      if loading s then s
      else
        match e with
        | Search q => setSearchQuery q s
        | ClickEdit n =>
            match nth_error (filteredInventory s) n with
            | Some item =>
                if isEditing s item then s else setEditingItem (Some item) s
            | None => s
            end
        | ClickDelete n confirmed =>
            match nth_error (filteredInventory s) n with
            | Some item =>
                if isEditing s item then s
                else handleDelete confirmed (id item) s
            | None => s
            end
        | Type_ c => if formShown s then applyEdit c s else s
        | ClickSave date => if formShown s then save date s else s
        | ClickCancel =>
            if formShown s then setEditingItem None s else s
        | _ => s
        end
  end.

Fixpoint run (es : list Event) (s : State) : State :=
  match es with
  | [] => s
  | e :: es' => run es' (step e s)
  end.

End Dashboard.

(* ================================================================= *)
(** ** The filter of the table on UTF-16 text

    Outside U+0000 to U+00FF [toLowerCase] is not a map on code units: a
    capital sigma is lowered to the final form or to the medial form
    according to the letters around it (the condition Final_Sigma of the
    Unicode standard, which ECMAScript follows).  This module gives the
    filter of lines 55 to 60 on strings of UTF-16 code units, for text
    written with Basic Latin, Latin-1 and the Greek letters alpha to omega;
    a string that holds another code unit has no lowering here ([None]). *)

Module Wide.

Definition ustring := list N.

(** The code units of a [string]. *)
Fixpoint embed (s : string) : ustring :=
  match s with
  | "" => []
  | String c s' => N_of_ascii c :: embed s'
  end.

Definition isLatin1 (c : N) : bool := (c <? 0x100)%N.

(** U+0391 to U+03A9 (U+03A2 is not assigned), and U+03B1 to U+03C9. *)
Definition isGreekCapital (c : N) : bool :=
  ((0x391 <=? c) && (c <=? 0x3A9) && negb (c =? 0x3A2))%N.

Definition isGreekSmall (c : N) : bool :=
  ((0x3B1 <=? c) && (c <=? 0x3C9))%N.

Definition known (c : N) : bool :=
  isLatin1 c || isGreekCapital c || isGreekSmall c.

(** The property Cased on these characters: the letters of either case,
    with the ordinal indicators and the micro sign. *)
Definition isCased (c : N) : bool :=
  (((0x41 <=? c) && (c <=? 0x5A)) || ((0x61 <=? c) && (c <=? 0x7A))
   || (c =? 0xAA) || (c =? 0xB5) || (c =? 0xBA)
   || ((0xC0 <=? c) && (c <=? 0xD6)) || ((0xD8 <=? c) && (c <=? 0xF6))
   || ((0xF8 <=? c) && (c <=? 0xFF))
   || isGreekCapital c || isGreekSmall c)%N.

(** The property Case_Ignorable on these characters: apostrophe, full
    stop, colon, circumflex, grave, diaeresis, soft hyphen, macron, acute,
    middle dot and cedilla. *)
Definition isCaseIgnorable (c : N) : bool :=
  ((c =? 0x27) || (c =? 0x2E) || (c =? 0x3A) || (c =? 0x5E) || (c =? 0x60)
   || (c =? 0xA8) || (c =? 0xAD) || (c =? 0xAF) || (c =? 0xB4)
   || (c =? 0xB7) || (c =? 0xB8))%N.

(** Once the case-ignorable characters at its head are skipped, [w] starts
    with a cased letter. *)
Fixpoint casedFirst (w : ustring) : bool :=
  match w with
  | [] => false
  | c :: r => if isCaseIgnorable c then casedFirst r else isCased c
  end.

(** Final_Sigma: a cased letter comes before (case-ignorable characters
    apart) and none comes after.  [before] is what precedes the sigma, the
    nearest code unit first. *)
Definition finalSigma (before after : ustring) : bool :=
  casedFirst before && negb (casedFirst after).

(** The lower-case mapping of one character that does not look around. *)
Definition lowerUnit (c : N) : N :=
  if isLatin1 c then N_of_ascii (Js.lowerChar (ascii_of_N c))
  else if isGreekCapital c then (c + 0x20)%N
  else c.

Fixpoint lowerFrom (before w : ustring) : option ustring :=
  match w with
  | [] => Some []
  | c :: rest =>
      if known c then
        let l :=
          if (c =? 0x3A3)%N && finalSigma before rest then 0x3C2%N
          else lowerUnit c in
        option_map (cons l) (lowerFrom (c :: before) rest)
      else None
  end.

(** [w.toLowerCase()] *)
Definition toLowerCase (w : ustring) : option ustring := lowerFrom [] w.

Fixpoint startsWith (s p : ustring) : bool :=
  match p, s with
  | [], _ => true
  | _ :: _, [] => false
  | b :: p', a :: s' => (a =? b)%N && startsWith s' p'
  end.

(** [s.includes(sub)] *)
Fixpoint includes (s sub : ustring) : bool :=
  startsWith s sub ||
  match s with
  | [] => false
  | _ :: s' => includes s' sub
  end.

(** The four fields of an item that the filter reads. *)
Record Row := {
  barcode : ustring;
  product : ustring;
  colour : option ustring;
  size : option ustring
}.

Definition embedRow (item : InventoryItem) : Row :=
  {| barcode := embed (Supabase.barcode item);
     product := embed (Supabase.product item);
     colour := option_map embed (Supabase.colour item);
     size := option_map embed (Supabase.size item) |}.

(** [field?.toLowerCase()] *)
Definition lowerOptional (field : option ustring) : option (option ustring) :=
  match field with
  | Some f => option_map Some (toLowerCase f)
  | None => Some None
  end.

Definition optIncludes (lowered : option ustring) (q : ustring) : bool :=
  match lowered with
  | Some f => includes f q
  | None => false
  end.

(** The predicate of the filter effect (lines 55 to 60). *)
Definition matchesQuery (searchQuery : ustring) (item : Row) : option bool :=
  match toLowerCase searchQuery, toLowerCase (barcode item),
        toLowerCase (product item), lowerOptional (colour item),
        lowerOptional (size item) with
  | Some q, Some b, Some p, Some c, Some z =>
      Some (includes b q || includes p q || optIncludes c q || optIncludes z q)
  | _, _, _, _, _ => None
  end.

(** [inventory.filter(...)] with that predicate. *)
Fixpoint filterRows (searchQuery : ustring) (rows : list Row)
    : option (list Row) :=
  match rows with
  | [] => Some []
  | item :: rest =>
      match matchesQuery searchQuery item, filterRows searchQuery rest with
      | Some keep, Some shown => Some (if keep then item :: shown else shown)
      | _, _ => None
      end
  end.

End Wide.

(* ================================================================= *)
(** ** The spreadsheet bridge ([src/pages/Settings.tsx]) *)

Module Settings.

Record ImportResult := { imported : Z; errors : Z }.
Record ExportResult := { exportedRows : Z }.

(** The query built by [loadSyncHistory]:
    [from(table).select('*').eq('user_id', id).order(column, { ascending }).limit(n)]. *)
Record Query := {
  q_table : string;
  q_user_id : string;
  q_order : string;
  q_ascending : bool;
  q_limit : nat
}.

Inductive Request :=
| InvokeImport (spreadsheetId range apiKey : string)
| InvokeExport (spreadsheetId range accessToken : string)
| Select (q : Query).

Inductive Awaiting := AwaitImport | AwaitExport | AwaitHistory.

(** Outcome of an awaited call, by the handler that awaits it. *)
Inductive Outcome :=
| ImportOutcome (r : Failure + Payload ImportResult)
| ExportOutcome (r : Failure + Payload ExportResult)
| HistoryOutcome (r : Failure + option (list GoogleSheetsSync)).

Record State := {
  user : string;
  spreadsheetId : string;
  range : string;
  apiKey : string;
  accessToken : string;
  loading : bool;
  message : option Message;
  syncHistory : list GoogleSheetsSync;
  inFlight : list (Awaiting * Request);
  sent : list Request
}.

Definition setLoading (v : bool) (s : State) : State :=
  {| user := user s; spreadsheetId := spreadsheetId s; range := range s;
     apiKey := apiKey s; accessToken := accessToken s; loading := v;
     message := message s; syncHistory := syncHistory s;
     inFlight := inFlight s; sent := sent s |}.

Definition setMessage (v : option Message) (s : State) : State :=
  {| user := user s; spreadsheetId := spreadsheetId s; range := range s;
     apiKey := apiKey s; accessToken := accessToken s; loading := loading s;
     message := v; syncHistory := syncHistory s;
     inFlight := inFlight s; sent := sent s |}.

Definition setSyncHistory (v : list GoogleSheetsSync) (s : State) : State :=
  {| user := user s; spreadsheetId := spreadsheetId s; range := range s;
     apiKey := apiKey s; accessToken := accessToken s; loading := loading s;
     message := message s; syncHistory := v;
     inFlight := inFlight s; sent := sent s |}.

Definition setInFlight (v : list (Awaiting * Request)) (s : State) : State :=
  {| user := user s; spreadsheetId := spreadsheetId s; range := range s;
     apiKey := apiKey s; accessToken := accessToken s; loading := loading s;
     message := message s; syncHistory := syncHistory s;
     inFlight := v; sent := sent s |}.

Definition setSent (v : list Request) (s : State) : State :=
  {| user := user s; spreadsheetId := spreadsheetId s; range := range s;
     apiKey := apiKey s; accessToken := accessToken s; loading := loading s;
     message := message s; syncHistory := syncHistory s;
     inFlight := inFlight s; sent := v |}.

Definition invoke (k : Awaiting) (r : Request) (s : State) : State :=
  setSent (sent s ++ [r])%list (setInFlight (inFlight s ++ [(k, r)])%list s).

Definition historyQuery (user : string) : Query :=
  {| q_table := "google_sheets_sync";
     q_user_id := user;
     q_order := "created_at";
     q_ascending := false;
     q_limit := 5 |}.

(** [loadSyncHistory] up to its [await], and from it on: a failure is only
    logged to the console. *)
Definition loadSyncHistory (s : State) : State :=
  invoke AwaitHistory (Select (historyQuery (user s))) s.

Definition resumeLoadSyncHistory
    (r : Failure + option (list GoogleSheetsSync)) (s : State) : State :=
  match r with
  | inl _ => s
  | inr (Some rows) => setSyncHistory rows s
  | inr None => setSyncHistory [] s
  end.

(** The [catch] and [finally] blocks of the two handlers. *)
Definition importCatch (e : Failure) (s : State) : State :=
  setLoading false
    (setMessage
       (Some {| type := error;
                text := Js.stringOr (Supabase.message e)
                          "Failed to import from Google Sheets" |})
       s).

Definition exportCatch (e : Failure) (s : State) : State :=
  setLoading false
    (setMessage
       (Some {| type := error;
                text := Js.stringOr (Supabase.message e)
                          "Failed to export to Google Sheets" |})
       s).

(** [handleImport] up to its [await]; a blank field throws before the call
    and the handler runs to its end at once. *)
Definition handleImport (s : State) : State :=
  let s1 := setMessage None (setLoading true s) in
  if negb (Js.truthy (spreadsheetId s)) || negb (Js.truthy (range s))
     || negb (Js.truthy (apiKey s))
  then importCatch
         {| Supabase.message := Some "Please fill in all required fields" |} s1
  else invoke AwaitImport
         (InvokeImport (spreadsheetId s) (range s) (apiKey s)) s1.

Definition importedText (result : ImportResult) : string :=
  "Successfully imported " ++ Js.numberToString (imported result) ++ " items"
  ++ (if (errors result >? 0)%Z
      then " (" ++ Js.numberToString (errors result) ++ " errors)"
      else "").

(** [handleImport] from its [await] on. *)
Definition resumeImport (r : Failure + Payload ImportResult) (s : State)
    : State :=
  match r with
  | inl e => importCatch e s
  | inr d =>
      let result := unwrap d in
      setLoading false
        (loadSyncHistory
           (setMessage
              (Some {| type := success; text := importedText result |}) s))
  end.

(** [handleExport], likewise. *)
Definition handleExport (s : State) : State :=
  let s1 := setMessage None (setLoading true s) in
  if negb (Js.truthy (spreadsheetId s)) || negb (Js.truthy (range s))
     || negb (Js.truthy (accessToken s))
  then exportCatch
         {| Supabase.message :=
              Some "Please fill in all required fields including access token" |}
         s1
  else invoke AwaitExport
         (InvokeExport (spreadsheetId s) (range s) (accessToken s)) s1.

Definition exportedText (result : ExportResult) : string :=
  "Successfully exported " ++ Js.numberToString (exportedRows result)
  ++ " items to Google Sheets".

Definition resumeExport (r : Failure + Payload ExportResult) (s : State)
    : State :=
  match r with
  | inl e => exportCatch e s
  | inr d =>
      let result := unwrap d in
      setLoading false
        (loadSyncHistory
           (setMessage
              (Some {| type := success; text := exportedText result |}) s))
  end.

Fixpoint removeNth {A : Type} (i : nat) (l : list A) : list A :=
  match l, i with
  | [], _ => []
  | _ :: l', 0 => l'
  | x :: l', S j => x :: removeNth j l'
  end.

(** The [i]-th awaited call settles; the handler suspended on it resumes.
    An outcome of another handler's kind is not an outcome of this call. *)
Definition settle (i : nat) (o : Outcome) (s : State) : State :=
  match nth_error (inFlight s) i with
  | None => s
  | Some (k, _) =>
      let s1 := setInFlight (removeNth i (inFlight s)) s in
      match k, o with
      | AwaitImport, ImportOutcome r => resumeImport r s1
      | AwaitExport, ExportOutcome r => resumeExport r s1
      | AwaitHistory, HistoryOutcome r => resumeLoadSyncHistory r s1
      | _, _ => s
      end
  end.

(** *** The log read by the history query *)

Fixpoint insertNewestFirst (r : GoogleSheetsSync) (l : list GoogleSheetsSync)
    : list GoogleSheetsSync :=
  match l with
  | [] => [r]
  | x :: l' =>
      if (sync_created_at x <=? sync_created_at r)%Z
      then r :: l
      else x :: insertNewestFirst r l'
  end.

Definition newestFirst (l : list GoogleSheetsSync) : list GoogleSheetsSync :=
  fold_right insertNewestFirst [] l.

(** Modelled from the spec: the backend behind [listSyncHistory(owner, limit)],
    which is not part of this repository.  It answers the query of
    [loadSyncHistory] over the append-only log: the records of the owner,
    ordered on [created_at] as the query asks, cut at the limit. *)
Definition runQuery (q : Query) (log : list GoogleSheetsSync)
    : list GoogleSheetsSync :=
  let own := filter (fun r => String.eqb (sync_user_id r) (q_user_id q)) log in
  let ordered := if q_ascending q then rev (newestFirst own) else newestFirst own in
  firstn (q_limit q) ordered.

(** *** The rest of the view *)

Definition setSpreadsheetId (v : string) (s : State) : State :=
  {| user := user s; spreadsheetId := v; range := range s;
     apiKey := apiKey s; accessToken := accessToken s; loading := loading s;
     message := message s; syncHistory := syncHistory s;
     inFlight := inFlight s; sent := sent s |}.

Definition setRange (v : string) (s : State) : State :=
  {| user := user s; spreadsheetId := spreadsheetId s; range := v;
     apiKey := apiKey s; accessToken := accessToken s; loading := loading s;
     message := message s; syncHistory := syncHistory s;
     inFlight := inFlight s; sent := sent s |}.

Definition setApiKey (v : string) (s : State) : State :=
  {| user := user s; spreadsheetId := spreadsheetId s; range := range s;
     apiKey := v; accessToken := accessToken s; loading := loading s;
     message := message s; syncHistory := syncHistory s;
     inFlight := inFlight s; sent := sent s |}.

Definition setAccessToken (v : string) (s : State) : State :=
  {| user := user s; spreadsheetId := spreadsheetId s; range := range s;
     apiKey := apiKey s; accessToken := v; loading := loading s;
     message := message s; syncHistory := syncHistory s;
     inFlight := inFlight s; sent := sent s |}.

(** The state of the first render (lines 20 to 26), and the effect that
    runs on mount for a signed-in user. *)
Definition initial (u : string) : State :=
  {| user := u; spreadsheetId := ""; range := "Sheet1!A:F"; apiKey := "";
     accessToken := ""; loading := false; message := None;
     syncHistory := []; inFlight := []; sent := [] |}.

Definition mount (u : string) : State := loadSyncHistory (initial u).

Inductive Event :=
| TypeSpreadsheetId (v : string)
| TypeRange (v : string)
| TypeApiKey (v : string)
| TypeAccessToken (v : string)
| SubmitImport
| SubmitExport
| Settle (i : nat) (o : Outcome).

(** The two submit buttons are disabled while [loading].  (The [required]
    marks of the inputs are left out: the forms of the model can be
    submitted with an empty field, which the browser may refuse.) *)
Definition step (e : Event) (s : State) : State :=
  match e with
  | TypeSpreadsheetId v => setSpreadsheetId v s
  | TypeRange v => setRange v s
  | TypeApiKey v => setApiKey v s
  | TypeAccessToken v => setAccessToken v s
  | SubmitImport => if loading s then s else handleImport s
  | SubmitExport => if loading s then s else handleExport s
  | Settle i o => settle i o s
  end.

Fixpoint run (es : list Event) (s : State) : State :=
  match es with
  | [] => s
  | e :: es' => run es' (step e s)
  end.

(** The awaited calls that are an import or an export. *)
Definition isTransfer (c : Awaiting * Request) : bool :=
  match fst c with
  | AwaitImport | AwaitExport => true
  | AwaitHistory => false
  end.

Definition transfersInFlight (s : State) : nat :=
  length (filter isTransfer (inFlight s)).

End Settings.

(* ================================================================= *)
(** ** Vocabulary of the specification *)

Module Spec.

(** White space at the ends of a string. *)
Fixpoint allWhiteSpace (s : string) : bool :=
  match s with
  | "" => true
  | String c s' => Js.isWhiteSpace c && allWhiteSpace s'
  end.

Definition firstIsWhiteSpace (s : string) : bool :=
  match s with
  | "" => false
  | String c _ => Js.isWhiteSpace c
  end.

Fixpoint lastIsWhiteSpace (s : string) : bool :=
  match s with
  | "" => false
  | String c "" => Js.isWhiteSpace c
  | String _ s' => lastIsWhiteSpace s'
  end.

(** [q] is a case-insensitive substring of [f]: some stretch of [f] is [q]
    up to the case of its letters. *)
Definition caseInsensitiveSubstring (q f : string) : Prop :=
  exists pre mid post,
    f = pre ++ mid ++ post /\ Js.toLowerCase mid = Js.toLowerCase q.

(** The query is a case-insensitive substring of the barcode, the product,
    the colour or the size of the row. *)
Definition rowMatches (q : string) (item : InventoryItem) : Prop :=
  caseInsensitiveSubstring q (barcode item)
  \/ caseInsensitiveSubstring q (product item)
  \/ (exists c, colour item = Some c /\ caseInsensitiveSubstring q c)
  \/ (exists z, size item = Some z /\ caseInsensitiveSubstring q z).

(** The integer written by the leading digits of a string: an optional
    minus sign, then the longest run of decimal digits, read positionally.
    No digits, no integer. *)
Fixpoint takeDigits (s : string) : string :=
  match s with
  | "" => ""
  | String c s' => if Js.isDigit c then String c (takeDigits s') else ""
  end.

Fixpoint decimalValue (ds : string) : Z :=
  match ds with
  | "" => 0
  | String c r =>
      (Z.of_nat (Js.code c) - 48) * 10 ^ Z.of_nat (String.length r)
      + decimalValue r
  end%Z.

Definition leadingInteger (v : string) : option Z :=
  let '(sign, r) :=
    match v with
    | String c r => if Ascii.eqb c "-" then ((-1)%Z, r) else (1%Z, v)
    | "" => (1%Z, v)
    end in
  let ds := takeDigits r in
  if Js.isEmpty ds then None else Some (sign * decimalValue ds)%Z.

(** The quantity the edit form is said to keep for a typed text: the
    leading integer, and 0 when there is none. *)
Definition quantityOfText (v : string) : Z :=
  match leadingInteger v with
  | Some n => n
  | None => 0%Z
  end.

(** The text that stays after leading white space and one sign. *)
Definition afterSign (v : string) : string :=
  match Js.trimStart v with
  | String c r =>
      if Ascii.eqb c "-" || Ascii.eqb c "+" then r else String c r
  | "" => ""
  end.

(** The sign written before the digits: -1 after a minus, 1 otherwise. *)
Definition signOf (v : string) : Z :=
  match Js.trimStart v with
  | String c _ => if Ascii.eqb c "-" then (-1)%Z else 1%Z
  | "" => 1%Z
  end.

(** An integer that a double holds whatever its digits are: its magnitude
    is at most 2^53. *)
Definition exact (n : Z) : Prop := (Z.abs n <= 2 ^ 53)%Z.

(** The sum of the quantities of a list of items, as integers. *)
Definition sumOfQuantities (items : list InventoryItem) : Z :=
  fold_right (fun item acc => (quantity item + acc)%Z) 0%Z items.

(** The sum of the magnitudes of the quantities of a list of items. *)
Definition magnitude (items : list InventoryItem) : Z :=
  fold_right (fun item acc => (Z.abs (quantity item) + acc)%Z) 0%Z items.


(** A burst of characters: each but the first arrives [gap] milliseconds
    after the one before it. *)
Definition burst (c0 : ascii) (rest : list (nat * ascii)) : list Scanner.Event :=
  (Scanner.Key c0
   :: flat_map (fun gc => [Scanner.Wait (fst gc); Scanner.Key (snd gc)]) rest)%list.

Definition burstText (c0 : ascii) (rest : list (nat * ascii)) : string :=
  string_of_list_ascii (c0 :: map snd rest).

(** The row of [item] is the one under edit: [editingItem?.id === item.id]. *)
Definition underEdit (editing : option InventoryItem) (item : InventoryItem)
    : bool :=
  match editing with
  | Some e => String.eqb (id e) (id item)
  | None => false
  end.

(** The calls a timer's function makes when it runs. *)
Definition callbackRequests (cb : Scanner.Callback) : list Scanner.Request :=
  match cb with
  | Scanner.SubmitScan value seen =>
      if Js.truthy (Js.trim value) && negb seen
      then [Scanner.scanRequest value] else []
  | Scanner.ClearMessage => []
  end.

Definition timerRequests (t : Scanner.Timer) : list Scanner.Request :=
  callbackRequests (Scanner.callback t).

Definition noRequests (l : list Scanner.Request) : bool :=
  match l with
  | [] => true
  | _ :: _ => false
  end.

(** The debounce timers among the live timers. *)
Definition isSubmitScan (t : Scanner.Timer) : bool :=
  match Scanner.callback t with
  | Scanner.SubmitScan _ _ => true
  | Scanner.ClearMessage => false
  end.

Definition scanTimers (s : Scanner.State) : list Scanner.Timer :=
  filter isSubmitScan (Scanner.timers s).

(** Every live debounce timer is the one [scanTimeoutRef] names. *)
Definition tracked (s : Scanner.State) : Prop :=
  forall t, In t (scanTimers s) ->
            Scanner.scanTimeoutRef s = Some (Scanner.timerId t).


(** The message shown when a failure carries no description. *)
Definition fallbackText (k : Scanner.Awaiting) : string :=
  match k with
  | Scanner.AwaitScan => "Failed to process barcode"
  | Scanner.AwaitQuantity => "Failed to update quantity"
  end.

Definition validationText : string := "Please fill in all required fields".

(** *** Vocabulary of the further properties *)

(** The states the scan view can be in: those that some sequence of events
    leads to from the freshly mounted view. *)
Definition scannerReachable (s : Scanner.State) : Prop :=
  exists es, s = Scanner.run es Scanner.initial.

(** A request made by a scan (it carries creation defaults), as opposed to
    one made by a quantity button. *)
Definition isScan (r : Scanner.Request) : bool :=
  match Scanner.productData r with
  | Some _ => true
  | None => false
  end.

(** No timer that is set in [s] comes due within [dt] milliseconds. *)
Definition quiet (s : Scanner.State) (dt : nat) : Prop :=
  forall t, In t (Scanner.timers s) -> Scanner.now s + dt < Scanner.fireAt t.

(** The delay after which the banner of a success is emptied. *)
Definition expiry (k : Scanner.Awaiting) : nat :=
  match k with
  | Scanner.AwaitScan => 3000
  | Scanner.AwaitQuantity => 2000
  end.


Definition applyEdits (edits : list Dashboard.Edit) (s : Dashboard.State)
    : Dashboard.State :=
  fold_left (fun st c => Dashboard.applyEdit c st) edits s.

(** The update that [handleUpdate] sends for a working copy. *)
Definition updateOf (date : Z) (e : InventoryItem) : Dashboard.Request :=
  Dashboard.UpdateItem (id e)
    {| Dashboard.upd_product := product e;
       Dashboard.upd_colour := colour e;
       Dashboard.upd_size := size e;
       Dashboard.upd_quantity := quantity e;
       Dashboard.upd_low_stock_threshold := low_stock_threshold e;
       Dashboard.upd_updated_at := date |}.

(** An item without a colour and without a size, and the same item with
    the empty text in their place. *)
Definition withNoColourNoSize (e : InventoryItem) : InventoryItem :=
  {| id := id e; user_id := user_id e; barcode := barcode e;
     product := product e; colour := None; size := None;
     quantity := quantity e; low_stock_threshold := low_stock_threshold e;
     created_at := created_at e; updated_at := updated_at e |}.

Definition withEmptyColourAndSize (e : InventoryItem) : InventoryItem :=
  Dashboard.withSize "" (Dashboard.withColour "" e).

(** The alert raised when a call of the table view fails. *)
Definition failureAlert (k : Dashboard.Awaiting) : list string :=
  match k with
  | Dashboard.AwaitLoad => []
  | Dashboard.AwaitUpdate => ["Failed to update item"]
  | Dashboard.AwaitDelete => ["Failed to delete item"]
  end.

(** The lock of the spreadsheet bridge: [loading] is set exactly while one
    import or export is awaited, and never more than one is. *)
Definition transferLock (s : Settings.State) : Prop :=
  (Settings.loading s = true /\ Settings.transfersInFlight s = 1)
  \/ (Settings.loading s = false /\ Settings.transfersInFlight s = 0).

End Spec.

(** Concrete data for the scenarios. *)
Module Sample.

Definition sampleItem (q t : Z) : InventoryItem :=
  {| id := "item-1"; user_id := "user-1"; barcode := "123";
     product := "Product-123"; colour := None; size := None;
     quantity := q; low_stock_threshold := t;
     created_at := 0; updated_at := 0 |}.

(** The scan view after item 123 was scanned, idle. *)
Definition scanned (q t : Z) : Scanner.State :=
  Scanner.setLastScannedItem (Some (sampleItem q t)) Scanner.initial.

(** The import form with its API key left empty. *)
Definition blankKeyForm : Settings.State :=
  {| Settings.user := "user-1";
     Settings.spreadsheetId := "sheet-42";
     Settings.range := "Sheet1!A:F";
     Settings.apiKey := "";
     Settings.accessToken := "";
     Settings.loading := false;
     Settings.message := None;
     Settings.syncHistory := [];
     Settings.inFlight := [];
     Settings.sent := [] |}.

(** The import form filled in, and a log of seven records, six of them of
    the user of the form. *)
Definition filledForm : Settings.State :=
  {| Settings.user := "user-1";
     Settings.spreadsheetId := "sheet-42";
     Settings.range := "Sheet1!A:F";
     Settings.apiKey := "key";
     Settings.accessToken := "token";
     Settings.loading := false;
     Settings.message := None;
     Settings.syncHistory := [];
     Settings.inFlight := [];
     Settings.sent := [] |}.

Definition syncRecord (owner : string) (status : string) (t : Z)
    : GoogleSheetsSync :=
  {| sync_id := Js.numberToString t; sync_user_id := owner;
     sheet_id := Some "sheet-42"; sheet_name := None; last_sync_at := Some t;
     sync_status := status; error_message := None; sync_created_at := t |}.

Definition sampleLog : list GoogleSheetsSync :=
  [ syncRecord "user-1" "success" 10; syncRecord "user-2" "success" 70;
    syncRecord "user-1" "failed" 30; syncRecord "user-1" "success" 20;
    syncRecord "user-1" "success" 60; syncRecord "user-1" "success" 40;
    syncRecord "user-1" "pending" 50 ].

(** The table view holding one item, nothing under edit. *)
Definition dashboardWithItem : Dashboard.State :=
  {| Dashboard.user := "user-1";
     Dashboard.inventory := [sampleItem 3 10];
     Dashboard.filteredInventory := [sampleItem 3 10];
     Dashboard.loading := false;
     Dashboard.searchQuery := "";
     Dashboard.editingItem := None;
     Dashboard.alerts := [];
     Dashboard.inFlight := [];
     Dashboard.sent := [] |}.

(** A row whose product is written with capital alpha, sigma, alpha, and
    the query that is its first two letters. *)
Definition sigmaRow : Wide.Row :=
  {| Wide.barcode := Wide.embed "1";
     Wide.product := [0x391; 0x3A3; 0x391]%N;
     Wide.colour := None;
     Wide.size := None |}.

Definition sigmaQuery : Wide.ustring := [0x391; 0x3A3]%N.

End Sample.
Import Sample.

(* ================================================================= *)
(** * Properties *)

(** ** The primitives on examples *)

Example parseInt_examples :
  map Js.parseInt ["42"; "-7"; "  +15px"; "abc"; ""; "0x1A"; "1e5"; "-0"; ".5"]
  = [Some 42; Some (-7); Some 15; None; None; Some 26; Some 1; Some 0; None]%Z.
Proof. reflexivity. Qed.

Example trim_examples :
  map Js.trim ["  123 "; "12 3"; "   "; ""] = ["123"; "12 3"; ""; ""].
Proof. reflexivity. Qed.

Example number_input_examples :
  map Js.isNumberInputValue ["12"; "-3"; "1.5"; ".5"; "1e5"; "-1.5E-3"; ""; "0x1A"; " 12"; "+5"; "1."; "e5"]
  = [true; true; true; true; true; true; true; false; false; false; false; false].
Proof. reflexivity. Qed.

Example includes_examples :
  (Js.includes (Js.toLowerCase "Blue Shirt") (Js.toLowerCase "SHIRT"),
   Js.includes "abc" "", Js.includes "abc" "bd")
  = (true, true, false).
Proof. reflexivity. Qed.

(** ** Strings *)

Lemma append_empty_r (s : string) : s ++ "" = s.
Proof. induction s as [|c s IH]; simpl; [reflexivity | now rewrite IH]. Qed.

Lemma append_assoc (a b c : string) : (a ++ b) ++ c = a ++ (b ++ c).
Proof. induction a as [|x a IH]; simpl; [reflexivity | now rewrite IH]. Qed.

(** On code units below U+0100 a string is lowered one code unit at a
    time, so lowering goes through concatenation.  (It does not on UTF-16
    text: see [final_sigma_hides_matching_row].) *)
Lemma toLowerCase_append (a b : string) :
  Js.toLowerCase (a ++ b) = Js.toLowerCase a ++ Js.toLowerCase b.
Proof. induction a as [|x a IH]; simpl; [reflexivity | now rewrite IH]. Qed.

(** A split of the lowered string comes from a split of the string. *)
Lemma toLowerCase_split (f a b : string) :
  Js.toLowerCase f = a ++ b ->
  exists x y, f = x ++ y /\ Js.toLowerCase x = a /\ Js.toLowerCase y = b.
Proof.
  revert f; induction a as [|c a IH]; intros f H.
  - exists "", f; auto.
  - destruct f as [|d f]; simpl in H; [discriminate|].
    injection H as Hc Hf.
    destruct (IH f Hf) as (x & y & -> & Hx & Hy).
    exists (String d x), y; simpl; subst; auto.
Qed.

Lemma startsWith_spec (s p : string) :
  Js.startsWith s p = true <-> exists post, s = p ++ post.
Proof.
  revert s; induction p as [|b p IH]; intros s; simpl.
  - split; [intros _; now exists s | intros _; destruct s; reflexivity].
  - destruct s as [|a s]; simpl.
    + split; [discriminate | intros (post & H); discriminate].
    + rewrite andb_true_iff, Ascii.eqb_eq, IH; split.
      * intros (-> & post & ->); now exists post.
      * intros (post & H); injection H as -> ->; split; [reflexivity|now exists post].
Qed.

(** [includes] finds exactly the substrings. *)
Lemma includes_spec (s sub : string) :
  Js.includes s sub = true <-> exists pre post, s = pre ++ sub ++ post.
Proof.
  induction s as [|a s IH]; cbn [Js.includes].
  - rewrite orb_false_r, startsWith_spec; split.
    + intros (post & H); now exists "", post.
    + intros (pre & post & H); destruct pre; simpl in H; [now exists post|discriminate].
  - rewrite orb_true_iff, startsWith_spec, IH; split.
    + intros [(post & H) | (pre & post & ->)].
      * now exists "", post.
      * now exists (String a pre), post.
    + intros (pre & post & H); destruct pre as [|c pre]; simpl in H.
      * left; now exists post.
      * right; injection H as -> ->; now exists pre, post.
Qed.

Lemma includes_empty (s : string) : Js.includes s "" = true.
Proof. destruct s; reflexivity. Qed.

(** The code's test on lowered strings is the case-insensitive substring
    relation. *)
Lemma includes_lower_spec (f q : string) :
  Js.includes (Js.toLowerCase f) (Js.toLowerCase q) = true
  <-> Spec.caseInsensitiveSubstring q f.
Proof.
  rewrite includes_spec; split.
  - intros (a & b & H).
    destruct (toLowerCase_split _ _ _ H) as (pre & rest & -> & Hpre & Hrest).
    destruct (toLowerCase_split _ _ _ Hrest) as (mid & post & -> & Hmid & Hpost).
    now exists pre, mid, post.
  - intros (pre & mid & post & -> & Hmid).
    exists (Js.toLowerCase pre), (Js.toLowerCase post).
    now rewrite !toLowerCase_append, Hmid.
Qed.

Lemma trimStart_spec (s : string) :
  exists pre,
    s = pre ++ Js.trimStart s
    /\ Spec.allWhiteSpace pre = true
    /\ Spec.firstIsWhiteSpace (Js.trimStart s) = false.
Proof.
  induction s as [|c s (pre & Hs & Hpre & Hfirst)]; simpl.
  - now exists "".
  - destruct (Js.isWhiteSpace c) eqn:Hc.
    + exists (String c pre); simpl; rewrite Hc, <- Hs; auto.
    + exists ""; simpl; auto.
Qed.

Lemma trimEnd_spec (s : string) :
  exists post,
    s = Js.trimEnd s ++ post
    /\ Spec.allWhiteSpace post = true
    /\ Spec.lastIsWhiteSpace (Js.trimEnd s) = false.
Proof.
  induction s as [|c s (post & Hs & Hpost & Hlast)]; simpl.
  - now exists "".
  - destruct (Js.trimEnd s) as [|d t] eqn:Ht.
    + simpl in Hs; subst s.
      destruct (Js.isWhiteSpace c) eqn:Hc.
      * exists (String c post); simpl; rewrite Hc; auto.
      * exists post; simpl; auto.
    + exists post; rewrite Hs; simpl; auto.
Qed.

Lemma trimEnd_first (s : string) :
  Spec.firstIsWhiteSpace s = false ->
  Spec.firstIsWhiteSpace (Js.trimEnd s) = false.
Proof.
  destruct s as [|c s]; simpl; [auto|]; intros Hc.
  destruct (Js.trimEnd s); [rewrite Hc|]; simpl; auto.
Qed.

(** [trim] removes white space at both ends, and nothing else. *)
Lemma trim_spec (s : string) :
  (exists pre post,
     s = pre ++ Js.trim s ++ post
     /\ Spec.allWhiteSpace pre = true /\ Spec.allWhiteSpace post = true)
  /\ Spec.firstIsWhiteSpace (Js.trim s) = false
  /\ Spec.lastIsWhiteSpace (Js.trim s) = false.
Proof.
  unfold Js.trim.
  destruct (trimStart_spec s) as (pre & Hs & Hpre & Hfirst).
  destruct (trimEnd_spec (Js.trimStart s)) as (post & Ht & Hpost & Hlast).
  split; [|split; [now apply trimEnd_first | exact Hlast]].
  exists pre, post; split; [|auto].
  now rewrite <- Ht.
Qed.

(** ** The inventory filter *)

Lemma matchesQuery_spec (q : string) (item : InventoryItem) :
  Dashboard.matchesQuery q item = true <-> Spec.rowMatches q item.
Proof.
  unfold Dashboard.matchesQuery, Spec.rowMatches, Dashboard.optIncludes.
  rewrite !orb_true_iff, !includes_lower_spec.
  destruct (colour item) as [c|], (size item) as [z|];
    rewrite ?includes_lower_spec; split;
    intros [[[H|H]|H]|H] || intros [H|[H|[H|H]]];
    try discriminate; try (destruct H as (x & Hx & H); try discriminate;
                           injection Hx as <-); eauto 6.
Qed.


Lemma filter_all {A : Type} (f : A -> bool) (l : list A) :
  (forall x, f x = true) -> filter f l = l.
Proof.
  intros H; induction l as [|x l IH]; simpl; [reflexivity|].
  now rewrite H, IH.
Qed.

(** *** The filter beyond Latin-1 *)

(** On text of code units below U+0100 the filter on UTF-16 strings is the
    filter on [string]. *)
Lemma eqb_embed (a b : ascii) :
  (N_of_ascii a =? N_of_ascii b)%N = Ascii.eqb a b.
Proof.
  destruct (Ascii.eqb_spec a b) as [->|Hne].
  - apply N.eqb_refl.
  - apply N.eqb_neq; intros H; apply Hne.
    now rewrite <- (ascii_N_embedding a), <- (ascii_N_embedding b), H.
Qed.

Lemma startsWith_embed (s p : string) :
  Wide.startsWith (Wide.embed s) (Wide.embed p) = Js.startsWith s p.
Proof.
  revert s; induction p as [|b p IH]; intros s; destruct s as [|a s];
    simpl; try reflexivity.
  now rewrite eqb_embed, IH.
Qed.

Lemma includes_embed (s sub : string) :
  Wide.includes (Wide.embed s) (Wide.embed sub) = Js.includes s sub.
Proof.
  induction s as [|a s IH]; cbn [Wide.includes Js.includes Wide.embed].
  - now rewrite <- startsWith_embed.
  - now rewrite <- startsWith_embed, IH.
Qed.

Lemma lowerFrom_embed (s : string) (before : Wide.ustring) :
  Wide.lowerFrom before (Wide.embed s) = Some (Wide.embed (Js.toLowerCase s)).
Proof.
  revert before; induction s as [|c s IH]; intros before; [reflexivity|].
  cbn [Wide.embed Wide.lowerFrom Js.toLowerCase].
  pose proof (N_ascii_bounded c) as Hc.
  assert (Hl : Wide.isLatin1 (N_of_ascii c) = true)
    by (apply N.ltb_lt; exact Hc).
  assert (Hs : (N_of_ascii c =? 0x3A3)%N = false)
    by (apply N.eqb_neq; lia).
  unfold Wide.known, Wide.lowerUnit; rewrite Hl, Hs, IH; cbn [orb andb option_map].
  now rewrite ascii_N_embedding.
Qed.

Lemma toLowerCase_embed (s : string) :
  Wide.toLowerCase (Wide.embed s) = Some (Wide.embed (Js.toLowerCase s)).
Proof. apply lowerFrom_embed. Qed.

Lemma matchesQuery_embed (q : string) (item : InventoryItem) :
  Wide.matchesQuery (Wide.embed q) (Wide.embedRow item)
  = Some (Dashboard.matchesQuery q item).
Proof.
  unfold Wide.matchesQuery, Dashboard.matchesQuery, Dashboard.optIncludes.
  cbn [Wide.embedRow Wide.barcode Wide.product Wide.colour Wide.size].
  rewrite !toLowerCase_embed.
  destruct (colour item) as [c|], (size item) as [z|];
    cbn [option_map Wide.lowerOptional]; rewrite ?toLowerCase_embed;
    cbn [option_map Wide.optIncludes]; now rewrite ?includes_embed.
Qed.

Lemma filterRows_embed (q : string) (items : list InventoryItem) :
  Wide.filterRows (Wide.embed q) (map Wide.embedRow items)
  = Some (map Wide.embedRow (filter (Dashboard.matchesQuery q) items)).
Proof.
  induction items as [|item items IH]; [reflexivity|].
  cbn [map Wide.filterRows filter]; rewrite matchesQuery_embed, IH.
  now destruct (Dashboard.matchesQuery q item).
Qed.



(** With one more letter typed the same row is shown again. *)
Example final_sigma_row_returns :
  Wide.filterRows sigmaQuery [sigmaRow] = Some []
  /\ Wide.filterRows (sigmaQuery ++ [0x391%N])%list [sigmaRow] = Some [sigmaRow].
Proof. split; reflexivity. Qed.


(** ** The scan request *)

(** C10.  A submitted buffer leads to at most one call, made when the
    trimmed buffer is not empty and the closure saw no call in progress; the
    call is an increment on [sync-inventory] whose barcode is the buffer
    without the white space at its two ends, with the defaults
    ["Product-" ++ barcode], no colour and no size; the banner after a
    successful scan reads [Scanned: <product> (Quantity: <quantity>)]. *)
Theorem scan_request_is_normalized :
  forall (seen : bool) (buffer : string) (s : Scanner.State),
    let r := Scanner.scanRequest buffer in
    Scanner.sent (Scanner.handleBarcodeSubmit seen buffer s)
    = (if Js.truthy (Js.trim buffer) && negb seen
       then Scanner.sent s ++ [r] else Scanner.sent s)%list
    /\ Scanner.fn r = "sync-inventory"
    /\ Scanner.action r = Scanner.increment
    /\ Scanner.productData r
       = Some {| Scanner.pd_product := "Product-" ++ Scanner.body_barcode r;
                 Scanner.pd_colour := "";
                 Scanner.pd_size := "" |}
    /\ (exists pre post,
           buffer = pre ++ Scanner.body_barcode r ++ post
           /\ Spec.allWhiteSpace pre = true /\ Spec.allWhiteSpace post = true)
    /\ Spec.firstIsWhiteSpace (Scanner.body_barcode r) = false
    /\ Spec.lastIsWhiteSpace (Scanner.body_barcode r) = false
    /\ forall d s0,
         Scanner.scanMessage (Scanner.resumeBarcodeSubmit (Scanner.InvokeData d) s0)
         = Some {| type := success;
                   text := "Scanned: " ++ product (unwrap d) ++ " (Quantity: "
                           ++ Js.numberToString (quantity (unwrap d)) ++ ")" |}.
Proof.
  intros seen buffer s r.
  destruct (trim_spec buffer) as (Hsplit & Hfirst & Hlast).
  repeat split; auto.
  unfold Scanner.handleBarcodeSubmit.
  destruct (Js.truthy (Js.trim buffer)), seen; reflexivity.
Qed.

(** The scenario of the specification: scanning "123" when the backend
    answers with quantity 1. *)
Example scan_123 :
  let answer :=
    {| id := "1"; user_id := "u"; barcode := "123"; product := "Product-123";
       colour := None; size := None; quantity := 1; low_stock_threshold := 10;
       created_at := 0; updated_at := 0 |} in
  let s := Scanner.run
             [Scanner.Change " 123 "; Scanner.Wait 100;
              Scanner.Settle 0 (Scanner.InvokeData (Direct answer))]
             Scanner.initial in
  Scanner.sent s = [Scanner.scanRequest "123"]
  /\ Scanner.scanMessage s
     = Some {| type := success; text := "Scanned: Product-123 (Quantity: 1)" |}
  /\ Scanner.scanMessage (Scanner.step (Scanner.Wait 3000) s) = None.
Proof. repeat split. Qed.

(** ** The low-stock indicator *)

(** C5, as stated, fails on the row under edit: an item with quantity 0 and
    threshold 5 whose row is being edited is rendered without any status
    badge. *)
Lemma low_stock_badge_absent_under_edit :
  let item := sampleItem 0 5 in
  In item [item]
  /\ (quantity item <= low_stock_threshold item)%Z
  /\ Dashboard.showsLowStock (Dashboard.renderRow (Some item) item) = false.
Proof. simpl; repeat split; [now left | lia]. Qed.

(** C5, amended.  For every row that is not under edit, the row shows
    "Low Stock" exactly when quantity <= threshold and "In Stock" exactly
    otherwise; the row under edit shows neither; and the scan view shows
    its alert for the last-scanned item exactly when quantity <= threshold.
    Both depend on nothing but the two fields. *)
Theorem low_stock_indicator :
  forall (editing : option InventoryItem) (item : InventoryItem),
    (Spec.underEdit editing item = false ->
       (Dashboard.showsLowStock (Dashboard.renderRow editing item) = true
        <-> (quantity item <= low_stock_threshold item)%Z)
       /\ (Dashboard.showsInStock (Dashboard.renderRow editing item) = true
           <-> ~ (quantity item <= low_stock_threshold item)%Z))
    /\ (Spec.underEdit editing item = true ->
          Dashboard.showsLowStock (Dashboard.renderRow editing item) = false
          /\ Dashboard.showsInStock (Dashboard.renderRow editing item) = false)
    /\ (forall s,
          Scanner.lastScannedItem s = Some item ->
          (Scanner.lowStockAlert s = true
           <-> (quantity item <= low_stock_threshold item)%Z)).
Proof.
  intros editing item; split; [|split].
  - intros Hedit.
    assert (Hrow : Dashboard.renderRow editing item
                   = Dashboard.renderRow None item).
    { destruct editing as [e|]; [|reflexivity].
      unfold Dashboard.renderRow; simpl in Hedit; now rewrite Hedit. }
    rewrite Hrow; unfold Dashboard.showsLowStock, Dashboard.showsInStock.
    cbn [Dashboard.renderRow existsb Dashboard.isBadge orb].
    unfold Dashboard.statusCell.
    destruct (Z.leb_spec (quantity item) (low_stock_threshold item));
      simpl; split; split; intros; try discriminate; try lia; auto.
  - intros Hedit; destruct editing as [e|]; [|discriminate].
    unfold Dashboard.renderRow; simpl in Hedit; rewrite Hedit; split; reflexivity.
  - intros s Hs; unfold Scanner.lowStockAlert; rewrite Hs.
    apply Z.leb_le.
Qed.

Lemma low_stock_indicator_witness :
  let item := sampleItem 4 10 in
  (Dashboard.showsLowStock (Dashboard.renderRow None item) = true
   <-> (quantity item <= low_stock_threshold item)%Z)
  /\ (Scanner.lowStockAlert (Scanner.setLastScannedItem (Some item) Scanner.initial)
      = true
      <-> (quantity item <= low_stock_threshold item)%Z).
Proof.
  intros item.
  destruct (low_stock_indicator None item) as (Hshown & _ & Halert).
  split.
  - apply (Hshown eq_refl).
  - apply (Halert (Scanner.setLastScannedItem (Some item) Scanner.initial) eq_refl).
Defined.

(** ** What the scan view sends *)

Lemma sent_handleBarcodeSubmit (seen : bool) (b : string) (s : Scanner.State) :
  Scanner.sent (Scanner.handleBarcodeSubmit seen b s)
  = (if Js.truthy (Js.trim b) && negb seen
     then Scanner.sent s ++ [Scanner.scanRequest b] else Scanner.sent s)%list.
Proof.
  unfold Scanner.handleBarcodeSubmit.
  destruct (Js.truthy (Js.trim b)), seen; reflexivity.
Qed.

Lemma sent_resume (k : Scanner.Awaiting) (r : Scanner.InvokeResult)
    (s : Scanner.State) :
  Scanner.sent (Scanner.resume k r s) = Scanner.sent s.
Proof. destruct k, r; reflexivity. Qed.

Lemma sent_settle (i : nat) (r : Scanner.InvokeResult) (s : Scanner.State) :
  Scanner.sent (Scanner.settle i r s) = Scanner.sent s.
Proof.
  unfold Scanner.settle.
  destruct (nth_error (Scanner.inFlight s) i) as [[k q]|]; [|reflexivity].
  now rewrite sent_resume.
Qed.

Lemma sent_runCallback (cb : Scanner.Callback) (s : Scanner.State) :
  Scanner.sent (Scanner.runCallback cb s)
  = (Scanner.sent s ++ Spec.callbackRequests cb)%list.
Proof.
  destruct cb as [v seen|]; simpl; [|now rewrite app_nil_r].
  unfold Scanner.handleBarcodeSubmit.
  destruct (Js.truthy (Js.trim v)), seen; simpl; now rewrite ?app_nil_r.
Qed.

Lemma inFlight_runCallback (cb : Scanner.Callback) (s : Scanner.State) :
  Scanner.inFlight (Scanner.runCallback cb s)
  = (Scanner.inFlight s
     ++ map (pair Scanner.AwaitScan) (Spec.callbackRequests cb))%list.
Proof.
  destruct cb as [v seen|]; simpl; [|now rewrite app_nil_r].
  unfold Scanner.handleBarcodeSubmit.
  destruct (Js.truthy (Js.trim v)), seen; simpl; now rewrite ?app_nil_r.
Qed.

(** A timer's function touches neither the buffer, nor the last-scanned
    item, nor the timers. *)
Lemma runCallback_frame (cb : Scanner.Callback) (s : Scanner.State) :
  Scanner.barcodeInput (Scanner.runCallback cb s) = Scanner.barcodeInput s
  /\ Scanner.lastScannedItem (Scanner.runCallback cb s) = Scanner.lastScannedItem s
  /\ Scanner.timers (Scanner.runCallback cb s) = Scanner.timers s
  /\ Scanner.scanTimeoutRef (Scanner.runCallback cb s) = Scanner.scanTimeoutRef s
  /\ Scanner.isProcessing (Scanner.runCallback cb s)
     = (negb (Spec.noRequests (Spec.callbackRequests cb)) || Scanner.isProcessing s).
Proof.
  destruct cb as [v seen|]; simpl; [|repeat split].
  unfold Scanner.handleBarcodeSubmit.
  destruct (Js.truthy (Js.trim v)), seen; simpl; repeat split.
Qed.

Lemma runTimers_spec (due : list Scanner.Timer) (s : Scanner.State) :
  Scanner.sent (Scanner.runTimers due s)
  = (Scanner.sent s ++ flat_map Spec.timerRequests due)%list
  /\ Scanner.inFlight (Scanner.runTimers due s)
     = (Scanner.inFlight s
        ++ map (pair Scanner.AwaitScan) (flat_map Spec.timerRequests due))%list
  /\ Scanner.barcodeInput (Scanner.runTimers due s) = Scanner.barcodeInput s
  /\ Scanner.lastScannedItem (Scanner.runTimers due s) = Scanner.lastScannedItem s
  /\ Scanner.timers (Scanner.runTimers due s) = Scanner.timers s
  /\ Scanner.scanTimeoutRef (Scanner.runTimers due s) = Scanner.scanTimeoutRef s
  /\ Scanner.isProcessing (Scanner.runTimers due s)
     = (negb (Spec.noRequests (flat_map Spec.timerRequests due))
        || Scanner.isProcessing s).
Proof.
  revert s; induction due as [|t due IH]; intros s.
  - simpl; rewrite !app_nil_r; repeat split.
  - change (Scanner.runTimers (t :: due) s)
      with (Scanner.runTimers due (Scanner.runCallback (Scanner.callback t) s)).
    destruct (IH (Scanner.runCallback (Scanner.callback t) s))
      as (Hs & Hf & Hb & Hl & Ht & Hr & Hp).
    destruct (runCallback_frame (Scanner.callback t) s)
      as (Hb1 & Hl1 & Ht1 & Hr1 & Hp1).
    rewrite Hs, Hf, Hb, Hl, Ht, Hr, Hp, Hb1, Hl1, Ht1, Hr1, Hp1.
    rewrite sent_runCallback, inFlight_runCallback.
    cbn [flat_map]; rewrite map_app, <- !app_assoc.
    do 6 (split; [reflexivity|]).
    unfold Spec.timerRequests at 2.
    destruct (Spec.callbackRequests (Scanner.callback t)); simpl;
      [reflexivity | now rewrite orb_true_r].
Qed.

Lemma advance_spec (dt : nat) (s : Scanner.State) :
  let due := filter (Scanner.isDue (Scanner.now s + dt)) (Scanner.timers s) in
  let s' := Scanner.advance dt s in
  Scanner.sent s' = (Scanner.sent s ++ flat_map Spec.timerRequests due)%list
  /\ Scanner.inFlight s'
     = (Scanner.inFlight s
        ++ map (pair Scanner.AwaitScan) (flat_map Spec.timerRequests due))%list
  /\ Scanner.barcodeInput s' = Scanner.barcodeInput s
  /\ Scanner.lastScannedItem s' = Scanner.lastScannedItem s
  /\ Scanner.timers s'
     = filter (fun t => negb (Scanner.isDue (Scanner.now s + dt) t))
         (Scanner.timers s)
  /\ Scanner.scanTimeoutRef s' = Scanner.scanTimeoutRef s
  /\ Scanner.isProcessing s'
     = (negb (Spec.noRequests (flat_map Spec.timerRequests due))
        || Scanner.isProcessing s)
  /\ Scanner.now s' = Scanner.now s + dt.
Proof.
  intros due s'; subst s'; unfold Scanner.advance; fold due.
  set (later := filter (fun t => negb (Scanner.isDue (Scanner.now s + dt) t))
                  (Scanner.timers s)).
  destruct (runTimers_spec due (Scanner.setTimers later s))
    as (Hs & Hf & Hb & Hl & Ht & Hr & Hp).
  cbn [Scanner.setNow Scanner.sent Scanner.inFlight Scanner.barcodeInput
       Scanner.lastScannedItem Scanner.timers Scanner.scanTimeoutRef
       Scanner.isProcessing Scanner.now].
  rewrite Hs, Hf, Hb, Hl, Ht, Hr, Hp; repeat split.
Qed.





(** ** Failures of the counting operation *)

Lemma stringOr_description (m d : string) :
  m <> "" -> Js.stringOr (Some m) d = m.
Proof. destruct m; [congruence | reflexivity]. Qed.

(** C6.  When the awaited call of a scan or of a quantity adjustment
    fails, the banner is an error whose text is the description of the
    failure, or the fixed text of the handler when there is no description
    (none, or an empty one); the last-scanned item is as before, the busy
    flag is down and the input is enabled again, after a scan the input
    buffer is empty, and no further call is made. *)
Theorem failure_contract :
  forall (s : Scanner.State) (i : nat) (k : Scanner.Awaiting)
         (req : Scanner.Request) (e : Failure),
    nth_error (Scanner.inFlight s) i = Some (k, req) ->
    let s' := Scanner.step (Scanner.Settle i (Scanner.InvokeError e)) s in
    Scanner.scanMessage s'
    = Some {| type := error;
              text := Js.stringOr (message e) (Spec.fallbackText k) |}
    /\ (forall m, message e = Some m -> m <> "" ->
          Scanner.scanMessage s' = Some {| type := error; text := m |})
    /\ (message e = None \/ message e = Some "" ->
          Scanner.scanMessage s'
          = Some {| type := error; text := Spec.fallbackText k |})
    /\ Scanner.lastScannedItem s' = Scanner.lastScannedItem s
    /\ Scanner.isProcessing s' = false
    /\ Scanner.inputDisabled s' = false
    /\ Scanner.barcodeInput s'
       = match k with
         | Scanner.AwaitScan => ""
         | Scanner.AwaitQuantity => Scanner.barcodeInput s
         end
    /\ Scanner.sent s' = Scanner.sent s
    /\ Scanner.inFlight s' = Scanner.removeNth i (Scanner.inFlight s)
    /\ Scanner.timers s' = Scanner.timers s.
Proof.
  intros s i k req e Hi s'.
  assert (Hmsg : Scanner.scanMessage s'
                 = Some {| type := error;
                           text := Js.stringOr (message e) (Spec.fallbackText k) |}).
  { subst s'; simpl; unfold Scanner.settle; rewrite Hi; destruct k; reflexivity. }
  split; [exact Hmsg|].
  split; [intros m Hm Hne; now rewrite Hmsg, Hm, stringOr_description|].
  split; [intros [Hm|Hm]; now rewrite Hmsg, Hm|].
  subst s'; simpl; unfold Scanner.settle; rewrite Hi.
  destruct k; repeat split.
Qed.

Lemma failure_contract_witness :
  let s := Scanner.step (Scanner.Press Scanner.decrement) (scanned 5 10) in
  let s' := Scanner.step
              (Scanner.Settle 0 (Scanner.InvokeError {| message := Some "Network down" |}))
              s in
  Scanner.scanMessage s' = Some {| type := error; text := "Network down" |}
  /\ Scanner.lastScannedItem s' = Some (sampleItem 5 10)
  /\ Scanner.isProcessing s' = false.
Proof.
  intros s s'.
  destruct (failure_contract s 0 Scanner.AwaitQuantity
              (Scanner.quantityRequest Scanner.decrement (sampleItem 5 10))
              {| message := Some "Network down" |} eq_refl)
    as (Hmsg & _ & _ & Hitem & Hbusy & _).
  split; [exact Hmsg | split; [exact Hitem | exact Hbusy]].
Defined.

(** The scenario of the specification: a decrement on an item with
    quantity 5 and threshold 10; the alert stays on throughout. *)
Example decrement_5_10 :
  let s0 := scanned 5 10 in
  let s1 := Scanner.step (Scanner.Press Scanner.decrement) s0 in
  let s2 := Scanner.step
              (Scanner.Settle 0 (Scanner.InvokeData (Direct (sampleItem 4 10))))
              s1 in
  Scanner.sent s1 = [Scanner.quantityRequest Scanner.decrement (sampleItem 5 10)]
  /\ Scanner.lastScannedItem s2 = Some (sampleItem 4 10)
  /\ Scanner.scanMessage s2
     = Some {| type := success; text := "Updated quantity to 4" |}
  /\ map Scanner.lowStockAlert [s0; s1; s2] = [true; true; true]
  /\ Scanner.scanMessage (Scanner.step (Scanner.Wait 2000) s2) = None.
Proof. repeat split. Qed.

(** ** The spreadsheet bridge *)

(** C7.  When the import form is submitted with an empty spreadsheet id,
    range or API key, no call is made; the banner is the error "Please fill
    in all required fields"; the loading flag is down; every other part of
    the state is as before, so that on a view that was not loading only the
    banner differs. *)
Theorem import_validation_is_local :
  forall s : Settings.State,
    Settings.spreadsheetId s = "" \/ Settings.range s = ""
    \/ Settings.apiKey s = "" ->
    let s' := Settings.handleImport s in
    let banner := Some {| type := error; text := Spec.validationText |} in
    Settings.sent s' = Settings.sent s
    /\ Settings.inFlight s' = Settings.inFlight s
    /\ Settings.message s' = banner
    /\ Settings.loading s' = false
    /\ s' = Settings.setLoading false (Settings.setMessage banner s)
    /\ (Settings.loading s = false -> s' = Settings.setMessage banner s).
Proof.
  intros s Hblank s' banner.
  assert (Hs' : s' = Settings.setLoading false (Settings.setMessage banner s)).
  { subst s'; unfold Settings.handleImport.
    destruct Hblank as [H|[H|H]]; rewrite H; simpl;
      rewrite ?orb_true_r; reflexivity. }
  rewrite Hs'; repeat split.
  intros Hl; destruct s; simpl in *; subst; reflexivity.
Qed.

Lemma import_validation_is_local_witness :
  Settings.sent (Settings.handleImport blankKeyForm) = []
  /\ Settings.message (Settings.handleImport blankKeyForm)
     = Some {| type := error; text := "Please fill in all required fields" |}.
Proof.
  destruct (import_validation_is_local blankKeyForm (or_intror (or_intror eq_refl)))
    as (Hsent & _ & Hmsg & _).
  split; [exact Hsent | exact Hmsg].
Defined.

(** *** The history query over the log *)











(** A successful import on the sample log, from the call to the list. *)
Example history_after_import :
  let s1 := Settings.handleImport filledForm in
  let s2 := Settings.settle 0
              (Settings.ImportOutcome
                 (inr (Direct {| Settings.imported := 3; Settings.errors := 1 |})))
              s1 in
  let rows := Settings.runQuery (Settings.historyQuery "user-1") sampleLog in
  let s3 := Settings.settle 0 (Settings.HistoryOutcome (inr (Some rows))) s2 in
  Settings.message s2
  = Some {| type := success; text := "Successfully imported 3 items (1 errors)" |}
  /\ Settings.sent s2
     = [Settings.InvokeImport "sheet-42" "Sheet1!A:F" "key";
        Settings.Select (Settings.historyQuery "user-1")]
  /\ map sync_created_at (Settings.syncHistory s3) = [60; 50; 40; 30; 20]%Z.
Proof. repeat split. Qed.

(** ** The quantity field of the edit form *)

Ltac ascii_cases c :=
  let b0 := fresh in let b1 := fresh in let b2 := fresh in let b3 := fresh in
  let b4 := fresh in let b5 := fresh in let b6 := fresh in let b7 := fresh in
  destruct c as [b0 b1 b2 b3 b4 b5 b6 b7];
  destruct b0, b1, b2, b3, b4, b5, b6, b7.

Lemma digit_is_plain (c : ascii) :
  Js.isDigit c = true ->
  Js.isWhiteSpace c = false /\ Ascii.eqb c "-" = false
  /\ Ascii.eqb c "+" = false /\ Js.isX c = false.
Proof. ascii_cases c; cbv; intros H; try discriminate H; repeat split. Qed.

Lemma digitValue_decimal (c : ascii) :
  Js.digitValue 10 c
  = if Js.isDigit c then Some (Z.of_nat (Js.code c) - 48)%Z else None.
Proof. ascii_cases c; reflexivity. Qed.

Lemma parseDigits_decimal_acc (s : string) (a : Z) :
  Js.parseDigits 10 (Some a) s
  = Some (a * 10 ^ Z.of_nat (String.length (Spec.takeDigits s))
          + Spec.decimalValue (Spec.takeDigits s))%Z.
Proof.
  revert a; induction s as [|c s IH]; intros a.
  - simpl; f_equal; lia.
  - cbn [Js.parseDigits Spec.takeDigits]; rewrite digitValue_decimal.
    destruct (Js.isDigit c).
    + rewrite IH; cbn [Spec.decimalValue String.length].
      rewrite Nat2Z.inj_succ, Z.pow_succ_r by lia.
      f_equal; ring.
    + simpl; f_equal; lia.
Qed.

(** Reading digits in radix 10 gives the positional value of the leading
    run of digits, and nothing when the run is empty. *)
Lemma parseDigits_decimal (s : string) :
  Js.parseDigits 10 None s
  = if Js.isEmpty (Spec.takeDigits s) then None
    else Some (Spec.decimalValue (Spec.takeDigits s)).
Proof.
  destruct s as [|c s]; [reflexivity|].
  cbn [Js.parseDigits Spec.takeDigits]; rewrite digitValue_decimal.
  destruct (Js.isDigit c); [|reflexivity].
  rewrite parseDigits_decimal_acc; cbn [Js.isEmpty Spec.decimalValue].
  f_equal; ring.
Qed.

Lemma hexPrefixed_cases (s : string) :
  Js.hexPrefixed s = true ->
  exists x r, s = String "0" (String x r) /\ (x = "x"%char \/ x = "X"%char).
Proof.
  destruct s as [|z [|x r]]; simpl; try discriminate.
  rewrite andb_true_iff; unfold Js.isX.
  rewrite orb_true_iff, !Ascii.eqb_eq; intros (-> & Hx); eauto.
Qed.

Lemma validUnsigned_not_hex (s : string) :
  Js.validUnsigned s = true -> Js.hexPrefixed s = false.
Proof.
  intros Hv; destruct (Js.hexPrefixed s) eqn:Hh; [|reflexivity].
  destruct (hexPrefixed_cases s Hh) as (x & r & -> & [->| ->]);
    discriminate Hv.
Qed.

Lemma digits_not_hex (s : string) :
  Js.startsWithDigit s = false -> Js.hexPrefixed s = false.
Proof.
  intros Hd; destruct (Js.hexPrefixed s) eqn:Hh; [|reflexivity].
  destruct (hexPrefixed_cases s Hh) as (x & r & -> & _); discriminate Hd.
Qed.

Lemma all_digits_not_hex (ds : string) :
  Spec.takeDigits ds = ds -> Js.hexPrefixed ds = false.
Proof.
  intros Hd; destruct (Js.hexPrefixed ds) eqn:Hh; [|reflexivity].
  destruct (hexPrefixed_cases ds Hh) as (x & r & -> & [->| ->]);
    discriminate Hd.
Qed.

Lemma parseUnsigned_decimal (s : string) :
  Js.hexPrefixed s = false ->
  Js.parseUnsigned s
  = if Js.isEmpty (Spec.takeDigits s) then None
    else Some (Spec.decimalValue (Spec.takeDigits s)).
Proof.
  intros Hh; unfold Js.parseUnsigned; rewrite Hh; apply parseDigits_decimal.
Qed.

(** The first character of a valid unsigned number is a digit or a dot. *)
Lemma validUnsigned_first (c : ascii) (r : string) :
  Js.validUnsigned (String c r) = true ->
  Js.isWhiteSpace c = false /\ Ascii.eqb c "+" = false.
Proof.
  intros Hv; destruct (Js.isDigit c) eqn:Hc.
  - destruct (digit_is_plain c Hc) as (? & _ & ? & _); auto.
  - unfold Js.validUnsigned in Hv; cbn [Js.dropDigits] in Hv.
    rewrite Hc in Hv; cbn [Js.startsWithDigit] in Hv; rewrite Hc in Hv.
    destruct (Ascii.eqb c ".") eqn:Hdot; [|discriminate Hv].
    apply Ascii.eqb_eq in Hdot; subst c; split; reflexivity.
Qed.

(** Up to 2^53 in magnitude an integer is its own Number value. *)
Lemma numberValue_exact (n : Z) : Spec.exact n -> Js.numberValue n = n.
Proof.
  unfold Spec.exact, Js.numberValue; intros Hn.
  destruct (Z.ltb_spec (Z.abs n) (2 ^ 53)) as [_|Hge]; [reflexivity|].
  assert (Hcases : n = (2 ^ 53)%Z \/ n = (- 2 ^ 53)%Z) by lia.
  destruct Hcases as [-> | ->]; vm_compute; reflexivity.
Qed.

Example numberValue_examples :
  map Js.numberValue
    [0; 7; -7; 9007199254740992; 9007199254740993; 9007199254740994;
     9007199254740995; -9007199254740993; 18014398509481985;
     18014398509481986; 18014398509481987]%Z
  = [0; 7; -7; 9007199254740992; 9007199254740992; 9007199254740994;
     9007199254740996; -9007199254740992; 18014398509481984;
     18014398509481984; 18014398509481988]%Z.
Proof. vm_compute; reflexivity. Qed.

(** On the values of a number input, [parseInt] reads the leading integer
    and gives its Number value. *)
Lemma parseInt_number_input (v : string) :
  Js.isNumberInputValue v = true ->
  Js.parseInt v = option_map Js.numberValue (Spec.leadingInteger v).
Proof.
  unfold Js.isNumberInputValue; destruct v as [|c r]; [reflexivity|].
  cbn [Js.isEmpty orb Js.validFloatingPointNumber].
  unfold Js.parseInt, Spec.leadingInteger.
  destruct (Ascii.eqb c "-") eqn:Hminus; intros Hv.
  - apply Ascii.eqb_eq in Hminus; subst c.
    cbn [Js.trimStart]; change (Js.isWhiteSpace "-") with false; cbv iota.
    change (Ascii.eqb "-" "-") with true; cbv iota.
    rewrite (parseUnsigned_decimal r (validUnsigned_not_hex r Hv)).
    destruct (Js.isEmpty (Spec.takeDigits r)); reflexivity.
  - destruct (validUnsigned_first c r Hv) as (Hws & Hplus).
    cbn [Js.trimStart]; rewrite Hws, Hminus, Hplus.
    rewrite (parseUnsigned_decimal _ (validUnsigned_not_hex _ Hv)).
    destruct (Js.isEmpty (Spec.takeDigits (String c r))); reflexivity.
Qed.

Lemma numberOr_zero (n : option Z) :
  Js.numberOr n 0 = match n with Some k => k | None => 0%Z end.
Proof.
  destruct n as [k|]; [|reflexivity]; simpl.
  destruct (Z.eqb_spec k 0); congruence.
Qed.

(** What the handler keeps for a value of the number input: the Number
    value of the leading integer. *)
Lemma coerceQuantity_rounds (v : string) :
  Js.isNumberInputValue v = true ->
  Dashboard.coerceQuantity v = Js.numberValue (Spec.quantityOfText v).
Proof.
  intros Hv; unfold Dashboard.coerceQuantity, Spec.quantityOfText.
  rewrite numberOr_zero, parseInt_number_input by exact Hv.
  destruct (Spec.leadingInteger v); reflexivity.
Qed.

Lemma coerceQuantity_number_input (v : string) :
  Js.isNumberInputValue v = true ->
  Spec.exact (Spec.quantityOfText v) ->
  Dashboard.coerceQuantity v = Spec.quantityOfText v.
Proof.
  intros Hv Hx; rewrite coerceQuantity_rounds by exact Hv.
  now apply numberValue_exact.
Qed.

(** Text that shows no digit after its white space and sign reads as 0. *)
Lemma coerceQuantity_not_numeric (v : string) :
  Js.startsWithDigit (Spec.afterSign v) = false ->
  Dashboard.coerceQuantity v = 0%Z.
Proof.
  unfold Dashboard.coerceQuantity, Js.parseInt, Spec.afterSign.
  assert (Hnone : forall s, Js.startsWithDigit s = false ->
                            Js.parseUnsigned s = None).
  { intros s Hs; rewrite parseUnsigned_decimal by now apply digits_not_hex.
    destruct s as [|c s]; [reflexivity|].
    cbn [Spec.takeDigits]; simpl in Hs; now rewrite Hs. }
  destruct (Js.trimStart v) as [|c r]; intros Hd.
  - reflexivity.
  - destruct (Ascii.eqb c "-"); cbn [orb] in Hd.
    + now rewrite (Hnone r Hd).
    + destruct (Ascii.eqb c "+"); now rewrite (Hnone _ Hd).
Qed.

(** Any text that does not start, after its white space and sign, with
    [0x] or [0X] reads as its sign times the value of its leading digits,
    as long as that value is at most 2^53. *)
Lemma coerceQuantity_decimal (v : string) :
  Js.hexPrefixed (Spec.afterSign v) = false ->
  Spec.exact (Spec.decimalValue (Spec.takeDigits (Spec.afterSign v))) ->
  Dashboard.coerceQuantity v
  = (Spec.signOf v * Spec.decimalValue (Spec.takeDigits (Spec.afterSign v)))%Z.
Proof.
  unfold Dashboard.coerceQuantity, Js.parseInt, Spec.afterSign, Spec.signOf.
  assert (Hread : forall (sg : Z) (s : string),
             (sg = 1 \/ sg = -1)%Z ->
             Js.hexPrefixed s = false ->
             Spec.exact (Spec.decimalValue (Spec.takeDigits s)) ->
             Js.numberOr
               match Js.parseUnsigned s with
               | Some n => Some (Js.numberValue (sg * n))
               | None => None
               end 0
             = (sg * Spec.decimalValue (Spec.takeDigits s))%Z).
  { intros sg s Hsg Hs Hx; rewrite (parseUnsigned_decimal s Hs), numberOr_zero.
    destruct (Js.isEmpty (Spec.takeDigits s)) eqn:He.
    - destruct (Spec.takeDigits s); [simpl; lia | discriminate He].
    - apply numberValue_exact; unfold Spec.exact in *; lia. }
  destruct (Js.trimStart v) as [|c r]; intros Hh Hx.
  - reflexivity.
  - destruct (Ascii.eqb c "-"); cbn [orb] in Hh, Hx; [apply Hread; auto|].
    destruct (Ascii.eqb c "+"); apply Hread; auto.
Qed.

Example text_with_hex_prefix :
  Dashboard.coerceQuantity "0x1A" = 26%Z
  /\ Js.isNumberInputValue "0x1A" = false.
Proof. split; reflexivity. Qed.

Lemma coerceQuantity_negative (ds : string) :
  Js.isEmpty ds = false -> Spec.takeDigits ds = ds ->
  Spec.exact (Spec.decimalValue ds) ->
  Dashboard.coerceQuantity (String "-" ds) = (- Spec.decimalValue ds)%Z.
Proof.
  intros Hne Hds Hx; unfold Dashboard.coerceQuantity, Js.parseInt.
  cbn [Js.trimStart]; change (Js.isWhiteSpace "-") with false; cbv iota.
  change (Ascii.eqb "-" "-") with true; cbv iota.
  rewrite (parseUnsigned_decimal ds (all_digits_not_hex ds Hds)), Hds, Hne.
  rewrite numberOr_zero, numberValue_exact; [lia|].
  unfold Spec.exact in *; lia.
Qed.

(** C9, as stated, fails past 2^53.  The digits typed write 2^53 + 1,
    which no double holds: the working copy keeps 2^53, and that is what a
    save sends. *)
Lemma quantity_beyond_2_53_is_rounded :
  let v := "9007199254740993" in
  let s := Dashboard.setEditingItem (Some (sampleItem 3 10)) dashboardWithItem in
  Js.isNumberInputValue v = true
  /\ Spec.quantityOfText v = 9007199254740993%Z
  /\ Dashboard.coerceQuantity v = 9007199254740992%Z
  /\ Dashboard.coerceQuantity v <> Spec.quantityOfText v
  /\ Dashboard.editingItem (Dashboard.onQuantityChange v s)
     = Some (sampleItem 9007199254740992 10)
  /\ Dashboard.sent (Dashboard.save 1000 (Dashboard.onQuantityChange v s))
     = [Dashboard.UpdateItem "item-1"
          {| Dashboard.upd_product := "Product-123";
             Dashboard.upd_colour := None;
             Dashboard.upd_size := None;
             Dashboard.upd_quantity := 9007199254740992%Z;
             Dashboard.upd_low_stock_threshold := 10%Z;
             Dashboard.upd_updated_at := 1000%Z |}].
Proof.
  intros v s.
  assert (Hq : Spec.quantityOfText v = 9007199254740993%Z)
    by (vm_compute; reflexivity).
  assert (Hc : Dashboard.coerceQuantity v = 9007199254740992%Z)
    by (vm_compute; reflexivity).
  split; [reflexivity|split; [exact Hq|split; [exact Hc|split; [|split]]]].
  - rewrite Hq, Hc; discriminate.
  - vm_compute; reflexivity.
  - vm_compute; reflexivity.
Qed.

(** C9.  For every value the quantity field (a number input) can hand to
    its handler and whose leading integer is at most 2^53 in magnitude, the
    working copy's quantity becomes the integer written by the leading
    digits of the text, and 0 when there is none or when that integer is 0;
    the same reading, after leading white space and a sign, holds for any
    text that does not go on with [0x] or [0X]; any text without a digit
    after its white space and sign gives 0; a negative integer of that range
    is kept as it is, and saving then sends it to the backend as the
    quantity of the row.  Whatever the size of the integer, a value of at
    most 20 characters is kept as the double nearest to its leading
    integer. *)
Theorem edit_quantity_coercion :
  (forall s e v,
      Dashboard.editingItem s = Some e ->
      Dashboard.editingItem (Dashboard.onQuantityChange v s)
      = Some (Dashboard.withQuantity (Dashboard.coerceQuantity v) e))
  /\ (forall v,
      Js.isNumberInputValue v = true ->
      Spec.exact (Spec.quantityOfText v) ->
      Dashboard.coerceQuantity v = Spec.quantityOfText v)
  /\ (forall v,
      Js.hexPrefixed (Spec.afterSign v) = false ->
      Spec.exact (Spec.decimalValue (Spec.takeDigits (Spec.afterSign v))) ->
      Dashboard.coerceQuantity v
      = (Spec.signOf v * Spec.decimalValue (Spec.takeDigits (Spec.afterSign v)))%Z)
  /\ (forall v,
      Js.startsWithDigit (Spec.afterSign v) = false ->
      Dashboard.coerceQuantity v = 0%Z)
  /\ (forall s e ds date,
      Dashboard.editingItem s = Some e ->
      Js.isEmpty ds = false -> Spec.takeDigits ds = ds ->
      (0 < Spec.decimalValue ds)%Z ->
      Spec.exact (Spec.decimalValue ds) ->
      let s1 := Dashboard.onQuantityChange (String "-" ds) s in
      Js.isNumberInputValue (String "-" ds) = true
      /\ Dashboard.editingItem s1
         = Some (Dashboard.withQuantity (- Spec.decimalValue ds) e)
      /\ Dashboard.sent (Dashboard.save date s1)
         = (Dashboard.sent s
            ++ [Dashboard.UpdateItem (id e)
                  {| Dashboard.upd_product := product e;
                     Dashboard.upd_colour := colour e;
                     Dashboard.upd_size := size e;
                     Dashboard.upd_quantity := (- Spec.decimalValue ds)%Z;
                     Dashboard.upd_low_stock_threshold := low_stock_threshold e;
                     Dashboard.upd_updated_at := date |}])%list
      /\ (- Spec.decimalValue ds < 0)%Z)
  /\ (forall v,
      Js.isNumberInputValue v = true ->
      String.length v <= 20 ->
      Dashboard.coerceQuantity v = Js.numberValue (Spec.quantityOfText v)).
Proof.
  split; [|split; [|split; [|split; [|split]]]].
  - intros s e v He; unfold Dashboard.onQuantityChange; now rewrite He.
  - exact coerceQuantity_number_input.
  - exact coerceQuantity_decimal.
  - exact coerceQuantity_not_numeric.
  - intros s e ds date He Hne Hds Hpos Hx s1.
    assert (Hs1 : Dashboard.editingItem s1
                  = Some (Dashboard.withQuantity (- Spec.decimalValue ds) e)).
    { subst s1; unfold Dashboard.onQuantityChange; rewrite He; simpl.
      now rewrite coerceQuantity_negative. }
    split; [|split; [exact Hs1|split; [|lia]]].
    + unfold Js.isNumberInputValue; cbn [Js.isEmpty orb Js.validFloatingPointNumber].
      change (Ascii.eqb "-" "-") with true; cbv iota.
      unfold Js.validUnsigned.
      assert (Hdrop : forall t, Spec.takeDigits t = t -> Js.dropDigits t = "").
      { induction t as [|c t IH]; [reflexivity|]; simpl.
        destruct (Js.isDigit c); [|discriminate].
        intros H; injection H as H; auto. }
      rewrite (Hdrop ds Hds).
      destruct ds as [|c ds]; [discriminate Hne|].
      simpl in Hds |- *; destruct (Js.isDigit c); [reflexivity|discriminate Hds].
    + unfold Dashboard.save; rewrite Hs1.
      subst s1; unfold Dashboard.onQuantityChange; rewrite He; reflexivity.
  - intros v Hv _; now apply coerceQuantity_rounds.
Qed.

Lemma edit_quantity_coercion_witness :
  let s := Dashboard.setEditingItem (Some (sampleItem 3 10)) dashboardWithItem in
  let s1 := Dashboard.onQuantityChange "-5" s in
  Dashboard.coerceQuantity "1e5" = Spec.quantityOfText "1e5"
  /\ Dashboard.coerceQuantity "abc" = 0%Z
  /\ Dashboard.editingItem s1 = Some (sampleItem (-5) 10)
  /\ Dashboard.sent (Dashboard.save 1000 s1)
     = [Dashboard.UpdateItem "item-1"
          {| Dashboard.upd_product := "Product-123";
             Dashboard.upd_colour := None;
             Dashboard.upd_size := None;
             Dashboard.upd_quantity := (-5)%Z;
             Dashboard.upd_low_stock_threshold := 10%Z;
             Dashboard.upd_updated_at := 1000%Z |}].
Proof.
  intros s s1.
  assert (Hsmall : forall n : Z, (Z.abs n <= 5)%Z -> Spec.exact n)
    by (unfold Spec.exact; intros n Hn; change (2 ^ 53)%Z with 9007199254740992%Z; lia).
  destruct edit_quantity_coercion as (_ & Hnum & _ & Hzero & Hneg & _).
  split; [|split].
  - apply (Hnum "1e5"); [reflexivity | apply Hsmall; vm_compute; discriminate].
  - apply (Hzero "abc"); reflexivity.
  - destruct (Hneg s (sampleItem 3 10) "5" 1000%Z eq_refl eq_refl eq_refl eq_refl)
      as (_ & Hedit & Hsent & _).
    + apply Hsmall; vm_compute; discriminate.
    + split; [exact Hedit | exact Hsent].
Defined.

(** ** The debounced input *)

Lemma filter_none {A : Type} (f : A -> bool) (l : list A) :
  (forall x, In x l -> f x = false) -> filter f l = [].
Proof.
  induction l as [|x l IH]; intros H; simpl; [reflexivity|].
  rewrite (H x (or_introl eq_refl)); apply IH; intros y Hy; apply H; now right.
Qed.

Lemma filter_comm {A : Type} (f g : A -> bool) (l : list A) :
  filter f (filter g l) = filter g (filter f l).
Proof.
  induction l as [|x l IH]; simpl; [reflexivity|].
  destruct (f x) eqn:Hf, (g x) eqn:Hg; simpl; rewrite ?Hf, ?Hg, IH; reflexivity.
Qed.

Lemma filter_enqueue_new (f : Scanner.Timer -> bool) (t : Scanner.Timer)
    (q : list Scanner.Timer) :
  f t = true -> filter f q = [] -> filter f (Scanner.enqueue t q) = [t].
Proof.
  intros Ht; induction q as [|x q IH]; simpl; intros Hq.
  - now rewrite Ht.
  - destruct (f x) eqn:Hx; [discriminate Hq|].
    destruct (_ <=? _); simpl; rewrite ?Ht, Hx; [now apply IH | now rewrite Hq].
Qed.

Lemma filter_enqueue_other (f : Scanner.Timer -> bool) (t : Scanner.Timer)
    (q : list Scanner.Timer) :
  f t = false -> filter f (Scanner.enqueue t q) = filter f q.
Proof.
  intros Ht; induction q as [|x q IH]; simpl.
  - now rewrite Ht.
  - destruct (_ <=? _); simpl; rewrite ?Ht, ?IH; reflexivity.
Qed.

(** Only the debounce timers make calls. *)
Lemma timerRequests_scan (l : list Scanner.Timer) :
  flat_map Spec.timerRequests l
  = flat_map Spec.timerRequests (filter Spec.isSubmitScan l).
Proof.
  induction l as [|t l IH]; [reflexivity|]; simpl.
  unfold Spec.isSubmitScan, Spec.timerRequests at 1.
  destruct (Scanner.callback t) eqn:Hc; simpl; rewrite IH; [|reflexivity].
  unfold Spec.timerRequests at 2; now rewrite Hc.
Qed.

(** The passing of time, as the debounce timers see it. *)
Lemma advance_scan (dt : nat) (s : Scanner.State) :
  let due := filter (Scanner.isDue (Scanner.now s + dt)) (Spec.scanTimers s) in
  let s' := Scanner.advance dt s in
  Scanner.sent s' = (Scanner.sent s ++ flat_map Spec.timerRequests due)%list
  /\ Scanner.inFlight s'
     = (Scanner.inFlight s
        ++ map (pair Scanner.AwaitScan) (flat_map Spec.timerRequests due))%list
  /\ Spec.scanTimers s'
     = filter (fun t => negb (Scanner.isDue (Scanner.now s + dt) t))
         (Spec.scanTimers s)
  /\ Scanner.isProcessing s'
     = (negb (Spec.noRequests (flat_map Spec.timerRequests due))
        || Scanner.isProcessing s)
  /\ Scanner.barcodeInput s' = Scanner.barcodeInput s
  /\ Scanner.scanTimeoutRef s' = Scanner.scanTimeoutRef s
  /\ Scanner.now s' = Scanner.now s + dt.
Proof.
  intros due s'.
  destruct (advance_spec dt s) as (Hs & Hf & Hb & _ & Ht & Hr & Hp & Hn).
  fold s' in Hs, Hf, Hb, Ht, Hr, Hp, Hn.
  assert (Hdue : flat_map Spec.timerRequests
                   (filter (Scanner.isDue (Scanner.now s + dt)) (Scanner.timers s))
                 = flat_map Spec.timerRequests due).
  { rewrite timerRequests_scan, filter_comm; reflexivity. }
  rewrite Hdue in Hs, Hf, Hp.
  repeat (split; [assumption|]).
  split; [|auto].
  unfold Spec.scanTimers; rewrite Ht; apply filter_comm.
Qed.

(** With one debounce timer pending, time that stops short of its deadline
    changes nothing but the clock (and the banner). *)
Lemma advance_before_deadline (g : nat) (s : Scanner.State) (t : Scanner.Timer) :
  Spec.scanTimers s = [t] ->
  Scanner.now s + g < Scanner.fireAt t ->
  let s' := Scanner.advance g s in
  Scanner.sent s' = Scanner.sent s
  /\ Scanner.inFlight s' = Scanner.inFlight s
  /\ Spec.scanTimers s' = [t]
  /\ Scanner.isProcessing s' = Scanner.isProcessing s
  /\ Scanner.barcodeInput s' = Scanner.barcodeInput s
  /\ Scanner.scanTimeoutRef s' = Scanner.scanTimeoutRef s
  /\ Scanner.now s' = Scanner.now s + g.
Proof.
  intros Ht Hlt s'.
  destruct (advance_scan g s) as (Hs & Hf & Ht' & Hp & Hrest).
  fold s' in Hs, Hf, Ht', Hp, Hrest.
  rewrite Ht in Hs, Hf, Ht', Hp.
  cbn [filter] in Hs, Hf, Ht', Hp; unfold Scanner.isDue in Hs, Hf, Ht', Hp.
  destruct (Nat.leb_spec (Scanner.fireAt t) (Scanner.now s + g)); [lia|].
  cbn [negb flat_map map Spec.noRequests orb] in Hs, Hf, Ht', Hp.
  rewrite app_nil_r in Hs, Hf.
  repeat (split; [assumption|]); exact Hrest.
Qed.

(** With one debounce timer pending, time that reaches its deadline runs
    it: its calls are made and no debounce timer is left. *)
Lemma advance_past_deadline (d : nat) (s : Scanner.State) (t : Scanner.Timer) :
  Spec.scanTimers s = [t] ->
  Scanner.fireAt t <= Scanner.now s + d ->
  let s' := Scanner.advance d s in
  Scanner.sent s' = (Scanner.sent s ++ Spec.timerRequests t)%list
  /\ Scanner.inFlight s'
     = (Scanner.inFlight s
        ++ map (pair Scanner.AwaitScan) (Spec.timerRequests t))%list
  /\ Spec.scanTimers s' = []
  /\ Scanner.barcodeInput s' = Scanner.barcodeInput s.
Proof.
  intros Ht Hle s'.
  destruct (advance_scan d s) as (Hs & Hf & Ht' & _ & Hb & _).
  fold s' in Hs, Hf, Ht', Hb.
  rewrite Ht in Hs, Hf, Ht'.
  cbn [filter] in Hs, Hf, Ht'; unfold Scanner.isDue in Hs, Hf, Ht'.
  destruct (Nat.leb_spec (Scanner.fireAt t) (Scanner.now s + d)); [|lia].
  cbn [negb flat_map] in Hs, Hf, Ht'.
  rewrite app_nil_r in Hs, Hf.
  repeat (split; [assumption|]); exact Hb.
Qed.

Lemma scanTimers_clearScanTimeout (s : Scanner.State) :
  Spec.tracked s -> Spec.scanTimers (Scanner.clearScanTimeout s) = [].
Proof.
  unfold Spec.tracked, Scanner.clearScanTimeout; intros Htr.
  destruct (Scanner.scanTimeoutRef s) as [id|] eqn:Href.
  - unfold Spec.scanTimers, Scanner.clearTimeout; simpl.
    rewrite filter_comm; apply filter_none; intros t Ht.
    specialize (Htr t Ht); injection Htr as ->.
    now rewrite Nat.eqb_refl.
  - destruct (Spec.scanTimers s) as [|t l]; [reflexivity|].
    discriminate (Htr t (or_introl eq_refl)).
Qed.

(** Every change of the input clears the pending debounce timer and sets
    one 100 ms ahead, which [scanTimeoutRef] then names. *)
Lemma handleInputChange_spec (v : string) (s : Scanner.State) :
  Spec.tracked s ->
  let s' := Scanner.handleInputChange v s in
  Scanner.scanTimeoutRef s' = Some (Scanner.nextTimerId s)
  /\ Spec.scanTimers s'
     = [{| Scanner.timerId := Scanner.nextTimerId s;
           Scanner.fireAt := Scanner.now s + 100;
           Scanner.callback := Scanner.SubmitScan v (Scanner.isProcessing s) |}]
  /\ Scanner.barcodeInput s' = v
  /\ Scanner.isProcessing s' = Scanner.isProcessing s
  /\ Scanner.sent s' = Scanner.sent s
  /\ Scanner.inFlight s' = Scanner.inFlight s
  /\ Scanner.now s' = Scanner.now s.
Proof.
  intros Htr s'.
  assert (Hclear : Spec.scanTimers
                     (Scanner.clearScanTimeout (Scanner.setBarcodeInput v s)) = []).
  { apply scanTimers_clearScanTimeout; exact Htr. }
  subst s'; unfold Scanner.handleInputChange, Scanner.setTimeout.
  revert Hclear; unfold Scanner.clearScanTimeout; simpl.
  destruct (Scanner.scanTimeoutRef s); simpl; intros Hclear;
    (split; [reflexivity|]); (split; [|repeat split]);
    unfold Spec.scanTimers; simpl;
    apply filter_enqueue_new; auto.
Qed.

Lemma tracked_initial : Spec.tracked Scanner.initial.
Proof. intros t []. Qed.

(** The tracking of the debounce timer is kept by every event, hence it
    holds in every state the view can reach. *)
Lemma tracked_step (e : Scanner.Event) (s : Scanner.State) :
  Spec.tracked s -> Spec.tracked (Scanner.step e s).
Proof.
  intros Htr.
  assert (Hsame : forall s',
             Spec.scanTimers s' = Spec.scanTimers s ->
             Scanner.scanTimeoutRef s' = Scanner.scanTimeoutRef s ->
             Spec.tracked s').
  { intros s' Ht Hr t Hin; rewrite Hr; apply Htr; now rewrite <- Ht. }
  assert (Hchange : forall v, Spec.tracked (Scanner.handleInputChange v s)).
  { intros v t Hin.
    destruct (handleInputChange_spec v s Htr) as (Hr & Ht & _).
    rewrite Ht in Hin; destruct Hin as [<-|[]]; exact Hr. }
  destruct e as [c|v| |a|i r|dt]; cbn [Scanner.step].
  - destruct (Scanner.inputDisabled s); auto.
  - destruct (Scanner.inputDisabled s); auto.
  - destruct (Scanner.submitDisabled s); [exact Htr|].
    intros t Hin; exfalso; revert Hin.
    unfold Scanner.handleManualSubmit, Scanner.handleBarcodeSubmit.
    pose proof (scanTimers_clearScanTimeout s Htr) as Hclear.
    destruct (_ || _); unfold Spec.scanTimers in *; simpl; rewrite Hclear; auto.
  - destruct a.
    + destruct (Scanner.incrementDisabled s); [exact Htr|].
      unfold Scanner.handleQuantityChange.
      destruct (Scanner.lastScannedItem s); [|exact Htr].
      destruct (Scanner.isProcessing s); [exact Htr|]; now apply Hsame.
    + destruct (Scanner.decrementDisabled s); [exact Htr|].
      unfold Scanner.handleQuantityChange.
      destruct (Scanner.lastScannedItem s); [|exact Htr].
      destruct (Scanner.isProcessing s); [exact Htr|]; now apply Hsame.
  - unfold Scanner.settle.
    destruct (nth_error (Scanner.inFlight s) i) as [[k q]|]; [|exact Htr].
    destruct k, r; apply Hsame; try reflexivity;
      unfold Spec.scanTimers; simpl; now rewrite filter_enqueue_other.
  - destruct (advance_scan dt s) as (_ & _ & Ht & _ & _ & Hr & _).
    intros t Hin; rewrite Hr; apply Htr.
    rewrite Ht in Hin; apply filter_In in Hin; tauto.
Qed.

Lemma tracked_run (es : list Scanner.Event) (s : Scanner.State) :
  Spec.tracked s -> Spec.tracked (Scanner.run es s).
Proof.
  revert s; induction es as [|e es IH]; intros s Htr; simpl; [exact Htr|].
  now apply IH, tracked_step.
Qed.

Lemma tracked_reachable (es : list Scanner.Event) :
  Spec.tracked (Scanner.run es Scanner.initial).
Proof. apply tracked_run, tracked_initial. Qed.

Lemma burst_loop (rest : list (nat * ascii)) :
  forall (s : Scanner.State) (v : string) (id : nat),
    Scanner.isProcessing s = false ->
    Scanner.barcodeInput s = v ->
    Scanner.scanTimeoutRef s = Some id ->
    Spec.scanTimers s
    = [{| Scanner.timerId := id;
          Scanner.fireAt := Scanner.now s + 100;
          Scanner.callback := Scanner.SubmitScan v false |}] ->
    (forall g c, In (g, c) rest -> g < 100) ->
    let s' := Scanner.run
                (flat_map (fun gc => [Scanner.Wait (fst gc); Scanner.Key (snd gc)])
                   rest) s in
    let v' := v ++ string_of_list_ascii (map snd rest) in
    Scanner.isProcessing s' = false
    /\ Scanner.barcodeInput s' = v'
    /\ (exists id',
          Scanner.scanTimeoutRef s' = Some id'
          /\ Spec.scanTimers s'
             = [{| Scanner.timerId := id';
                   Scanner.fireAt := Scanner.now s' + 100;
                   Scanner.callback := Scanner.SubmitScan v' false |}])
    /\ Scanner.sent s' = Scanner.sent s
    /\ Scanner.inFlight s' = Scanner.inFlight s.
Proof.
  induction rest as [|[g c] rest IH]; intros s v id Hp Hv Hr Ht Hgaps.
  - simpl; rewrite append_empty_r; repeat split; eauto.
  - cbn [flat_map fst snd app Scanner.run map string_of_list_ascii].
    change (Scanner.step (Scanner.Wait g) s) with (Scanner.advance g s).
    assert (Hlt : g < 100) by (apply (Hgaps g c); now left).
    destruct (advance_before_deadline g s _ Ht)
      as (Hs1 & Hf1 & Ht1 & Hp1 & Hv1 & Hr1 & Hn1).
    { cbn [Scanner.fireAt]; lia. }
    remember (Scanner.advance g s) as s1 eqn:E; clear E.
    assert (Htr1 : Spec.tracked s1).
    { intros t Hin; rewrite Ht1 in Hin; destruct Hin as [<-|[]].
      rewrite Hr1, Hr; reflexivity. }
    assert (Hkey : Scanner.step (Scanner.Key c) s1
                   = Scanner.handleInputChange (v ++ String c "") s1).
    { cbn [Scanner.step]; unfold Scanner.inputDisabled.
      now rewrite Hp1, Hp, Hv1, Hv. }
    rewrite Hkey.
    destruct (handleInputChange_spec (v ++ String c "") s1 Htr1)
      as (Hr2 & Ht2 & Hv2 & Hp2 & Hs2 & Hf2 & Hn2).
    remember (Scanner.handleInputChange (v ++ String c "") s1) as s2 eqn:E; clear E.
    rewrite Hp1, Hp in Ht2, Hp2; rewrite <- Hn2 in Ht2.
    destruct (IH s2 (v ++ String c "") _ Hp2 Hv2 Hr2 Ht2)
      as (Hp' & Hv' & Ht' & Hs' & Hf').
    { intros g' c' Hin; apply (Hgaps g' c'); now right. }
    rewrite append_assoc in Hv', Ht'; simpl in Hv', Ht'.
    repeat split; auto; congruence.
Qed.

(** C1.  On an idle view whose debounce timer is tracked (as it is in every
    state the view reaches), a burst of characters whose gaps are all below
    100 ms makes no call while it lasts, leaves the buffer holding the whole
    concatenated text with exactly one debounce timer pending, due 100 ms
    after the last character; once 100 ms or more have passed, exactly one
    submission of that whole text has been made if its trimmed form is not
    empty, and none otherwise, and no debounce timer is left.  Every change
    of the input clears the pending timer and sets a fresh one 100 ms
    ahead. *)
Theorem debounced_burst_submits_once :
  forall (s : Scanner.State) (c0 : ascii) (rest : list (nat * ascii)) (d : nat),
    Scanner.isProcessing s = false ->
    Spec.tracked s ->
    (forall g c, In (g, c) rest -> g < 100) ->
    100 <= d ->
    let full := Scanner.barcodeInput s ++ Spec.burstText c0 rest in
    let typed := Scanner.run (Spec.burst c0 rest) s in
    let s' := Scanner.step (Scanner.Wait d) typed in
    (Scanner.sent typed = Scanner.sent s
     /\ Scanner.barcodeInput typed = full
     /\ exists id,
          Scanner.scanTimeoutRef typed = Some id
          /\ Spec.scanTimers typed
             = [{| Scanner.timerId := id;
                   Scanner.fireAt := Scanner.now typed + 100;
                   Scanner.callback := Scanner.SubmitScan full false |}])
    /\ (Scanner.sent s'
        = (if Js.truthy (Js.trim full)
           then Scanner.sent s ++ [Scanner.scanRequest full]
           else Scanner.sent s)%list
        /\ Scanner.inFlight s'
           = (if Js.truthy (Js.trim full)
              then Scanner.inFlight s ++ [(Scanner.AwaitScan, Scanner.scanRequest full)]
              else Scanner.inFlight s)%list
        /\ Spec.scanTimers s' = [])
    /\ (forall s0 v,
          Spec.tracked s0 ->
          Scanner.barcodeInput (Scanner.handleInputChange v s0) = v
          /\ Scanner.scanTimeoutRef (Scanner.handleInputChange v s0)
             = Some (Scanner.nextTimerId s0)
          /\ Spec.scanTimers (Scanner.handleInputChange v s0)
             = [{| Scanner.timerId := Scanner.nextTimerId s0;
                   Scanner.fireAt := Scanner.now s0 + 100;
                   Scanner.callback :=
                     Scanner.SubmitScan v (Scanner.isProcessing s0) |}]).
Proof.
  intros s c0 rest d Hp Htr Hgaps Hd full typed s'.
  unfold Spec.burstText in full; cbn [map string_of_list_ascii] in full.
  assert (Hkey : Scanner.step (Scanner.Key c0) s
                 = Scanner.handleInputChange
                     (Scanner.barcodeInput s ++ String c0 "") s).
  { cbn [Scanner.step]; unfold Scanner.inputDisabled; now rewrite Hp. }
  destruct (handleInputChange_spec (Scanner.barcodeInput s ++ String c0 "") s Htr)
    as (Hr0 & Ht0 & Hv0 & Hp0 & Hs0 & Hf0 & Hn0).
  assert (Htyped : typed
                   = Scanner.run
                       (flat_map (fun gc => [Scanner.Wait (fst gc); Scanner.Key (snd gc)])
                          rest)
                       (Scanner.handleInputChange
                          (Scanner.barcodeInput s ++ String c0 "") s)).
  { subst typed; unfold Spec.burst; cbn [Scanner.run]; now rewrite Hkey. }
  remember (Scanner.handleInputChange (Scanner.barcodeInput s ++ String c0 "") s)
    as s0 eqn:E; clear E.
  rewrite Hp in Ht0, Hp0; rewrite <- Hn0 in Ht0.
  destruct (burst_loop rest s0 _ _ Hp0 Hv0 Hr0 Ht0 Hgaps)
    as (Hp' & Hv' & (id' & Hr' & Ht') & Hs' & Hf').
  rewrite <- Htyped in Hp', Hv', Hr', Ht', Hs', Hf'.
  rewrite append_assoc in Hv', Ht'; cbn [append] in Hv', Ht'.
  fold full in Hv', Ht'.
  split; [|split].
  - split; [congruence | split; [exact Hv' | now exists id']].
  - destruct (advance_past_deadline d typed _ Ht') as (Hsent & Hfl & Hnone & _).
    { cbn [Scanner.fireAt]; lia. }
    unfold Spec.timerRequests, Spec.callbackRequests in Hsent, Hfl.
    cbn [Scanner.callback negb] in Hsent, Hfl.
    rewrite andb_true_r in Hsent, Hfl.
    subst s'; cbn [Scanner.step].
    rewrite Hsent, Hfl, Hs', Hf', Hs0, Hf0.
    destruct (Js.truthy (Js.trim full)); cbn [map];
      rewrite ?app_nil_r; auto.
  - intros s1 v Htr1.
    destruct (handleInputChange_spec v s1 Htr1) as (Hr1 & Ht1 & Hv1 & _).
    auto.
Qed.

Lemma debounced_burst_submits_once_witness :
  let keys := Spec.burst "1" [(5, "2"%char); (7, "3"%char)] in
  Scanner.sent (Scanner.run keys Scanner.initial) = []
  /\ Scanner.sent (Scanner.step (Scanner.Wait 100) (Scanner.run keys Scanner.initial))
     = [Scanner.scanRequest "123"].
Proof.
  intros keys.
  destruct (debounced_burst_submits_once Scanner.initial "1"
              [(5, "2"%char); (7, "3"%char)] 100 eq_refl tracked_initial)
    as ((Hnone & _) & (Hone & _) & _).
  - intros g c [H|[H|[]]]; injection H as <- _; lia.
  - lia.
  - split; [exact Hnone | exact Hone].
Defined.

(** ** The busy flag *)

(** While a call is in progress the controls are dead: a key, a change, a
    submit and a press of either quantity button leave the state as it is,
    and so do the two handlers when they read the current flag. *)
Lemma busy_controls_are_noops (s : Scanner.State) :
  Scanner.isProcessing s = true ->
  (forall b, Scanner.handleBarcodeSubmit (Scanner.isProcessing s) b s = s)
  /\ (forall a, Scanner.handleQuantityChange a s = s)
  /\ (forall c, Scanner.step (Scanner.Key c) s = s)
  /\ (forall v, Scanner.step (Scanner.Change v) s = s)
  /\ Scanner.step Scanner.Submit s = s
  /\ (forall a, Scanner.step (Scanner.Press a) s = s).
Proof.
  intros Hp; repeat split; intros;
    try destruct a; simpl;
    unfold Scanner.handleBarcodeSubmit, Scanner.handleQuantityChange,
      Scanner.inputDisabled, Scanner.submitDisabled,
      Scanner.decrementDisabled, Scanner.incrementDisabled;
    rewrite Hp, ?orb_true_r; simpl;
    destruct (Scanner.lastScannedItem s); reflexivity.
Qed.

(** C2, where the code departs from it.  On a view showing a scanned item,
    a character is typed, the increment button is pressed 50 ms later, and
    50 ms after that the timer of the typed character runs: the quantity
    call is still awaited and the busy flag is up, yet the timer's callback,
    which closed over the flag of the render in which the character was
    typed, submits the buffer, and two calls are in flight at once. *)
Theorem timer_submits_during_quantity_call :
  let busy :=
    Scanner.run
      [Scanner.Key "7"; Scanner.Wait 50; Scanner.Press Scanner.increment]
      (scanned 5 10) in
  let after := Scanner.step (Scanner.Wait 50) busy in
  let adjust := Scanner.quantityRequest Scanner.increment (sampleItem 5 10) in
  Scanner.isProcessing busy = true
  /\ Scanner.inFlight busy = [(Scanner.AwaitQuantity, adjust)]
  /\ Scanner.sent after = [adjust; Scanner.scanRequest "7"]
  /\ Scanner.inFlight after
     = [(Scanner.AwaitQuantity, adjust);
        (Scanner.AwaitScan, Scanner.scanRequest "7")]
  /\ Scanner.isProcessing
       (Scanner.step
          (Scanner.Settle 0 (Scanner.InvokeData (Direct (sampleItem 6 10)))) after)
     = false.
Proof. repeat split. Qed.

(* ================================================================= *)
(** * Further properties *)

(** ** The scan view, over all its states *)

Lemma run_app (es1 es2 : list Scanner.Event) (s : Scanner.State) :
  Scanner.run (es1 ++ es2)%list s = Scanner.run es2 (Scanner.run es1 s).
Proof.
  revert s; induction es1 as [|e es1 IH]; intros s; simpl; [reflexivity|].
  apply IH.
Qed.

(** What an event does to the debounce timers. *)
Lemma scanTimers_step (e : Scanner.Event) (s : Scanner.State) :
  Spec.tracked s ->
  (exists t, Spec.scanTimers (Scanner.step e s) = [t])
  \/ Spec.scanTimers (Scanner.step e s) = []
  \/ exists f, Spec.scanTimers (Scanner.step e s) = filter f (Spec.scanTimers s).
Proof.
  intros Htr.
  assert (Hid : forall s', Spec.scanTimers s' = Spec.scanTimers s ->
                  exists f, Spec.scanTimers s' = filter f (Spec.scanTimers s)).
  { intros s' ->; exists (fun _ => true); symmetry; now apply filter_all. }
  destruct e as [c|v| |a|i r|dt]; cbn [Scanner.step].
  - destruct (Scanner.inputDisabled s); [right; right; now apply Hid|].
    left; destruct (handleInputChange_spec (Scanner.barcodeInput s ++ String c "")
                      s Htr) as (_ & Ht & _); eauto.
  - destruct (Scanner.inputDisabled s); [right; right; now apply Hid|].
    left; destruct (handleInputChange_spec v s Htr) as (_ & Ht & _); eauto.
  - destruct (Scanner.submitDisabled s); [right; right; now apply Hid|].
    right; left.
    unfold Scanner.handleManualSubmit, Scanner.handleBarcodeSubmit.
    pose proof (scanTimers_clearScanTimeout s Htr) as Hclear.
    destruct (_ || _); unfold Spec.scanTimers in *; simpl; exact Hclear.
  - right; right; apply Hid.
    destruct a;
      [destruct (Scanner.incrementDisabled s) | destruct (Scanner.decrementDisabled s)];
      try reflexivity; unfold Scanner.handleQuantityChange;
      destruct (Scanner.lastScannedItem s); try reflexivity;
      destruct (Scanner.isProcessing s); reflexivity.
  - right; right; apply Hid; unfold Scanner.settle.
    destruct (nth_error (Scanner.inFlight s) i) as [[k q]|]; [|reflexivity].
    destruct k, r; try reflexivity;
      unfold Spec.scanTimers; simpl; now rewrite filter_enqueue_other.
  - right; right.
    destruct (advance_scan dt s) as (_ & _ & Ht & _); eauto.
Qed.

Lemma filter_length_le {A : Type} (f : A -> bool) (l : list A) :
  length (filter f l) <= length l.
Proof.
  induction l as [|x l IH]; simpl; [lia|]; destruct (f x); simpl; lia.
Qed.

(** X1.  In every state the scan view can reach, at most one debounce
    timer is pending, and [scanTimeoutRef] holds its id: changes of the
    input never pile timers up. *)
Theorem debounce_timer_is_unique :
  forall es : list Scanner.Event,
    let s := Scanner.run es Scanner.initial in
    length (Spec.scanTimers s) <= 1
    /\ forall t, In t (Spec.scanTimers s) ->
                 Scanner.scanTimeoutRef s = Some (Scanner.timerId t).
Proof.
  intros es s; split; [|apply tracked_reachable].
  subst s.
  assert (H : forall es s0, Spec.tracked s0 -> length (Spec.scanTimers s0) <= 1 ->
                length (Spec.scanTimers (Scanner.run es s0)) <= 1).
  { clear es; induction es as [|e es IH]; intros s0 Htr Hlen; simpl; [exact Hlen|].
    apply IH; [now apply tracked_step|].
    destruct (scanTimers_step e s0 Htr) as [(t & ->) | [-> | (f & ->)]]; simpl;
      try lia.
    pose proof (filter_length_le f (Spec.scanTimers s0)); lia. }
  apply H; [apply tracked_initial | simpl; lia].
Qed.

(** X2.  On an idle view with a buffer that is not blank, submitting the
    form makes the scan call at once, exactly one, and leaves no debounce
    timer behind: however long one waits afterwards, the text typed is not
    submitted a second time. *)
Theorem manual_submit_cancels_timer :
  forall s : Scanner.State,
    Spec.tracked s ->
    Scanner.isProcessing s = false ->
    Js.truthy (Js.trim (Scanner.barcodeInput s)) = true ->
    let s1 := Scanner.step Scanner.Submit s in
    Scanner.sent s1
    = (Scanner.sent s ++ [Scanner.scanRequest (Scanner.barcodeInput s)])%list
    /\ Scanner.isProcessing s1 = true
    /\ Spec.scanTimers s1 = []
    /\ forall dt, Scanner.sent (Scanner.step (Scanner.Wait dt) s1) = Scanner.sent s1.
Proof.
  intros s Htr Hp Hb s1.
  assert (Hs1 : s1 = Scanner.invoke Scanner.AwaitScan
                       (Scanner.scanRequest (Scanner.barcodeInput s))
                       (Scanner.setScanMessage None
                          (Scanner.setIsProcessing true (Scanner.clearScanTimeout s)))).
  { subst s1; cbn [Scanner.step]; unfold Scanner.submitDisabled.
    rewrite Hp, Hb; cbn [negb orb].
    unfold Scanner.handleManualSubmit, Scanner.handleBarcodeSubmit.
    now rewrite Hp, Hb. }
  assert (Hnone : Spec.scanTimers s1 = []).
  { rewrite Hs1; pose proof (scanTimers_clearScanTimeout s Htr) as Hclear.
    unfold Spec.scanTimers in *; simpl; exact Hclear. }
  split; [|split; [|split; [exact Hnone|]]].
  - rewrite Hs1; simpl.
    unfold Scanner.clearScanTimeout; destruct (Scanner.scanTimeoutRef s); reflexivity.
  - rewrite Hs1; reflexivity.
  - intros dt; cbn [Scanner.step].
    destruct (advance_scan dt s1) as (Hsent & _).
    rewrite Hsent, Hnone; simpl; now rewrite app_nil_r.
Qed.

Lemma manual_submit_cancels_timer_witness :
  let s := Scanner.run [Scanner.Key "4"; Scanner.Wait 10; Scanner.Key "2";
                        Scanner.Wait 30] Scanner.initial in
  Scanner.sent (Scanner.step Scanner.Submit s) = [Scanner.scanRequest "42"]
  /\ Scanner.sent (Scanner.step (Scanner.Wait 500) (Scanner.step Scanner.Submit s))
     = Scanner.sent (Scanner.step Scanner.Submit s).
Proof.
  intros s.
  destruct (manual_submit_cancels_timer s) as (Hsent & _ & _ & Hwait).
  - apply (tracked_reachable [Scanner.Key "4"; Scanner.Wait 10; Scanner.Key "2";
                              Scanner.Wait 30]).
  - reflexivity.
  - reflexivity.
  - split; [exact Hsent | apply Hwait].
Defined.

Lemma inFlight_settle (i : nat) (r : Scanner.InvokeResult) (s : Scanner.State) :
  (Scanner.settle i r s = s /\ nth_error (Scanner.inFlight s) i = None)
  \/ (Scanner.isProcessing (Scanner.settle i r s) = false
      /\ Scanner.inFlight (Scanner.settle i r s)
         = Scanner.removeNth i (Scanner.inFlight s)).
Proof.
  unfold Scanner.settle.
  destruct (nth_error (Scanner.inFlight s) i) as [[k q]|]; [right|now left].
  destruct k, r; split; reflexivity.
Qed.

(** X3.  In every state the scan view can reach, the busy flag is up only
    while some call is awaited: the view is never left locked, its input
    and buttons disabled, with nothing that would unlock it. *)
Theorem busy_only_while_awaiting :
  forall es : list Scanner.Event,
    let s := Scanner.run es Scanner.initial in
    Scanner.isProcessing s = true -> Scanner.inFlight s <> [].
Proof.
  intros es.
  assert (H : forall es s0,
             (Scanner.isProcessing s0 = true -> Scanner.inFlight s0 <> []) ->
             Scanner.isProcessing (Scanner.run es s0) = true ->
             Scanner.inFlight (Scanner.run es s0) <> []).
  { clear es; induction es as [|e es IH]; intros s0 Hinv; simpl; [exact Hinv|].
    apply IH; clear IH.
    destruct e as [c|v| |a|i r|dt]; cbn [Scanner.step].
    - destruct (Scanner.inputDisabled s0); [exact Hinv|].
      unfold Scanner.handleInputChange, Scanner.clearScanTimeout; simpl.
      destruct (Scanner.scanTimeoutRef s0); exact Hinv.
    - destruct (Scanner.inputDisabled s0); [exact Hinv|].
      unfold Scanner.handleInputChange, Scanner.clearScanTimeout; simpl.
      destruct (Scanner.scanTimeoutRef s0); exact Hinv.
    - destruct (Scanner.submitDisabled s0); [exact Hinv|].
      unfold Scanner.handleManualSubmit, Scanner.handleBarcodeSubmit,
        Scanner.clearScanTimeout.
      destruct (_ || _).
      + destruct (Scanner.scanTimeoutRef s0); exact Hinv.
      + intros _; simpl; destruct (Scanner.scanTimeoutRef s0); simpl;
          intros Hnil; now apply app_eq_nil in Hnil as [_ Hnil].
    - assert (Hq : forall a',
                 Scanner.isProcessing (Scanner.handleQuantityChange a' s0) = true ->
                 Scanner.inFlight (Scanner.handleQuantityChange a' s0) <> []).
      { intros a'; unfold Scanner.handleQuantityChange.
        destruct (Scanner.lastScannedItem s0); [|exact Hinv].
        destruct (Scanner.isProcessing s0) eqn:Hp; [intros _; now apply Hinv|].
        intros _; simpl; intros Hnil; now apply app_eq_nil in Hnil as [_ Hnil]. }
      destruct a;
        [destruct (Scanner.incrementDisabled s0) | destruct (Scanner.decrementDisabled s0)];
        auto.
    - destruct (inFlight_settle i r s0) as [(-> & _) | (Hp & _)]; [exact Hinv|].
      rewrite Hp; discriminate.
    - destruct (advance_spec dt s0) as (_ & Hf & _ & _ & _ & _ & Hp & _).
      rewrite Hf, Hp.
      destruct (flat_map Spec.timerRequests _); simpl.
      + now rewrite app_nil_r.
      + intros _ Hnil; now apply app_eq_nil in Hnil as [_ Hnil]. }
  intros s; subst s; apply H; discriminate.
Qed.

Lemma busy_only_while_awaiting_witness :
  Scanner.inFlight
    (Scanner.run [Scanner.Key "7"; Scanner.Wait 100] Scanner.initial) <> [].
Proof.
  apply (busy_only_while_awaiting [Scanner.Key "7"; Scanner.Wait 100]).
  reflexivity.
Defined.

Lemma truthy_not_empty (s : string) : Js.truthy s = true -> s <> "".
Proof. destruct s; [discriminate | discriminate]. Qed.

(** X4.  Every scan call the view has ever made, by the timer or by the
    form, carries a barcode that is not empty and has no white space at
    either end: a buffer that is empty or all white space is never sent. *)
Theorem scan_barcode_never_blank :
  forall (es : list Scanner.Event) (r : Scanner.Request),
    In r (Scanner.sent (Scanner.run es Scanner.initial)) ->
    Spec.isScan r = true ->
    Scanner.body_barcode r <> ""
    /\ Spec.firstIsWhiteSpace (Scanner.body_barcode r) = false
    /\ Spec.lastIsWhiteSpace (Scanner.body_barcode r) = false.
Proof.
  intros es r Hin Hscan.
  assert (Hgood : exists b, r = Scanner.scanRequest b
                            /\ Js.truthy (Js.trim b) = true).
  { revert Hin.
    assert (H : forall es s0,
               (forall r0, In r0 (Scanner.sent s0) -> Spec.isScan r0 = true ->
                           exists b, r0 = Scanner.scanRequest b
                                     /\ Js.truthy (Js.trim b) = true) ->
               forall r0, In r0 (Scanner.sent (Scanner.run es s0)) ->
                          Spec.isScan r0 = true ->
                          exists b, r0 = Scanner.scanRequest b
                                    /\ Js.truthy (Js.trim b) = true).
    { clear; induction es as [|e es IH]; intros s0 Hinv; simpl; [exact Hinv|].
      apply IH; clear IH; intros r0 Hin Hscan.
      assert (Hcb : forall l, In r0 (flat_map Spec.timerRequests l) ->
                      exists b, r0 = Scanner.scanRequest b
                                /\ Js.truthy (Js.trim b) = true).
      { intros l Hl; apply in_flat_map in Hl as (t & _ & Ht).
        unfold Spec.timerRequests, Spec.callbackRequests in Ht.
        destruct (Scanner.callback t) as [v seen|]; [|destruct Ht].
        destruct (Js.truthy (Js.trim v)) eqn:Hv; [|destruct Ht].
        destruct seen; [destruct Ht|].
        destruct Ht as [<-|[]]; eauto. }
      destruct e as [c|v| |a|i res|dt]; cbn [Scanner.step] in Hin.
      - destruct (Scanner.inputDisabled s0); [now apply Hinv|].
        apply Hinv; [|exact Hscan]; revert Hin.
        unfold Scanner.handleInputChange, Scanner.clearScanTimeout; simpl.
        destruct (Scanner.scanTimeoutRef s0); auto.
      - destruct (Scanner.inputDisabled s0); [now apply Hinv|].
        apply Hinv; [|exact Hscan]; revert Hin.
        unfold Scanner.handleInputChange, Scanner.clearScanTimeout; simpl.
        destruct (Scanner.scanTimeoutRef s0); auto.
      - destruct (Scanner.submitDisabled s0); [now apply Hinv|].
        unfold Scanner.handleManualSubmit in Hin.
        rewrite sent_handleBarcodeSubmit in Hin.
        assert (Hc : Scanner.sent (Scanner.clearScanTimeout s0) = Scanner.sent s0).
        { unfold Scanner.clearScanTimeout;
            destruct (Scanner.scanTimeoutRef s0); reflexivity. }
        rewrite Hc in Hin.
        destruct (Js.truthy (Js.trim (Scanner.barcodeInput s0))) eqn:Hb;
          [|now apply Hinv].
        destruct (negb (Scanner.isProcessing s0)); [|now apply Hinv].
        cbn [andb] in Hin; apply in_app_or in Hin as [Hin|[<-|[]]];
          [now apply Hinv | eauto].
      - assert (Hq : forall a',
                   In r0 (Scanner.sent (Scanner.handleQuantityChange a' s0)) ->
                   exists b, r0 = Scanner.scanRequest b
                             /\ Js.truthy (Js.trim b) = true).
        { intros a'; unfold Scanner.handleQuantityChange.
          destruct (Scanner.lastScannedItem s0); [|intros H; now apply Hinv].
          destruct (Scanner.isProcessing s0); [intros H; now apply Hinv|]; simpl.
          intros H; apply in_app_or in H as [H|[<-|[]]];
            [now apply Hinv | discriminate Hscan]. }
        destruct a;
          [destruct (Scanner.incrementDisabled s0) | destruct (Scanner.decrementDisabled s0)];
          eauto.
      - rewrite sent_settle in Hin; now apply Hinv.
      - destruct (advance_spec dt s0) as (Hs & _).
        rewrite Hs in Hin; apply in_app_or in Hin as [Hin|Hin];
          [now apply Hinv | now apply (Hcb _ Hin)]. }
    intros Hin; apply (H es Scanner.initial);
      [intros r0 [] | exact Hin | exact Hscan]. }
  destruct Hgood as (b & -> & Hb); simpl.
  destruct (trim_spec b) as (_ & Hfirst & Hlast).
  split; [now apply truthy_not_empty | split; assumption].
Qed.

Lemma scan_barcode_never_blank_witness :
  Scanner.body_barcode (Scanner.scanRequest " 42 ") <> "".
Proof.
  apply (scan_barcode_never_blank
           [Scanner.Change " 42 "; Scanner.Wait 100]
           (Scanner.scanRequest " 42 ")).
  - simpl; now left.
  - reflexivity.
Defined.

(** ** The banner of the scan view *)

Lemma In_enqueue (x t : Scanner.Timer) (q : list Scanner.Timer) :
  In x (Scanner.enqueue t q) <-> x = t \/ In x q.
Proof.
  induction q as [|y q IH]; simpl; [intuition congruence|].
  destruct (_ <=? _); simpl; rewrite ?IH; intuition congruence.
Qed.

Lemma scanMessage_runCallback (cb : Scanner.Callback) (s : Scanner.State) :
  Scanner.scanMessage (Scanner.runCallback cb s) = None
  \/ Scanner.scanMessage (Scanner.runCallback cb s) = Scanner.scanMessage s.
Proof.
  destruct cb as [v seen|]; simpl; [|now left].
  unfold Scanner.handleBarcodeSubmit.
  destruct (Js.truthy (Js.trim v)), seen; simpl; auto.
Qed.

Lemma scanMessage_runTimers_none (due : list Scanner.Timer) (s : Scanner.State) :
  Scanner.scanMessage s = None ->
  Scanner.scanMessage (Scanner.runTimers due s) = None.
Proof.
  revert s; induction due as [|t due IH]; intros s Hs; [exact Hs|].
  change (Scanner.runTimers (t :: due) s)
    with (Scanner.runTimers due (Scanner.runCallback (Scanner.callback t) s)).
  apply IH.
  destruct (scanMessage_runCallback (Scanner.callback t) s) as [H|H];
    [exact H | now rewrite H].
Qed.

Lemma scanMessage_runTimers_clear (due : list Scanner.Timer) (s : Scanner.State) :
  (exists t, In t due /\ Scanner.callback t = Scanner.ClearMessage) ->
  Scanner.scanMessage (Scanner.runTimers due s) = None.
Proof.
  revert s; induction due as [|t due IH]; intros s (x & Hin & Hx); [destruct Hin|].
  change (Scanner.runTimers (t :: due) s)
    with (Scanner.runTimers due (Scanner.runCallback (Scanner.callback t) s)).
  destruct Hin as [->|Hin]; [|apply IH; eauto].
  apply scanMessage_runTimers_none; now rewrite Hx.
Qed.

Lemma scanMessage_advance_quiet (dt : nat) (s : Scanner.State) :
  Spec.quiet s dt ->
  Scanner.scanMessage (Scanner.advance dt s) = Scanner.scanMessage s.
Proof.
  intros Hq; unfold Scanner.advance.
  rewrite (filter_none (Scanner.isDue (Scanner.now s + dt))); [reflexivity|].
  intros t Ht; unfold Scanner.isDue.
  specialize (Hq t Ht); destruct (Nat.leb_spec (Scanner.fireAt t) (Scanner.now s + dt));
    [lia | reflexivity].
Qed.

Lemma scanMessage_advance_clear (dt : nat) (s : Scanner.State) (t : Scanner.Timer) :
  In t (Scanner.timers s) ->
  Scanner.callback t = Scanner.ClearMessage ->
  Scanner.fireAt t <= Scanner.now s + dt ->
  Scanner.scanMessage (Scanner.advance dt s) = None.
Proof.
  intros Hin Hcb Hdue; unfold Scanner.advance; cbn [Scanner.setNow Scanner.scanMessage].
  apply scanMessage_runTimers_clear; exists t; split; [|exact Hcb].
  apply filter_In; split; [exact Hin|].
  unfold Scanner.isDue; now apply Nat.leb_le.
Qed.

(** X5.  The banner of a success empties by itself, 3 s after a scan and
    2 s after a quantity adjustment: it is still shown at any earlier
    moment at which no older timer has come due, and it is gone once the
    delay has passed.  The banner of a failure has no timer of its own: it
    stays for as long as no older timer comes due. *)
Theorem banner_lifetime :
  forall (s : Scanner.State) (i : nat) (k : Scanner.Awaiting)
         (req : Scanner.Request),
    nth_error (Scanner.inFlight s) i = Some (k, req) ->
    (forall d dt,
        let s1 := Scanner.settle i (Scanner.InvokeData d) s in
        (exists txt,
            Scanner.scanMessage s1 = Some {| type := success; text := txt |})
        /\ (Spec.quiet s dt -> dt < Spec.expiry k ->
            Scanner.scanMessage (Scanner.advance dt s1) = Scanner.scanMessage s1)
        /\ (Spec.expiry k <= dt ->
            Scanner.scanMessage (Scanner.advance dt s1) = None))
    /\ (forall e dt,
        let s1 := Scanner.settle i (Scanner.InvokeError e) s in
        (exists txt,
            Scanner.scanMessage s1 = Some {| type := error; text := txt |})
        /\ (Spec.quiet s dt ->
            Scanner.scanMessage (Scanner.advance dt s1) = Scanner.scanMessage s1)
        /\ Scanner.timers s1 = Scanner.timers s).
Proof.
  intros s i k req Hi; split.
  - intros d dt s1.
    set (t := {| Scanner.timerId := Scanner.nextTimerId s;
                 Scanner.fireAt := Scanner.now s + Spec.expiry k;
                 Scanner.callback := Scanner.ClearMessage |}).
    assert (Ht : Scanner.timers s1 = Scanner.enqueue t (Scanner.timers s)
                 /\ Scanner.now s1 = Scanner.now s).
    { subst s1 t; unfold Scanner.settle; rewrite Hi; destruct k; split; reflexivity. }
    destruct Ht as (Ht & Hn).
    split; [|split].
    + subst s1; unfold Scanner.settle; rewrite Hi; destruct k; eexists; reflexivity.
    + intros Hq Hlt; apply scanMessage_advance_quiet.
      intros x Hx; rewrite Ht in Hx; rewrite Hn.
      apply In_enqueue in Hx as [->|Hx]; [simpl; lia | now apply Hq].
    + intros Hle; apply (scanMessage_advance_clear dt s1 t);
        [rewrite Ht; apply In_enqueue; now left | reflexivity | rewrite Hn; simpl; lia].
  - intros e dt s1.
    assert (Ht : Scanner.timers s1 = Scanner.timers s
                 /\ Scanner.now s1 = Scanner.now s).
    { subst s1; unfold Scanner.settle; rewrite Hi; destruct k; split; reflexivity. }
    destruct Ht as (Ht & Hn).
    split; [|split; [|exact Ht]].
    + subst s1; unfold Scanner.settle; rewrite Hi; destruct k; eexists; reflexivity.
    + intros Hq; apply scanMessage_advance_quiet.
      intros x Hx; rewrite Ht in Hx; rewrite Hn; now apply Hq.
Qed.

Lemma banner_lifetime_witness :
  let s := Scanner.step (Scanner.Press Scanner.increment) (scanned 5 10) in
  let ok := Scanner.settle 0 (Scanner.InvokeData (Direct (sampleItem 6 10))) s in
  let ko := Scanner.settle 0 (Scanner.InvokeError {| message := None |}) s in
  Scanner.scanMessage (Scanner.advance 1999 ok) = Scanner.scanMessage ok
  /\ Scanner.scanMessage (Scanner.advance 2000 ok) = None
  /\ Scanner.scanMessage (Scanner.advance 5000 ko) = Scanner.scanMessage ko.
Proof.
  intros s ok ko.
  destruct (banner_lifetime s 0 Scanner.AwaitQuantity
              (Scanner.quantityRequest Scanner.increment (sampleItem 5 10)) eq_refl)
    as (Hok & Hko).
  destruct (Hok (Direct (sampleItem 6 10)) 1999) as (_ & Hstay & _).
  destruct (Hok (Direct (sampleItem 6 10)) 2000) as (_ & _ & Hgone).
  destruct (Hko {| message := None |} 5000) as (_ & Hkeep & _).
  split; [|split].
  - apply Hstay; [intros t [] | simpl; lia].
  - apply Hgone; simpl; lia.
  - apply Hkeep; intros t [].
Defined.

(** ** One scan after another *)

(** A burst followed by silence, as a step of larger scenarios. *)
Lemma burst_then_silence (s : Scanner.State) (c0 : ascii)
    (rest : list (nat * ascii)) (d : nat) :
  Scanner.isProcessing s = false ->
  Spec.tracked s ->
  (forall g c, In (g, c) rest -> g < 100) ->
  100 <= d ->
  let full := Scanner.barcodeInput s ++ Spec.burstText c0 rest in
  let s' := Scanner.run (Spec.burst c0 rest ++ [Scanner.Wait d])%list s in
  Scanner.sent s' = (Scanner.sent s ++ Spec.callbackRequests
                                         (Scanner.SubmitScan full false))%list
  /\ Scanner.inFlight s'
     = (Scanner.inFlight s
        ++ map (pair Scanner.AwaitScan)
             (Spec.callbackRequests (Scanner.SubmitScan full false)))%list
  /\ Scanner.barcodeInput s' = full.
Proof.
  intros Hp Htr Hgaps Hd full s'.
  unfold Spec.burstText in full; cbn [map string_of_list_ascii] in full.
  subst s'; rewrite run_app; unfold Spec.burst; cbn [Scanner.run].
  assert (Hkey : Scanner.step (Scanner.Key c0) s
                 = Scanner.handleInputChange
                     (Scanner.barcodeInput s ++ String c0 "") s).
  { cbn [Scanner.step]; unfold Scanner.inputDisabled; now rewrite Hp. }
  rewrite Hkey.
  destruct (handleInputChange_spec (Scanner.barcodeInput s ++ String c0 "") s Htr)
    as (Hr0 & Ht0 & Hv0 & Hp0 & Hs0 & Hf0 & Hn0).
  remember (Scanner.handleInputChange (Scanner.barcodeInput s ++ String c0 "") s)
    as s0 eqn:E; clear E.
  rewrite Hp in Ht0, Hp0; rewrite <- Hn0 in Ht0.
  destruct (burst_loop rest s0 _ _ Hp0 Hv0 Hr0 Ht0 Hgaps)
    as (Hp' & Hv' & (id' & Hr' & Ht') & Hs' & Hf').
  rewrite append_assoc in Hv', Ht'; cbn [append] in Hv', Ht'.
  fold full in Hv', Ht'.
  remember (Scanner.run
              (flat_map (fun gc => [Scanner.Wait (fst gc); Scanner.Key (snd gc)]) rest)
              s0) as typed eqn:E; clear E.
  destruct (advance_past_deadline d typed _ Ht') as (Hsent & Hfl & _ & Hb).
  { cbn [Scanner.fireAt]; lia. }
  unfold Spec.timerRequests in Hsent, Hfl; cbn [Scanner.callback] in Hsent, Hfl.
  cbn [Scanner.step].
  rewrite Hsent, Hfl, Hb, Hs', Hf', Hs0, Hf0, Hv'; auto.
Qed.

Lemma nth_error_last {A : Type} (l : list A) (x : A) :
  nth_error (l ++ [x])%list (length l) = Some x.
Proof. induction l as [|y l IH]; simpl; [reflexivity | exact IH]. Qed.

Lemma removeNth_last {A : Type} (l : list A) (x : A) :
  Scanner.removeNth (length l) (l ++ [x])%list = l.
Proof. induction l as [|y l IH]; simpl; [reflexivity | now rewrite IH]. Qed.

(** X6.  Two scans in a row: a burst, its silence, the answer to the call
    (a success or a failure alike), then a second burst and its silence.
    The answer empties the buffer and lifts the busy flag, so the second
    call carries the text of the second burst alone, and exactly two calls
    are made when neither text is blank. *)
Theorem consecutive_scans_do_not_accumulate :
  forall (s : Scanner.State) (c1 c2 : ascii) (rest1 rest2 : list (nat * ascii))
         (d1 d2 : nat) (r : Scanner.InvokeResult),
    Scanner.isProcessing s = false ->
    Spec.tracked s ->
    (forall g c, In (g, c) rest1 -> g < 100) ->
    (forall g c, In (g, c) rest2 -> g < 100) ->
    100 <= d1 -> 100 <= d2 ->
    let text1 := Scanner.barcodeInput s ++ Spec.burstText c1 rest1 in
    let text2 := Spec.burstText c2 rest2 in
    Js.truthy (Js.trim text1) = true ->
    let s1 := Scanner.run (Spec.burst c1 rest1 ++ [Scanner.Wait d1])%list s in
    let s2 := Scanner.step (Scanner.Settle (length (Scanner.inFlight s)) r) s1 in
    let s3 := Scanner.run (Spec.burst c2 rest2 ++ [Scanner.Wait d2])%list s2 in
    Scanner.barcodeInput s2 = ""
    /\ Scanner.isProcessing s2 = false
    /\ Scanner.inFlight s2 = Scanner.inFlight s
    /\ Scanner.sent s3
       = (Scanner.sent s ++ Scanner.scanRequest text1
          :: (if Js.truthy (Js.trim text2) then [Scanner.scanRequest text2] else []))%list.
Proof.
  intros s c1 c2 rest1 rest2 d1 d2 r Hp Htr Hg1 Hg2 Hd1 Hd2 text1 text2 Hb1 s1 s2 s3.
  destruct (burst_then_silence s c1 rest1 d1 Hp Htr Hg1 Hd1) as (Hs1 & Hf1 & _).
  fold text1 in Hs1, Hf1; fold s1 in Hs1, Hf1.
  unfold Spec.callbackRequests in Hs1, Hf1; rewrite Hb1 in Hs1, Hf1.
  cbn [negb andb map] in Hs1, Hf1.
  assert (Htr1 : Spec.tracked s1) by (subst s1; now apply tracked_run).
  assert (Hs2 : Scanner.barcodeInput s2 = "" /\ Scanner.isProcessing s2 = false
                /\ Scanner.inFlight s2 = Scanner.inFlight s
                /\ Scanner.sent s2 = Scanner.sent s1).
  { subst s2; cbn [Scanner.step]; unfold Scanner.settle.
    rewrite Hf1, nth_error_last, removeNth_last.
    destruct r; repeat split. }
  destruct Hs2 as (Hb2 & Hp2 & Hf2 & Hsent2).
  assert (Htr2 : Spec.tracked s2) by (subst s2; now apply tracked_step).
  destruct (burst_then_silence s2 c2 rest2 d2 Hp2 Htr2 Hg2 Hd2) as (Hs3 & _).
  fold s3 in Hs3; rewrite Hb2 in Hs3; cbn [append] in Hs3; fold text2 in Hs3.
  unfold Spec.callbackRequests in Hs3; cbn [negb] in Hs3; rewrite andb_true_r in Hs3.
  repeat (split; [assumption|]).
  rewrite Hs3, Hsent2, Hs1, <- app_assoc; reflexivity.
Qed.

Lemma consecutive_scans_do_not_accumulate_witness :
  let s1 := Scanner.run (Spec.burst "1" [(3, "2"%char)] ++ [Scanner.Wait 150])%list
              Scanner.initial in
  let s2 := Scanner.step
              (Scanner.Settle (length (Scanner.inFlight Scanner.initial))
                 (Scanner.InvokeError {| message := None |})) s1 in
  let s3 := Scanner.run (Spec.burst "7" [] ++ [Scanner.Wait 100])%list s2 in
  Scanner.sent s3
  = (Scanner.sent Scanner.initial
     ++ Scanner.scanRequest
          (Scanner.barcodeInput Scanner.initial ++ Spec.burstText "1" [(3, "2"%char)])
        :: (if Js.truthy (Js.trim (Spec.burstText "7" []))
            then [Scanner.scanRequest (Spec.burstText "7" [])] else []))%list.
Proof.
  intros s1 s2 s3.
  apply (consecutive_scans_do_not_accumulate Scanner.initial "1" "7"
           [(3, "2"%char)] [] 150 100
           (Scanner.InvokeError {| message := None |})
           eq_refl tracked_initial).
  - intros g c [H|[]]; injection H as <- _; lia.
  - intros g c [].
  - lia.
  - lia.
  - reflexivity.
Defined.

Example two_scans :
  Scanner.sent
    (Scanner.run
       [Scanner.Key "1"; Scanner.Wait 3; Scanner.Key "2"; Scanner.Wait 150;
        Scanner.Settle 0 (Scanner.InvokeError {| message := None |});
        Scanner.Key "7"; Scanner.Wait 100]
       Scanner.initial)
  = [Scanner.scanRequest "12"; Scanner.scanRequest "7"].
Proof. vm_compute; reflexivity. Qed.

(** ** Searching the table *)

Lemma caseInsensitiveSubstring_narrow (pre q post f : string) :
  Spec.caseInsensitiveSubstring (pre ++ q ++ post) f ->
  Spec.caseInsensitiveSubstring q f.
Proof.
  intros (a & mid & b & -> & Hmid).
  rewrite !toLowerCase_append in Hmid.
  destruct (toLowerCase_split _ _ _ Hmid) as (x & y & -> & _ & Hy).
  destruct (toLowerCase_split _ _ _ Hy) as (y1 & y2 & -> & Hy1 & _).
  exists (a ++ x), y1, (y2 ++ b); split; [|exact Hy1].
  now rewrite !append_assoc.
Qed.

Lemma matchesQuery_narrow (pre q post : string) (item : InventoryItem) :
  Dashboard.matchesQuery (pre ++ q ++ post) item = true ->
  Dashboard.matchesQuery q item = true.
Proof.
  rewrite !matchesQuery_spec; unfold Spec.rowMatches.
  intros [H|[H|[(c & Hc & H)|(z & Hz & H)]]];
    apply caseInsensitiveSubstring_narrow in H; eauto 6.
Qed.

Lemma filter_filter_implies {A : Type} (f g : A -> bool) (l : list A) :
  (forall x, f x = true -> g x = true) ->
  filter f (filter g l) = filter f l.
Proof.
  intros H; induction l as [|x l IH]; simpl; [reflexivity|].
  destruct (g x) eqn:Hg; simpl; rewrite IH; [reflexivity|].
  destruct (f x) eqn:Hf; [|reflexivity].
  rewrite (H x Hf) in Hg; discriminate.
Qed.

(** X8.  On text of code units below U+0100, making the query longer only
    narrows the table: the rows shown for a query that contains another are
    obtained by filtering the rows shown for the shorter one, so no row
    comes back and the order is kept.  In particular each character typed
    at the end of the search box filters the rows that were on screen.  The
    same holds of the filter on UTF-16 strings when rows and queries are
    such text.  (With a capital sigma in the text a row can come back: see
    [final_sigma_row_returns].) *)
Theorem longer_query_narrows :
  (forall (items : list InventoryItem) (pre q post : string),
      filter (Dashboard.matchesQuery (pre ++ q ++ post)) items
      = filter (Dashboard.matchesQuery (pre ++ q ++ post))
          (filter (Dashboard.matchesQuery q) items))
  /\ (forall (s : Dashboard.State) (q : string) (c : ascii),
      Dashboard.filteredInventory (Dashboard.setSearchQuery (q ++ String c "") s)
      = filter (Dashboard.matchesQuery (q ++ String c ""))
          (Dashboard.filteredInventory (Dashboard.setSearchQuery q s))
      /\ length (Dashboard.filteredInventory
                   (Dashboard.setSearchQuery (q ++ String c "") s))
         <= length (Dashboard.filteredInventory (Dashboard.setSearchQuery q s)))
  /\ (forall (items : list InventoryItem) (pre q post : string),
      exists shown,
        Wide.filterRows (Wide.embed q) (map Wide.embedRow items) = Some shown
        /\ Wide.filterRows (Wide.embed (pre ++ q ++ post)) shown
           = Wide.filterRows (Wide.embed (pre ++ q ++ post))
               (map Wide.embedRow items)).
Proof.
  assert (Hgen : forall (items : list InventoryItem) (pre q post : string),
             filter (Dashboard.matchesQuery (pre ++ q ++ post)) items
             = filter (Dashboard.matchesQuery (pre ++ q ++ post))
                 (filter (Dashboard.matchesQuery q) items)).
  { intros items pre q post; symmetry; apply filter_filter_implies.
    intros item; apply matchesQuery_narrow. }
  split; [exact Hgen|split].
  - intros s q c.
    assert (Heq : Dashboard.filteredInventory
                    (Dashboard.setSearchQuery (q ++ String c "") s)
                  = filter (Dashboard.matchesQuery (q ++ String c ""))
                      (Dashboard.filteredInventory (Dashboard.setSearchQuery q s))).
    { simpl; exact (Hgen (Dashboard.inventory s) "" q (String c "")). }
    split; [exact Heq | rewrite Heq; apply filter_length_le].
  - intros items pre q post.
    exists (map Wide.embedRow (filter (Dashboard.matchesQuery q) items)).
    split; [apply filterRows_embed|].
    now rewrite !filterRows_embed, <- Hgen.
Qed.



(** ** The figures above the table *)

Lemma showsLowStock_display (item : InventoryItem) :
  Dashboard.showsLowStock (Dashboard.renderRow None item)
  = (quantity item <=? low_stock_threshold item)%Z
  /\ Dashboard.showsInStock (Dashboard.renderRow None item)
     = negb (quantity item <=? low_stock_threshold item)%Z.
Proof.
  unfold Dashboard.showsLowStock, Dashboard.showsInStock, Dashboard.renderRow,
    Dashboard.statusCell.
  destruct (quantity item <=? low_stock_threshold item)%Z; split; reflexivity.
Qed.

Lemma length_filter_map {A B : Type} (f : B -> bool) (g : A -> B) (l : list A) :
  length (filter f (map g l)) = length (filter (fun x => f (g x)) l).
Proof.
  induction l as [|x l IH]; simpl; [reflexivity|].
  destruct (f (g x)); simpl; now rewrite IH.
Qed.

Lemma length_filter_ext {A : Type} (f g : A -> bool) (l : list A) :
  (forall x, f x = g x) -> length (filter f l) = length (filter g l).
Proof.
  intros H; induction l as [|x l IH]; simpl; [reflexivity|].
  rewrite H; destruct (g x); simpl; now rewrite IH.
Qed.

Lemma length_filter_negb {A : Type} (f : A -> bool) (l : list A) :
  length (filter f l) + length (filter (fun x => negb (f x)) l) = length l.
Proof.
  induction l as [|x l IH]; simpl; [reflexivity|].
  destruct (f x); simpl; lia.
Qed.

(** While the magnitudes met add up to at most 2^53 every addition of
    the fold is exact, and the figure is the sum of the quantities. *)
Lemma totalQuantity_from (l : list InventoryItem) (a : Z) :
  (Z.abs a + Spec.magnitude l <= 2 ^ 53)%Z ->
  fold_left (fun sum item => Js.add sum (quantity item)) l a
  = (a + Spec.sumOfQuantities l)%Z.
Proof.
  assert (Hm : forall l, (0 <= Spec.magnitude l)%Z).
  { clear; intros l; unfold Spec.magnitude.
    induction l as [|y l IH]; simpl; lia. }
  revert a; induction l as [|x l IH]; intros a Hb.
  - simpl; lia.
  - change (Spec.magnitude (x :: l))
      with (Z.abs (quantity x) + Spec.magnitude l)%Z in Hb.
    change (Spec.sumOfQuantities (x :: l))
      with (quantity x + Spec.sumOfQuantities l)%Z.
    pose proof (Hm l).
    cbn [fold_left]; unfold Js.add at 2.
    rewrite numberValue_exact by (unfold Spec.exact; lia).
    rewrite IH by lia; lia.
Qed.

Lemma sumOfQuantities_perm (l l' : list InventoryItem) :
  Permutation l l' -> Spec.sumOfQuantities l = Spec.sumOfQuantities l'.
Proof. unfold Spec.sumOfQuantities; induction 1; simpl in *; lia. Qed.

Lemma magnitude_perm (l l' : list InventoryItem) :
  Permutation l l' -> Spec.magnitude l = Spec.magnitude l'.
Proof. unfold Spec.magnitude; induction 1; simpl in *; lia. Qed.

(** Past 2^53 the additions round, and the figure depends on the order in
    which the items are listed. *)
Example total_quantity_depends_on_order :
  let big := sampleItem 9007199254740992 10 in
  let one := sampleItem 1 10 in
  Dashboard.totalQuantity (Dashboard.setInventory [big; one; one] dashboardWithItem)
  = 9007199254740992%Z
  /\ Dashboard.totalQuantity (Dashboard.setInventory [one; one; big] dashboardWithItem)
     = 9007199254740994%Z.
Proof. split; vm_compute; reflexivity. Qed.

(** X10.  The figures above the table agree with the table: with nothing
    under edit, the number of rows of the whole inventory that carry the
    "Low Stock" badge is the "Low Stock Alerts" figure, and the rows that
    carry "In Stock" make up the rest of "Total Items".  While the
    magnitudes of the quantities add up to at most 2^53, "Total Quantity"
    is the sum of the quantities, whatever the order in which the backend
    lists the items; the low-stock figure never depends on that order.
    The figures count the whole inventory: a search leaves them as they
    are. *)
Theorem figures_agree_with_table :
  forall s : Dashboard.State,
    let rows := map (Dashboard.renderRow None) (Dashboard.inventory s) in
    length (filter Dashboard.showsLowStock rows) = Dashboard.lowStockItems s
    /\ length (filter Dashboard.showsInStock rows) + Dashboard.lowStockItems s
       = Dashboard.totalItems s
    /\ ((Spec.magnitude (Dashboard.inventory s) <= 2 ^ 53)%Z ->
        Dashboard.totalQuantity s = Spec.sumOfQuantities (Dashboard.inventory s)
        /\ forall items,
             Permutation (Dashboard.inventory s) items ->
             Dashboard.totalQuantity (Dashboard.setInventory items s)
             = Dashboard.totalQuantity s)
    /\ (forall items,
          Permutation (Dashboard.inventory s) items ->
          Dashboard.lowStockItems (Dashboard.setInventory items s)
          = Dashboard.lowStockItems s)
    /\ (forall q,
          Dashboard.totalItems (Dashboard.setSearchQuery q s) = Dashboard.totalItems s
          /\ Dashboard.totalQuantity (Dashboard.setSearchQuery q s)
             = Dashboard.totalQuantity s
          /\ Dashboard.lowStockItems (Dashboard.setSearchQuery q s)
             = Dashboard.lowStockItems s).
Proof.
  intros s rows; subst rows.
  unfold Dashboard.lowStockItems, Dashboard.totalItems, Dashboard.totalQuantity.
  set (low := fun item : InventoryItem =>
                (quantity item <=? low_stock_threshold item)%Z).
  assert (Hlow : length (filter Dashboard.showsLowStock
                           (map (Dashboard.renderRow None) (Dashboard.inventory s)))
                 = length (filter low (Dashboard.inventory s))).
  { rewrite length_filter_map; apply length_filter_ext.
    intros item; apply showsLowStock_display. }
  assert (Hin : length (filter Dashboard.showsInStock
                          (map (Dashboard.renderRow None) (Dashboard.inventory s)))
                = length (filter (fun x => negb (low x)) (Dashboard.inventory s))).
  { rewrite length_filter_map; apply length_filter_ext.
    intros item; apply showsLowStock_display. }
  split; [exact Hlow|split; [|split; [|split]]].
  - rewrite Hin; pose proof (length_filter_negb low (Dashboard.inventory s)); lia.
  - intros Hb; split.
    + rewrite totalQuantity_from by (simpl; lia); lia.
    + intros items Hperm; cbn [Dashboard.setInventory Dashboard.filterEffect
        Dashboard.setFilteredInventory Dashboard.setInventoryField
        Dashboard.inventory].
      rewrite !totalQuantity_from;
        rewrite <- ?(magnitude_perm _ _ Hperm); try (simpl; lia).
      now rewrite (sumOfQuantities_perm _ _ Hperm).
  - intros items Hperm; simpl.
    symmetry; apply Permutation_length.
    clear Hlow Hin; induction Hperm; simpl;
      repeat match goal with |- context [low ?x] => destruct (low x) end;
      eauto using Permutation.
  - intros q; repeat split.
Qed.

Lemma figures_agree_with_table_witness :
  Dashboard.totalQuantity
    (Dashboard.setInventory [sampleItem 5 1; sampleItem 3 10] dashboardWithItem)
  = Dashboard.totalQuantity
      (Dashboard.setInventory [sampleItem 3 10; sampleItem 5 1] dashboardWithItem).
Proof.
  apply (figures_agree_with_table
           (Dashboard.setInventory [sampleItem 3 10; sampleItem 5 1] dashboardWithItem)).
  - vm_compute; discriminate.
  - apply perm_swap.
Defined.

(** ** The edit form *)

(** Whatever is typed, the working copy stays a copy of the opened row in
    all that the form cannot change. *)
Lemma applyEdits_copy (edits : list Dashboard.Edit) :
  forall (s : Dashboard.State) (item e : InventoryItem),
    id e = id item -> barcode e = barcode item ->
    user_id e = user_id item ->
    low_stock_threshold e = low_stock_threshold item ->
    exists e',
      Spec.applyEdits edits (Dashboard.setEditingItem (Some e) s)
      = Dashboard.setEditingItem (Some e') s
      /\ id e' = id item /\ barcode e' = barcode item
      /\ user_id e' = user_id item
      /\ low_stock_threshold e' = low_stock_threshold item.
Proof.
  induction edits as [|c edits IH]; intros s item e Hid Hb Hu Ht.
  - exists e; repeat split; assumption.
  - unfold Spec.applyEdits; cbn [fold_left].
    destruct c as [v|v|v|v];
      [ destruct (IH s item (Dashboard.withProduct v e)) as (e' & H) | 
        destruct (IH s item (Dashboard.withColour v e)) as (e' & H) |
        destruct (IH s item (Dashboard.withSize v e)) as (e' & H) |
        destruct (IH s item (Dashboard.withQuantity (Dashboard.coerceQuantity v) e))
          as (e' & H) ];
      try assumption; exists e'; exact H.
Qed.

(** X11.  A row is opened for edit and anything is typed into the form.
    Nothing is sent and neither the inventory nor the rows change; the rows
    of the other items are drawn as before; Cancel gives back the very state
    the view had with nothing under edit; Save makes exactly one update
    call, addressed to the id of the opened row, carrying the working copy
    with the threshold of the row unchanged. *)
Theorem edit_form_is_local :
  forall (s : Dashboard.State) (item : InventoryItem)
         (edits : list Dashboard.Edit) (date : Z),
    let s1 := Spec.applyEdits edits (Dashboard.setEditingItem (Some item) s) in
    Dashboard.sent s1 = Dashboard.sent s
    /\ Dashboard.inFlight s1 = Dashboard.inFlight s
    /\ Dashboard.inventory s1 = Dashboard.inventory s
    /\ Dashboard.filteredInventory s1 = Dashboard.filteredInventory s
    /\ Dashboard.setEditingItem None s1 = Dashboard.setEditingItem None s
    /\ (forall other,
          id other <> id item ->
          Dashboard.renderRow (Dashboard.editingItem s1) other
          = Dashboard.renderRow None other)
    /\ exists e,
         Dashboard.editingItem s1 = Some e
         /\ id e = id item /\ barcode e = barcode item
         /\ low_stock_threshold e = low_stock_threshold item
         /\ Dashboard.sent (Dashboard.save date s1)
            = (Dashboard.sent s ++ [Spec.updateOf date e])%list
         /\ Dashboard.inFlight (Dashboard.save date s1)
            = (Dashboard.inFlight s
               ++ [(Dashboard.AwaitUpdate, Spec.updateOf date e)])%list.
Proof.
  intros s item edits date s1.
  destruct (applyEdits_copy edits s item item eq_refl eq_refl eq_refl eq_refl)
    as (e & Hs1 & Hid & Hb & _ & Ht).
  fold s1 in Hs1; rewrite Hs1.
  do 5 (split; [reflexivity|]).
  split.
  - intros other Hother; unfold Dashboard.renderRow; simpl.
    destruct (String.eqb_spec (id e) (id other)); [congruence | reflexivity].
  - exists e; repeat split; assumption.
Qed.

(** X12.  An item whose colour and size are absent and the same item with
    the empty text in their place (which is what the edit form stores once
    its fields were touched and cleared) cannot be told apart in the
    table: they match the same queries and are drawn with the same cells,
    in display and under edit. *)
Theorem empty_colour_is_no_colour :
  forall (item : InventoryItem) (q : string) (editing : option InventoryItem),
    Dashboard.matchesQuery q (Spec.withEmptyColourAndSize item)
    = Dashboard.matchesQuery q (Spec.withNoColourNoSize item)
    /\ Dashboard.renderRow editing (Spec.withEmptyColourAndSize item)
       = Dashboard.renderRow editing (Spec.withNoColourNoSize item)
    /\ forall row,
         Dashboard.renderRow (Some (Spec.withEmptyColourAndSize item)) row
         = Dashboard.renderRow (Some (Spec.withNoColourNoSize item)) row.
Proof.
  intros item q editing; split; [|split].
  - unfold Dashboard.matchesQuery, Dashboard.optIncludes; simpl.
    rewrite !orb_false_r.
    destruct (Js.toLowerCase q) as [|c l] eqn:Hq; simpl.
    + now rewrite includes_empty.
    + now rewrite !orb_false_r.
  - destruct editing as [e|]; reflexivity.
  - intros row; reflexivity.
Qed.

(** ** Failures of the table's calls *)

(** X13.  When a call of the table view fails, whichever it is, the
    inventory, the rows, the query and the row under edit with what was
    typed in it are all as before, and no call is made in reaction; a
    failed load shows nothing and ends the loading state, a failed update
    or delete raises its fixed alert, which does not carry the failure's
    own description. *)
Theorem table_failure_keeps_state :
  forall (s : Dashboard.State) (i : nat) (k : Dashboard.Awaiting)
         (req : Dashboard.Request) (e : Failure),
    nth_error (Dashboard.inFlight s) i = Some (k, req) ->
    let s' := Dashboard.step (Dashboard.Settle i (Dashboard.QueryError e)) s in
    Dashboard.inventory s' = Dashboard.inventory s
    /\ Dashboard.filteredInventory s' = Dashboard.filteredInventory s
    /\ Dashboard.searchQuery s' = Dashboard.searchQuery s
    /\ Dashboard.editingItem s' = Dashboard.editingItem s
    /\ Dashboard.sent s' = Dashboard.sent s
    /\ Dashboard.inFlight s' = Dashboard.removeNth i (Dashboard.inFlight s)
    /\ Dashboard.alerts s' = (Dashboard.alerts s ++ Spec.failureAlert k)%list
    /\ Dashboard.loading s'
       = match k with
         | Dashboard.AwaitLoad => false
         | _ => Dashboard.loading s
         end.
Proof.
  intros s i k req e Hi s'; subst s'; cbn [Dashboard.step].
  unfold Dashboard.settle; rewrite Hi.
  destruct k; simpl; rewrite ?app_nil_r; repeat split.
Qed.

Lemma table_failure_keeps_state_witness :
  let s := Dashboard.save 1000
             (Dashboard.onQuantityChange "8"
                (Dashboard.setEditingItem (Some (sampleItem 3 10)) dashboardWithItem)) in
  let s' := Dashboard.step
              (Dashboard.Settle 0 (Dashboard.QueryError {| message := Some "offline" |}))
              s in
  Dashboard.editingItem s' = Some (sampleItem 8 10)
  /\ Dashboard.alerts s' = ["Failed to update item"].
Proof.
  intros s s'.
  destruct (table_failure_keeps_state s 0 Dashboard.AwaitUpdate
              (Spec.updateOf 1000 (sampleItem 8 10))
              {| message := Some "offline" |} eq_refl)
    as (_ & _ & _ & Hedit & _ & _ & Halert & _).
  split; [exact Hedit | exact Halert].
Defined.

(** ** The lock of the spreadsheet bridge *)

Lemma removeNth_filter_length {A : Type} (f : A -> bool) (l : list A) (i : nat)
    (x : A) :
  nth_error l i = Some x ->
  length (filter f l)
  = length (filter f (Settings.removeNth i l)) + (if f x then 1 else 0).
Proof.
  revert i; induction l as [|y l IH]; intros [|i] H; simpl in H; try discriminate.
  - injection H as ->; simpl; destruct (f x); simpl; lia.
  - simpl; destruct (f y); simpl; rewrite (IH i H); lia.
Qed.

Lemma transferLock_frame (s s' : Settings.State) :
  Settings.loading s' = Settings.loading s ->
  Settings.inFlight s' = Settings.inFlight s ->
  Spec.transferLock s -> Spec.transferLock s'.
Proof.
  unfold Spec.transferLock, Settings.transfersInFlight; intros -> ->; auto.
Qed.

Lemma transferLock_step (e : Settings.Event) (s : Settings.State) :
  Spec.transferLock s -> Spec.transferLock (Settings.step e s).
Proof.
  intros Hinv.
  destruct e as [v|v|v|v| | |i o]; cbn [Settings.step];
    try (now apply (transferLock_frame s)).
  - destruct (Settings.loading s) eqn:Hl; [exact Hinv|].
    destruct Hinv as [(Hl' & _)|(_ & Hn)]; [congruence|].
    unfold Settings.handleImport.
    destruct (_ || _); [right; split; [reflexivity | exact Hn]|].
    left; split; [reflexivity|].
    unfold Settings.transfersInFlight in *; simpl.
    rewrite filter_app, length_app, Hn; reflexivity.
  - destruct (Settings.loading s) eqn:Hl; [exact Hinv|].
    destruct Hinv as [(Hl' & _)|(_ & Hn)]; [congruence|].
    unfold Settings.handleExport.
    destruct (_ || _); [right; split; [reflexivity | exact Hn]|].
    left; split; [reflexivity|].
    unfold Settings.transfersInFlight in *; simpl.
    rewrite filter_app, length_app, Hn; reflexivity.
  - unfold Settings.settle.
    destruct (nth_error (Settings.inFlight s) i) as [[k q]|] eqn:Hi; [|exact Hinv].
    pose proof (removeNth_filter_length Settings.isTransfer _ _ _ Hi) as Hlen.
    unfold Spec.transferLock, Settings.transfersInFlight in *.
    destruct k, o as [r|r|r]; try exact Hinv; cbn [Settings.isTransfer fst] in Hlen.
    + right; destruct r as [f|d]; simpl; (split; [reflexivity|]);
        rewrite ?filter_app, ?length_app; simpl;
        destruct Hinv as [(_ & Hn)|(_ & Hn)]; lia.
    + right; destruct r as [f|d]; simpl; (split; [reflexivity|]);
        rewrite ?filter_app, ?length_app; simpl;
        destruct Hinv as [(_ & Hn)|(_ & Hn)]; lia.
    + destruct r as [f|[rows|]]; simpl;
        destruct Hinv as [(Hl & Hn)|(Hl & Hn)];
        [left|right|left|right|left|right]; (split; [exact Hl | lia]).
Qed.

(** X14.  In every state the settings view can reach after mounting, the
    loading flag is set exactly while one import or export is awaited, and
    never are two of them awaited at once: the shared flag that disables
    both submit buttons is a lock that holds, whatever the outcome of the
    calls and however the history queries interleave. *)
Theorem one_transfer_at_a_time :
  forall (u : string) (es : list Settings.Event),
    let s := Settings.run es (Settings.mount u) in
    Settings.transfersInFlight s <= 1
    /\ (Settings.loading s = true <-> Settings.transfersInFlight s = 1).
Proof.
  intros u es s.
  assert (Hinv : Spec.transferLock s).
  { subst s.
    assert (H0 : Spec.transferLock (Settings.mount u)) by (right; split; reflexivity).
    revert H0; generalize (Settings.mount u).
    induction es as [|e es IH]; intros s0 H0; simpl; [exact H0|].
    now apply IH, transferLock_step. }
  destruct Hinv as [(Hl & Hn)|(Hl & Hn)]; rewrite Hl, Hn; split;
    try lia; split; congruence || discriminate.
Qed.

(** X15.  The export form sends its call exactly when the spreadsheet id,
    the range and the access token are all present, whatever the API key:
    then one export call carrying the three fields is made and the loading
    flag is set; otherwise no call is made and the banner is the error
    "Please fill in all required fields including access token", with the
    loading flag down. *)
Theorem export_needs_its_three_fields :
  forall s : Settings.State,
    let ready := Js.truthy (Settings.spreadsheetId s)
                 && Js.truthy (Settings.range s)
                 && Js.truthy (Settings.accessToken s) in
    let s' := Settings.handleExport s in
    Settings.sent s'
    = (if ready
       then Settings.sent s
            ++ [Settings.InvokeExport (Settings.spreadsheetId s) (Settings.range s)
                  (Settings.accessToken s)]
       else Settings.sent s)%list
    /\ Settings.loading s' = ready
    /\ Settings.message s'
       = (if ready then None
          else Some {| type := error;
                       text := "Please fill in all required fields including access token" |})
    /\ Settings.syncHistory s' = Settings.syncHistory s
    /\ forall key,
         Settings.sent (Settings.handleExport (Settings.setApiKey key s))
         = Settings.sent s'.
Proof.
  intros s ready s'; subst ready s'; unfold Settings.handleExport; simpl.
  destruct (Js.truthy (Settings.spreadsheetId s)),
    (Js.truthy (Settings.range s)), (Js.truthy (Settings.accessToken s));
    simpl; repeat split.
Qed.

(** ** Where the inventory comes from *)

(** X16.  The table is never patched locally.  The inventory held by the
    view changes only when a load is answered with data; in particular,
    when an update or a delete succeeds the inventory and the rows are
    still the old ones, the form is closed after an update, and exactly one
    reload is requested, whose answer alone brings the change on screen. *)
Theorem inventory_changes_only_by_load :
  (forall (e : Dashboard.Event) (s : Dashboard.State),
      Dashboard.inventory (Dashboard.step e s) <> Dashboard.inventory s ->
      exists i data q,
        e = Dashboard.Settle i (Dashboard.QueryData data)
        /\ nth_error (Dashboard.inFlight s) i = Some (Dashboard.AwaitLoad, q))
  /\ (forall (s : Dashboard.State) (i : nat) (k : Dashboard.Awaiting)
             (req : Dashboard.Request) (data : option (list InventoryItem)),
      nth_error (Dashboard.inFlight s) i = Some (k, req) ->
      k <> Dashboard.AwaitLoad ->
      let s' := Dashboard.step (Dashboard.Settle i (Dashboard.QueryData data)) s in
      Dashboard.inventory s' = Dashboard.inventory s
      /\ Dashboard.filteredInventory s' = Dashboard.filteredInventory s
      /\ Dashboard.sent s'
         = (Dashboard.sent s ++ [Dashboard.SelectItems (Dashboard.user s)])%list
      /\ Dashboard.inFlight s'
         = (Dashboard.removeNth i (Dashboard.inFlight s)
            ++ [(Dashboard.AwaitLoad, Dashboard.SelectItems (Dashboard.user s))])%list
      /\ Dashboard.editingItem s'
         = match k with
           | Dashboard.AwaitUpdate => None
           | _ => Dashboard.editingItem s
           end).
Proof.
  split.
  - intros e s Hneq.
    assert (Hedit : forall c,
               Dashboard.inventory (Dashboard.applyEdit c s) = Dashboard.inventory s).
    { intros [v|v|v|v]; simpl;
        unfold Dashboard.onProductChange, Dashboard.onColourChange,
          Dashboard.onSizeChange, Dashboard.onQuantityChange;
        destruct (Dashboard.editingItem s); reflexivity. }
    destruct e as [q| |n|n confirmed|c|date| |i r]; cbn [Dashboard.step] in Hneq.
    1-7: exfalso; apply Hneq; clear Hneq.
    + destruct (Dashboard.loading s); reflexivity.
    + reflexivity.
    + destruct (Dashboard.loading s); [reflexivity|].
      destruct (nth_error _ n); [|reflexivity].
      destruct (Dashboard.isEditing s _); reflexivity.
    + destruct (Dashboard.loading s); [reflexivity|].
      destruct (nth_error _ n); [|reflexivity].
      destruct (Dashboard.isEditing s _); [reflexivity|].
      destruct confirmed; reflexivity.
    + destruct (Dashboard.loading s); [reflexivity|].
      destruct (Dashboard.formShown s); auto.
    + destruct (Dashboard.loading s); [reflexivity|].
      destruct (Dashboard.formShown s); [|reflexivity].
      unfold Dashboard.save; destruct (Dashboard.editingItem s); reflexivity.
    + destruct (Dashboard.loading s); [reflexivity|].
      destruct (Dashboard.formShown s); reflexivity.
    + unfold Dashboard.settle in Hneq.
      destruct (nth_error (Dashboard.inFlight s) i) as [[k q]|] eqn:Hi;
        [|now destruct Hneq].
      destruct k, r as [f|data]; try (exfalso; apply Hneq; reflexivity).
      exists i, data, q; split; [reflexivity | exact Hi].
  - intros s i k req data Hi Hk s'; subst s'; cbn [Dashboard.step].
    unfold Dashboard.settle; rewrite Hi.
    destruct k; [congruence | |]; repeat split.
Qed.

Lemma inventory_changes_only_by_load_witness :
  let s := Dashboard.save 1000
             (Dashboard.onQuantityChange "8"
                (Dashboard.setEditingItem (Some (sampleItem 3 10)) dashboardWithItem)) in
  let s' := Dashboard.step (Dashboard.Settle 0 (Dashboard.QueryData None)) s in
  Dashboard.inventory s' = [sampleItem 3 10]
  /\ Dashboard.renderRows s' = [Dashboard.renderRow None (sampleItem 3 10)]
  /\ Dashboard.sent s'
     = [Spec.updateOf 1000 (sampleItem 8 10); Dashboard.SelectItems "user-1"].
Proof.
  intros s s'.
  destruct inventory_changes_only_by_load as (_ & Hok).
  destruct (Hok s 0 Dashboard.AwaitUpdate (Spec.updateOf 1000 (sampleItem 8 10)) None
              eq_refl) as (Hinv & _ & Hsent & _).
  - discriminate.
  - split; [exact Hinv | split; [reflexivity | exact Hsent]].
Defined.
